(** * The eCTF bootloader: command handlers, page loader and integrity pipeline

    A shallow embedding of [bootloader/src/bootloader.c].  The device is a
    32-bit little-endian microcontroller: addresses and [uint32_t] values are
    integers taken modulo 2^32, bytes are [Byte.byte], the address space is a
    total map from addresses to bytes, and the serial link is a pair of byte
    queues.  Handlers are programs of a small state-and-fault monad.

    Embedded here: [handle_readback], [load_data], [compute_sha256],
    [do_AES_decrypt], [decrypt_firmware], [handle_update] and
    [handle_configure], [handle_boot] and the dispatch loop of [main].
    [handle_boot] is followed up to the call that enters the firmware; the
    example block of [main] under [EXAMPLE_AES] and [uart_init] are left
    out. *)

From Stdlib Require Import ZArith List Lia Bool.
From Stdlib Require Import Strings.Byte.
Import ListNotations.
Open Scope Z_scope.

Ltac Zify.zify_post_hook ::= Z.div_mod_to_equations.

(* ================================================================== *)
(** * Machine integers and bytes *)
(* ================================================================== *)

(** [uint32_t] arithmetic wraps modulo 2^32. *)
Definition wrap32 (x : Z) : Z := x mod 4294967296.

(** [uint8_t] conversion of an integer. *)
Definition wrap8 (x : Z) : Z := x mod 256.

Definition byte_to_Z (b : byte) : Z := Z.of_N (Byte.to_N b).

Definition byte_of_Z (x : Z) : byte :=
  match Byte.of_N (Z.to_N (wrap8 x)) with
  | Some b => b
  | None => x00
  end.

(** The pattern [((uint32_t)b1) << 8 | (uint32_t)b0] of the handlers. *)
Definition be16 (b1 b0 : byte) : Z :=
  Z.lor (wrap32 (Z.shiftl (byte_to_Z b1) 8)) (byte_to_Z b0).

(** The pattern [b3 << 24 | b2 << 16 | b1 << 8 | b0] on [uint32_t]. *)
Definition be32 (b3 b2 b1 b0 : byte) : Z :=
  Z.lor (Z.lor (Z.lor (wrap32 (Z.shiftl (byte_to_Z b3) 24))
                      (wrap32 (Z.shiftl (byte_to_Z b2) 16)))
               (wrap32 (Z.shiftl (byte_to_Z b1) 8)))
        (byte_to_Z b0).

(* ================================================================== *)
(** * Address space *)
(* ================================================================== *)

Definition memory := Z -> byte.

Definition store8 (m : memory) (a : Z) (b : byte) : memory :=
  fun x => if x =? a then b else m x.

(** Bytes are stored at consecutive addresses, wrapping at 2^32. *)
Fixpoint store_bytes (m : memory) (a : Z) (bs : list byte) : memory :=
  match bs with
  | [] => m
  | b :: rest => store_bytes (store8 m (wrap32 a) b) (a + 1) rest
  end.

Definition load_bytes (m : memory) (a : Z) (n : Z) : list byte :=
  map (fun i => m (wrap32 (a + Z.of_nat i))) (seq 0 (Z.to_nat n)).

(** A little-endian 32-bit word as its four bytes, and back. *)
Definition word_bytes (w : Z) : list byte :=
  [byte_of_Z w; byte_of_Z (Z.shiftr w 8);
   byte_of_Z (Z.shiftr w 16); byte_of_Z (Z.shiftr w 24)].

Definition load32 (m : memory) (a : Z) : Z :=
  byte_to_Z (m (wrap32 a))
  + 256 * byte_to_Z (m (wrap32 (a + 1)))
  + 65536 * byte_to_Z (m (wrap32 (a + 2)))
  + 16777216 * byte_to_Z (m (wrap32 (a + 3))).

(** What a [uint8_t *] designates: the byte at each offset from it. *)
Definition buffer := Z -> byte.

Definition buffer_of (l : list byte) : buffer :=
  fun i => nth (Z.to_nat i) l x00.

Definition buffer_from (p : buffer) (off : Z) : buffer :=
  fun i => p (off + i).

Definition buffer_bytes (p : buffer) (n : Z) : list byte :=
  map (fun i => p (Z.of_nat i)) (seq 0 (Z.to_nat n)).

(* ================================================================== *)
(** * Flash Region Map *)
(* ================================================================== *)

(** [flash.h] is not among the sources.  The storage layout comment of
    bootloader.c fixes both constants: the size slot [FLASH_START + 0x2B400]
    is listed at [0x0002B400], and the firmware area
    [FIRMWARE_METADATA_PTR + 2 * FLASH_PAGE_SIZE] at [0x0002BC00]. *)
Definition FLASH_START : Z := 0.
Definition FLASH_PAGE_SIZE : Z := 1024.

Definition FIRMWARE_AES_PTR : Z := wrap32 (FLASH_START + 0x2B370).
Definition FIRMWARE_HASH_PTR : Z := FLASH_START + 0x2B3B0.
Definition FIRMWARE_METADATA_PTR : Z := wrap32 (FLASH_START + 0x2B400).
Definition FIRMWARE_SIZE_PTR : Z := wrap32 (FIRMWARE_METADATA_PTR + 0).
Definition FIRMWARE_VERSION_PTR : Z := wrap32 (FIRMWARE_METADATA_PTR + 4).
Definition FIRMWARE_RELEASE_MSG_PTR : Z := wrap32 (FIRMWARE_METADATA_PTR + 8).
Definition FIRMWARE_RELEASE_MSG_PTR2 : Z :=
  wrap32 (FIRMWARE_METADATA_PTR + FLASH_PAGE_SIZE).
(** The cast of this macro is [(unsigned char)], not [(unsigned char * )]:
    the address is reduced to its low eight bits. *)
Definition FIRMWARE_DATA_PTR : Z :=
  wrap8 (FIRMWARE_METADATA_PTR + FLASH_PAGE_SIZE * 2).
Definition FIRMWARE_STORAGE_PTR : Z :=
  wrap32 (FIRMWARE_METADATA_PTR + FLASH_PAGE_SIZE * 2).
Definition FIRMWARE_BOOT_PTR : Z := wrap32 0x20004000.

Definition CONFIGURATION_METADATA_PTR : Z :=
  wrap32 (FIRMWARE_STORAGE_PTR + FLASH_PAGE_SIZE * 16).
Definition CONFIGURATION_SIZE_PTR : Z := wrap32 (CONFIGURATION_METADATA_PTR + 0).
Definition CONFIGURATION_STORAGE_PTR : Z :=
  wrap32 (CONFIGURATION_METADATA_PTR + FLASH_PAGE_SIZE).

Definition FRAME_OK : byte := x00.
Definition FRAME_BAD : byte := x01.

Definition aes_key : list byte :=
  [x1a; x2a; x3a; x4a; x5a; x6a; x7a; x8a;
   x1a; x2a; x3a; x4a; x5a; x6a; x7a; x8a].

(** [uart.h] is not among the sources; [HOST_UART] is the one interface the
    bootloader names, passed through to the UART primitives. *)
Inductive uart_base : Type := HOST_UART.

(* ================================================================== *)
(** * Device state and the handler monad *)
(* ================================================================== *)

(** Calls made on the flash driver, in order. *)
Inductive flash_op : Type :=
| FlashErasePage (addr : Z)
| FlashWriteWord (data addr : Z)
| FlashWrite (data : list byte) (addr count : Z).

Record state : Type := mkState {
  mem : memory;             (* the address space, flash included *)
  rx : list byte;           (* bytes the host has sent, not yet read *)
  tx : list byte;           (* bytes the device has sent, oldest first *)
  flash_log : list flash_op (* flash driver calls so far, oldest first *)
}.

(** A blocking read on an exhausted host never returns; a line that does not
    fit the array it is read into overruns the stack frame. *)
Inductive fault : Type :=
| HostStalled
| BufferOverrun.

Inductive outcome (A : Type) : Type :=
| Done (a : A) (s : state)
| Fault (f : fault).
Arguments Done {A} a s.
Arguments Fault {A} f.

Definition M (A : Type) : Type := state -> outcome A.

Definition ret {A : Type} (a : A) : M A := fun s => Done a s.

Definition bind {A B : Type} (m : M A) (k : A -> M B) : M B :=
  fun s => match m s with
           | Done a s' => k a s'
           | Fault f => Fault f
           end.

Notation "x <- m ;; k" := (bind m (fun x => k))
  (at level 61, m at next level, right associativity).
Notation "m ;;; k" := (bind m (fun _ => k))
  (at level 61, right associativity).

(* ================================================================== *)
(** * Collaborators: serial link and flash driver *)
(* ================================================================== *)

(** Modelled from the spec: [uart_readb] of the UART driver (uart.c) is
    missing.  Section 6 gives a byte-level blocking read; a read on an
    exhausted host is the stall of section 7. *)
Definition uart_readb (uart : uart_base) : M byte :=
  fun s => match rx s with
           | [] => Fault HostStalled
           | b :: rest => Done b (mkState (mem s) rest (tx s) (flash_log s))
           end.

(** Modelled from the spec: [uart_read] (uart.c) is missing.  Section 6 gives
    [read(n) -> bytes], blocking until all [n] bytes have come. *)
Definition uart_read (uart : uart_base) (n : Z) : M (list byte) :=
  fun s => if Z.of_nat (length (rx s)) <? n then Fault HostStalled
           else Done (firstn (Z.to_nat n) (rx s))
                     (mkState (mem s) (skipn (Z.to_nat n) (rx s)) (tx s)
                              (flash_log s)).

(** Modelled from the spec: [uart_writeb] (uart.c) is missing.  Section 6
    gives a byte-level [write]. *)
Definition uart_writeb (uart : uart_base) (b : byte) : M unit :=
  fun s => Done tt (mkState (mem s) (rx s) (tx s ++ [b]) (flash_log s)).

(** Modelled from the spec: [uart_write] (uart.c) is missing.  Section 4.6
    has it transmit [len] bytes starting at the address [buf]. *)
Definition uart_write (uart : uart_base) (buf : Z) (len : Z) : M unit :=
  fun s => Done tt (mkState (mem s) (rx s)
                            (tx s ++ load_bytes (mem s) buf len)
                            (flash_log s)).

(** The first address of the flash page that holds [a]. *)
Definition page_base (a : Z) : Z := a - a mod FLASH_PAGE_SIZE.

(** Modelled from the spec: the effect of a page erase; the flash driver
    (flash.c) is missing.  The glossary has erasing set every byte of the
    page to 0xFF. *)
Definition erase (m : memory) (addr : Z) : memory :=
  fun x => if (page_base addr <=? x) && (x <? page_base addr + FLASH_PAGE_SIZE)
           then xff else m x.

(** Modelled from the spec: [flash_erase_page] (flash.c) is missing.  Section
    6 gives [erase_page(address)], which never fails.  Every address the
    handlers erase is the first address of its page. *)
Definition flash_erase_page (addr : Z) : M unit :=
  fun s => Done tt (mkState (erase (mem s) addr) (rx s) (tx s)
                            (flash_log s ++ [FlashErasePage addr])).

(** Modelled from the spec: [flash_write_word] (flash.c) is missing.  It
    programs one 32-bit word, stored least significant byte first. *)
Definition flash_write_word (data addr : Z) : M unit :=
  fun s => Done tt (mkState (store_bytes (mem s) addr (word_bytes data))
                            (rx s) (tx s)
                            (flash_log s ++ [FlashWriteWord data addr])).

(** Modelled from the spec: [flash_write] (flash.c) is missing.  Section 6
    gives [write_page(data, address, word_count)], which never partially
    fails; [count] words are the [4 * count] bytes the data pointer
    designates.  The handlers program bytes of a page they have just erased,
    so a programmed byte reads back as written. *)
Definition flash_write (data : buffer) (addr count : Z) : M unit :=
  fun s => let bytes := buffer_bytes data (4 * count) in
           Done tt (mkState (store_bytes (mem s) addr bytes) (rx s) (tx s)
                            (flash_log s ++ [FlashWrite bytes addr count])).

(** BearSSL's block-cipher class descriptors, as far as the bootloader reads
    them: the two size fields, and for decryption the [init] and [run]
    methods.  [run] maps the chaining value and the data to the new data:
    CBC decryption in place.  BearSSL asks for a length that is a multiple
    of the block size; the bootloader passes its length on unchecked, and
    for a length that is not, the bytes shown here are not the library's. *)
Record br_block_cbcenc_class : Type := {
  cbcenc_block_size : Z;
  cbcenc_log_block_size : Z
}.

Record br_block_cbcdec_class : Type := {
  cbcdec_context : Type;
  cbcdec_block_size : Z;
  cbcdec_log_block_size : Z;
  cbcdec_init : list byte -> Z -> cbcdec_context;
  cbcdec_run : cbcdec_context -> list byte -> list byte -> list byte
}.

Section Bootloader.

Set Default Proof Using "Type".

(** Build-time and library collaborators of bootloader.c. *)

(** [OLDEST_VERSION] comes from the build command line. *)
Variable OLDEST_VERSION : Z.

(** The byte that ends a line on the serial link. *)
Variable line_delimiter : byte.

(** [br_sha256_init], [br_sha256_update], [br_sha256_out] in one. *)
Variable br_sha256 : list byte -> list byte.

Variable br_aes_big_cbcenc_vtable : br_block_cbcenc_class.
Variable br_aes_big_cbcdec_vtable : br_block_cbcdec_class.

(** What the stack holds where [rel_msg] lies and behind it, before the
    release message is read: the C code never initialises the array. *)
Variable rel_msg_residue : buffer.

(** Modelled from the spec: the line scan of [uart_readline] (uart.c) is
    missing.  Section 4.4 has a delimiter-terminated read: the bytes before
    the first delimiter, and what follows it. *)
Fixpoint read_line (input : list byte) : option (list byte * list byte) :=
  match input with
  | [] => None
  | c :: rest =>
      if Byte.eqb c line_delimiter then Some ([], rest)
      else match read_line rest with
           | Some (line, rest') => Some (c :: line, rest')
           | None => None
           end
  end.

(** Modelled from the spec: [uart_readline] (uart.c) is missing.  Section 4.4
    has the stored length include the terminator; the call returns the
    number of bytes before the delimiter.  The array argument is given by its
    declared size, and a line that does not fit it with its terminator
    overruns the array. *)
Definition uart_readline (uart : uart_base) (capacity : Z) : M (list byte) :=
  fun s => match read_line (rx s) with
           | None => Fault HostStalled
           | Some (line, rest) =>
               if capacity <? Z.of_nat (length line) + 1
               then Fault BufferOverrun
               else Done line (mkState (mem s) rest (tx s) (flash_log s))
           end.

(* ================================================================== *)
(** * Readback Handler *)
(* ================================================================== *)

Definition handle_readback : M unit :=
  uart_writeb HOST_UART "R" ;;;
  region <- uart_readb HOST_UART ;;
  selected <-
    (if Byte.eqb region "F" then
       uart_writeb HOST_UART "F" ;;; ret (Some FIRMWARE_STORAGE_PTR)
     else if Byte.eqb region "C" then
       uart_writeb HOST_UART "C" ;;; ret (Some CONFIGURATION_STORAGE_PTR)
     else ret None) ;;
  match selected with
  | None => ret tt
  | Some address =>
      b3 <- uart_readb HOST_UART ;; b2 <- uart_readb HOST_UART ;;
      b1 <- uart_readb HOST_UART ;; b0 <- uart_readb HOST_UART ;;
      let size := be32 b3 b2 b1 b0 in
      uart_write HOST_UART address size
  end.

(* ================================================================== *)
(** * Page Loader *)
(* ================================================================== *)

(** One pass of the [while (size > 0)] loop per unit of fuel; [size] drops by
    at least one each pass, so [size] units are enough. *)
Fixpoint load_data_loop (fuel : nat) (dst size : Z) : M unit :=
  match fuel with
  | O => ret tt
  | S fuel' =>
      if size >? 0 then
        let frame_size :=
          if size >? FLASH_PAGE_SIZE then FLASH_PAGE_SIZE else size in
        frame <- uart_read HOST_UART frame_size ;;
        let page_buffer :=
          frame ++ repeat xff (Z.to_nat (FLASH_PAGE_SIZE - frame_size)) in
        flash_erase_page dst ;;;
        flash_write (buffer_of page_buffer) dst (Z.shiftr FLASH_PAGE_SIZE 2) ;;;
        uart_writeb HOST_UART FRAME_OK ;;;
        load_data_loop fuel' (wrap32 (dst + FLASH_PAGE_SIZE))
                       (wrap32 (size - frame_size))
      else ret tt
  end.

Definition load_data (interface : uart_base) (dst size : Z) : M unit :=
  load_data_loop (Z.to_nat size) dst size.

(* ================================================================== *)
(** * Integrity Pipeline *)
(* ================================================================== *)

(** [len] is an [int] that the callee widens to [size_t]; on this target both
    have 32 bits, so the byte count is [len] modulo 2^32. *)
Definition compute_sha256 (data : Z) (len : Z) (m : memory) : list byte :=
  br_sha256 (load_bytes m data (wrap32 len)).

Definition do_AES_decrypt (enc_data : Z) (len : Z)
    (ve : br_block_cbcenc_class) (vd : br_block_cbcdec_class)
    (m : memory) : memory :=
  if negb (cbcenc_block_size ve =? 16) || negb (cbcdec_block_size vd =? 16)
     || negb (cbcenc_log_block_size ve =? 4)
     || negb (cbcdec_log_block_size vd =? 4)
  then m
  else
    let key_len := Z.of_nat (length aes_key) in
    let key := aes_key in
    let dc := cbcdec_init vd key key_len in
    let iv := repeat x00 16 in
    let n := Z.to_nat (wrap32 len) in
    store_bytes m enc_data
      (firstn n (cbcdec_run vd dc iv (load_bytes m enc_data (wrap32 len)))).

(** The comparison loop: the result, and the value of [i] on return. *)
Fixpoint hash_check (fuel : nat) (i : Z) (hash : list byte) (m : memory)
  : Z * Z :=
  match fuel with
  | O => (0, i)
  | S fuel' =>
      if Byte.eqb (nth (Z.to_nat i) hash x00) (m (wrap32 (FIRMWARE_HASH_PTR + i)))
      then hash_check fuel' (i + 1) hash m
      else (-1, i)
  end.

Definition decrypt_firmware (image : Z) (totalsize : Z) : M Z :=
  fun s =>
    if image =? 0 then Done (-1) s
    else
      let image_size := load32 (mem s) (image + FIRMWARE_SIZE_PTR) in
      let m' := do_AES_decrypt FIRMWARE_DATA_PTR image_size
                  br_aes_big_cbcenc_vtable br_aes_big_cbcdec_vtable (mem s) in
      let hash := compute_sha256 FIRMWARE_DATA_PTR image_size m' in
      Done (fst (hash_check 32 0 hash m'))
           (mkState m' (rx s) (tx s) (flash_log s)).

(* ================================================================== *)
(** * Update and Configure Handlers *)
(* ================================================================== *)

(** [rel_msg] after [uart_readline] has stored the line and its terminator;
    offsets past the terminator, in the array or behind it, hold what was
    there before. *)
Definition rel_msg_after (line : list byte) : buffer :=
  fun i => if i <? Z.of_nat (length line) then nth (Z.to_nat i) line x00
           else if i =? Z.of_nat (length line) then x00
           else rel_msg_residue i.

Definition read_word (addr : Z) : M Z :=
  fun s => Done (load32 (mem s) addr) s.

Definition handle_update : M unit :=
  uart_writeb HOST_UART "U" ;;;
  v1 <- uart_readb HOST_UART ;; v0 <- uart_readb HOST_UART ;;
  let version := be16 v1 v0 in
  b3 <- uart_readb HOST_UART ;; b2 <- uart_readb HOST_UART ;;
  b1 <- uart_readb HOST_UART ;; b0 <- uart_readb HOST_UART ;;
  let size := be32 b3 b2 b1 b0 in
  line <- uart_readline HOST_UART 1025 ;;
  let rel_msg := rel_msg_after line in
  let rel_msg_size := wrap32 (Z.of_nat (length line) + 1) in
  sha256_hash <- uart_readline HOST_UART 65 ;;
  let sha256_size := wrap8 (Z.of_nat (length sha256_hash) + 1) in
  stored <- read_word FIRMWARE_VERSION_PTR ;;
  let current_version :=
    if stored =? 0xFFFFFFFF then wrap32 OLDEST_VERSION else stored in
  if negb (version =? 0) && (version <? current_version) then
    uart_writeb HOST_UART FRAME_BAD
  else
    flash_erase_page FIRMWARE_METADATA_PTR ;;;
    (if negb (version =? 0)
     then flash_write_word version FIRMWARE_VERSION_PTR
     else flash_write_word current_version FIRMWARE_VERSION_PTR) ;;;
    flash_write_word size FIRMWARE_SIZE_PTR ;;;
    last <-
      (if rel_msg_size >? FLASH_PAGE_SIZE - 8 then
         flash_write rel_msg FIRMWARE_RELEASE_MSG_PTR
                     (Z.shiftr (FLASH_PAGE_SIZE - 8) 2) ;;;
         flash_erase_page FIRMWARE_RELEASE_MSG_PTR2 ;;;
         ret (wrap32 (rel_msg_size - (FLASH_PAGE_SIZE - 8)),
              buffer_from rel_msg (FLASH_PAGE_SIZE - 8),
              FIRMWARE_RELEASE_MSG_PTR2)
       else ret (rel_msg_size, rel_msg, FIRMWARE_RELEASE_MSG_PTR)) ;;
    let '(rem_bytes, rel_msg_read_ptr, rel_msg_write_ptr) := last in
    let rem_bytes :=
      if negb (rem_bytes mod 4 =? 0)
      then wrap32 (rem_bytes + (4 - rem_bytes mod 4)) else rem_bytes in
    flash_write rel_msg_read_ptr rel_msg_write_ptr (Z.shiftr rem_bytes 2) ;;;
    uart_writeb HOST_UART FRAME_OK ;;;
    load_data HOST_UART FIRMWARE_STORAGE_PTR size ;;;
    result <- decrypt_firmware FIRMWARE_BOOT_PTR FIRMWARE_SIZE_PTR ;;
    let ret8 := wrap8 result in
    ret tt.

Definition handle_configure : M unit :=
  uart_writeb HOST_UART "C" ;;;
  b3 <- uart_readb HOST_UART ;; b2 <- uart_readb HOST_UART ;;
  b1 <- uart_readb HOST_UART ;; b0 <- uart_readb HOST_UART ;;
  let size := be32 b3 b2 b1 b0 in
  flash_erase_page CONFIGURATION_METADATA_PTR ;;;
  flash_write_word size CONFIGURATION_SIZE_PTR ;;;
  uart_writeb HOST_UART FRAME_OK ;;;
  load_data HOST_UART CONFIGURATION_STORAGE_PTR size.


(* ================================================================== *)
(** * Boot Handler and command loop *)
(* ================================================================== *)

(** [handle_boot] ends by calling the firmware it has copied; it can also
    spend any number of passes in its printing loop. *)
Inductive boot_outcome : Type :=
| EntersFirmware (entry : Z) (s : state)
| PrintsOn
| BootFault (f : fault).

Definition after (m : M unit) (k : state -> boot_outcome)
  : state -> boot_outcome :=
  fun s => match m s with
           | Done _ s' => k s'
           | Fault f => BootFault f
           end.

(** The copy loop [for (i = 0; i < size; i++)], [passes] passes from [i]:
    byte [i] of the firmware area goes to byte [i] of the boot area. *)
Fixpoint boot_copy (passes : nat) (i : Z) (m : memory) : memory :=
  match passes with
  | O => m
  | S passes' =>
      boot_copy passes' (i + 1)
        (store8 m (wrap32 (FIRMWARE_BOOT_PTR + i))
                (m (wrap32 (FIRMWARE_STORAGE_PTR + i))))
  end.

Definition copy_firmware (size : Z) : M unit :=
  fun s => Done tt (mkState (boot_copy (Z.to_nat size) 0 (mem s))
                            (rx s) (tx s) (flash_log s)).

(** The loop [while ( *rel_msg != 0)], one pass per unit of fuel. *)
Fixpoint print_release_msg (fuel : nat) (rel_msg : Z)
    (k : state -> boot_outcome) (s : state) : boot_outcome :=
  match fuel with
  | O => PrintsOn
  | S fuel' =>
      if negb (Byte.eqb (mem s rel_msg) x00) then
        after (uart_writeb HOST_UART (mem s rel_msg))
              (print_release_msg fuel' (wrap32 (rel_msg + 1)) k) s
      else k s
  end.

Definition handle_boot (fuel : nat) : state -> boot_outcome :=
  after (uart_writeb HOST_UART "B")
    (fun s =>
       let size := load32 (mem s) FIRMWARE_SIZE_PTR in
       after (copy_firmware size)
         (after (uart_writeb HOST_UART "M")
            (print_release_msg fuel FIRMWARE_RELEASE_MSG_PTR
               (after (uart_writeb HOST_UART x00)
                  (fun s' =>
                     EntersFirmware (wrap32 (FIRMWARE_BOOT_PTR + 1)) s'))))
         s).

(** The command loop of [main] after a number of passes: still polling,
    gone into the firmware, caught in the printing loop of the boot handler,
    or stopped by a fault. *)
Inductive run : Type :=
| Polling (s : state)
| Booted (entry : Z) (s : state)
| BootPrintsOn
| Stopped (f : fault).

Fixpoint main_loop (passes boot_fuel : nat) (s : state) : run :=
  match passes with
  | O => Polling s
  | S passes' =>
      match uart_readb HOST_UART s with
      | Fault f => Stopped f
      | Done cmd s1 =>
          let break (handler : M unit) :=
            match handler s1 with
            | Done _ s2 => main_loop passes' boot_fuel s2
            | Fault f => Stopped f
            end in
          if Byte.eqb cmd "C" then break handle_configure
          else if Byte.eqb cmd "U" then break handle_update
          else if Byte.eqb cmd "R" then break handle_readback
          else if Byte.eqb cmd "B" then
            match handle_boot boot_fuel s1 with
            | EntersFirmware entry s2 => Booted entry s2
            | PrintsOn => BootPrintsOn
            | BootFault f => Stopped f
            end
          else main_loop passes' boot_fuel s1
      end
  end.

(* ================================================================== *)
(** * Vocabulary of the properties *)
(* ================================================================== *)

(** The condition under which [do_AES_decrypt] returns at once. *)
Definition unsupported_block_size
    (ve : br_block_cbcenc_class) (vd : br_block_cbcdec_class) : Prop :=
  cbcenc_block_size ve <> 16 \/ cbcdec_block_size vd <> 16
  \/ cbcenc_log_block_size ve <> 4 \/ cbcdec_log_block_size vd <> 4.

(** Number of pages a payload of [size] bytes occupies. *)
Definition page_count (size : Z) : Z :=
  (size + FLASH_PAGE_SIZE - 1) / FLASH_PAGE_SIZE.

(** Page [k] of a payload: its bytes, then 0xFF up to the page boundary. *)
Definition page_frame (payload : list byte) (k : nat) : list byte :=
  let chunk := firstn 1024 (skipn (1024 * k) payload) in
  chunk ++ repeat xff (1024 - length chunk).

Definition page_address (dst : Z) (k : nat) : Z :=
  wrap32 (dst + FLASH_PAGE_SIZE * Z.of_nat k).

(** The flash driver calls of a load: per page, one erase, then one write. *)
Definition load_ops (dst : Z) (payload : list byte) : list flash_op :=
  flat_map
    (fun k => [FlashErasePage (page_address dst k);
               FlashWrite (page_frame payload k) (page_address dst k) 256])
    (seq 0 (Z.to_nat (page_count (Z.of_nat (length payload))))).

(** The address space after a load: offsets below the payload length hold
    the payload, the rest of the last page holds 0xFF, all else is as
    before.  Offsets are taken modulo 2^32 from [dst]. *)
Definition loaded (m : memory) (dst : Z) (payload : list byte) : memory :=
  fun x =>
    if (0 <=? x) && (x <? 4294967296)
       && (wrap32 (x - dst) <?
           FLASH_PAGE_SIZE * page_count (Z.of_nat (length payload)))
    then nth (Z.to_nat (wrap32 (x - dst))) payload xff
    else m x.

(** The version the check compares against: the stored word, or
    [OLDEST_VERSION] when the slot is erased. *)
Definition current_version (m : memory) : Z :=
  let stored := load32 m FIRMWARE_VERSION_PTR in
  if stored =? 0xFFFFFFFF then wrap32 OLDEST_VERSION else stored.

(** The check of the update handler rejects this candidate. *)
Definition stale (version : Z) (m : memory) : Prop :=
  version <> 0 /\ version < current_version m.

(** The version written on acceptance. *)
Definition resolved_version (version : Z) (m : memory) : Z :=
  if version =? 0 then current_version m else version.

Definition round_up4 (n : Z) : Z :=
  if n mod 4 =? 0 then n else n + (4 - n mod 4).

(** Flash driver calls that store a release message line. *)
Definition release_ops (line : list byte) : list flash_op :=
  let rel_msg := rel_msg_after line in
  let n := Z.of_nat (length line) + 1 in
  if n >? FLASH_PAGE_SIZE - 8 then
    [FlashWrite (buffer_bytes rel_msg (FLASH_PAGE_SIZE - 8))
                FIRMWARE_RELEASE_MSG_PTR (Z.shiftr (FLASH_PAGE_SIZE - 8) 2);
     FlashErasePage FIRMWARE_RELEASE_MSG_PTR2;
     FlashWrite (buffer_bytes (buffer_from rel_msg (FLASH_PAGE_SIZE - 8))
                              (round_up4 (n - (FLASH_PAGE_SIZE - 8))))
                FIRMWARE_RELEASE_MSG_PTR2
                (Z.shiftr (round_up4 (n - (FLASH_PAGE_SIZE - 8))) 2)]
  else
    [FlashWrite (buffer_bytes rel_msg (round_up4 n))
                FIRMWARE_RELEASE_MSG_PTR (Z.shiftr (round_up4 n) 2)].

(** The address space once those calls are done. *)
Definition release_mem (m : memory) (line : list byte) : memory :=
  let rel_msg := rel_msg_after line in
  let n := Z.of_nat (length line) + 1 in
  if n >? FLASH_PAGE_SIZE - 8 then
    store_bytes
      (erase (store_bytes m FIRMWARE_RELEASE_MSG_PTR
                          (buffer_bytes rel_msg (FLASH_PAGE_SIZE - 8)))
             FIRMWARE_RELEASE_MSG_PTR2)
      FIRMWARE_RELEASE_MSG_PTR2
      (buffer_bytes (buffer_from rel_msg (FLASH_PAGE_SIZE - 8))
                    (round_up4 (n - (FLASH_PAGE_SIZE - 8))))
  else
    store_bytes m FIRMWARE_RELEASE_MSG_PTR
                (buffer_bytes rel_msg (round_up4 n)).

(** The device when an accepted update has answered [FRAME_OK]: metadata and
    release message are in flash, the payload is still to come. *)
Definition staged (s : state) (version size : Z) (line pending : list byte)
  : state :=
  mkState
    (release_mem
       (store_bytes
          (store_bytes (erase (mem s) FIRMWARE_METADATA_PTR)
                       FIRMWARE_VERSION_PTR
                       (word_bytes (resolved_version version (mem s))))
          FIRMWARE_SIZE_PTR (word_bytes size))
       line)
    pending
    (tx s ++ ["U"%byte; FRAME_OK])
    (flash_log s
     ++ [FlashErasePage FIRMWARE_METADATA_PTR;
         FlashWriteWord (resolved_version version (mem s)) FIRMWARE_VERSION_PTR;
         FlashWriteWord size FIRMWARE_SIZE_PTR]
     ++ release_ops line).

(** What the host sends before the payload: version, size, the release
    message line and the digest line. *)
Definition update_request (v1 v0 b3 b2 b1 b0 : byte) (line digest : list byte)
  : list byte :=
  [v1; v0; b3; b2; b1; b0]
  ++ line ++ [line_delimiter] ++ digest ++ [line_delimiter].

Definition fits (line : list byte) (capacity : Z) : Prop :=
  ~ In line_delimiter line /\ Z.of_nat (length line) + 1 <= capacity.

(** What the host sends for a configuration load, before the payload. *)
Definition configure_request (b3 b2 b1 b0 : byte) : list byte :=
  [b3; b2; b1; b0].

(** What the host sends for a readback of region [sel] and the given size. *)
Definition readback_request (sel b3 b2 b1 b0 : byte) : list byte :=
  [sel; b3; b2; b1; b0].

(** The bytes that select a handler in the command loop. *)
Definition is_command (b : byte) : Prop :=
  b = "C"%byte \/ b = "U"%byte \/ b = "R"%byte \/ b = "B"%byte.

(** The hypotheses under which the end of an accepted update can be read
    off flash: the payload has arrived and fits the sixteen pages of the
    firmware area, and the closing decryption, whose length is the word at
    [FIRMWARE_BOOT_PTR + FIRMWARE_SIZE_PTR], works on whole 16-byte blocks
    and ends at or below the metadata. *)
Definition settles (size : Z) (payload : list byte) (m : memory) : Prop :=
  Z.of_nat (length payload) = size
  /\ size <= FLASH_PAGE_SIZE * 16
  /\ load32 m (FIRMWARE_BOOT_PTR + FIRMWARE_SIZE_PTR) <= FIRMWARE_METADATA_PTR
  /\ load32 m (FIRMWARE_BOOT_PTR + FIRMWARE_SIZE_PTR) mod 16 = 0.

(** A program that, when it returns, leaves no more input than it found. *)
Definition consumes {A : Type} (m : M A) : Prop :=
  forall s a s', m s = Done a s' -> (length (rx s') <= length (rx s))%nat.

(* ================================================================== *)
(** * Concrete devices *)
(* ================================================================== *)

(** Stand-ins for the collaborators, small enough to run. *)
Definition demo_cbcenc : br_block_cbcenc_class :=
  {| cbcenc_block_size := 16; cbcenc_log_block_size := 4 |}.

(** A cipher that flips the bits 0x55 of every byte. *)
Definition demo_cbcdec : br_block_cbcdec_class :=
  {| cbcdec_context := unit;
     cbcdec_block_size := 16;
     cbcdec_log_block_size := 4;
     cbcdec_init := fun _ _ => tt;
     cbcdec_run := fun _ _ data =>
       map (fun b => byte_of_Z (Z.lxor (byte_to_Z b) 0x55)) data |}.

(** The same cipher reporting 8-byte blocks. *)
Definition demo_cbcdec8 : br_block_cbcdec_class :=
  {| cbcdec_context := unit;
     cbcdec_block_size := 8;
     cbcdec_log_block_size := 3;
     cbcdec_init := fun _ _ => tt;
     cbcdec_run := fun _ _ data =>
       map (fun b => byte_of_Z (Z.lxor (byte_to_Z b) 0x55)) data |}.

Definition demo_sha (data : list byte) : list byte := repeat x00 32.

Definition demo_residue : buffer := fun _ => xee.

(** 256 KB of erased flash below zeroed memory. *)
Definition factory_fresh : memory :=
  fun a => if a <? 0x40000 then xff else x00.

(** The same device with version [n] in the version slot. *)
Definition at_version (n : Z) : memory :=
  store_bytes factory_fresh FIRMWARE_VERSION_PTR (word_bytes n).

(** The same device where the word at [FIRMWARE_BOOT_PTR + FIRMWARE_SIZE_PTR]
    is 8. *)
Definition with_length_word : memory :=
  store8 factory_fresh (FIRMWARE_BOOT_PTR + FIRMWARE_SIZE_PTR) x08.

Definition idle (m : memory) (input : list byte) : state :=
  mkState m input [] [].

(** A fresh device that has been given a size of 2, the release message
    "A" and the image bytes 0x11, 0x22. *)
Definition provisioned : memory :=
  store_bytes
    (store_bytes
       (store_bytes factory_fresh FIRMWARE_SIZE_PTR (word_bytes 2))
       FIRMWARE_RELEASE_MSG_PTR [x41; x00])
    FIRMWARE_STORAGE_PTR [x11; x22].

(** A fresh device where the word at [FIRMWARE_BOOT_PTR + FIRMWARE_SIZE_PTR]
    is 16, one cipher block. *)
Definition with_block_word : memory :=
  store8 factory_fresh (FIRMWARE_BOOT_PTR + FIRMWARE_SIZE_PTR) x10.

(** A stand-in for SHA-256 that depends on its input: the sum of the bytes
    modulo 256, 32 times. *)
Definition demo_checksum (data : list byte) : list byte :=
  repeat (byte_of_Z (fold_right (fun b acc => byte_to_Z b + acc) 0 data)) 32.

(** One block of an encrypted image. *)
Definition ciphertext : list byte := repeat x11 16.

(** A fresh device that holds [ciphertext] in the firmware area, its length
    where [decrypt_firmware] reads it when given the address of the firmware
    area, and [digest] in the digest slot. *)
Definition resident (digest : list byte) : memory :=
  store_bytes
    (store_bytes
       (store_bytes factory_fresh FIRMWARE_STORAGE_PTR ciphertext)
       (FIRMWARE_STORAGE_PTR + FIRMWARE_SIZE_PTR) (word_bytes 16))
    FIRMWARE_HASH_PTR digest.

(** Facts about bytes, memory and the page loader do not involve the
    collaborators; their proofs drop them from the context first. *)
Ltac forget_collaborators :=
  try clear OLDEST_VERSION; try clear line_delimiter; try clear br_sha256;
  try clear br_aes_big_cbcenc_vtable; try clear br_aes_big_cbcdec_vtable;
  try clear rel_msg_residue.

(* ================================================================== *)
(** * Bytes and words: arithmetic facts *)
(* ================================================================== *)

Lemma byte_to_Z_range (b : byte) : 0 <= byte_to_Z b < 256.
Proof.
  unfold byte_to_Z. pose proof (Byte.to_N_bounded b). lia.
Qed.

Lemma byte_of_to_Z (b : byte) : byte_of_Z (byte_to_Z b) = b.
Proof.
  unfold byte_of_Z, wrap8. pose proof (byte_to_Z_range b) as Hb.
  rewrite Z.mod_small by assumption.
  unfold byte_to_Z. rewrite N2Z.id, Byte.of_to_N. reflexivity.
Qed.

Lemma byte_to_of_Z (x : Z) : byte_to_Z (byte_of_Z x) = x mod 256.
Proof.
  unfold byte_of_Z, wrap8.
  assert (Hr : 0 <= x mod 256 < 256) by (apply Z.mod_pos_bound; lia).
  destruct (Byte.of_N (Z.to_N (x mod 256))) as [b|] eqn:E.
  - apply Byte.to_of_N in E. unfold byte_to_Z. rewrite E. lia.
  - apply Byte.of_N_None_iff in E. lia.
Qed.

Lemma byte_eqb_eq (a b : byte) : Byte.eqb a b = true <-> a = b.
Proof.
  split.
  - apply Byte.byte_dec_bl.
  - apply Byte.byte_dec_lb.
Qed.

Lemma byte_eqb_neq (a b : byte) : Byte.eqb a b = false <-> a <> b.
Proof.
  rewrite <- byte_eqb_eq. destruct (Byte.eqb a b); intuition congruence.
Qed.

(** Or-ing a value below [2^k] into a multiple of [2^k] adds it. *)
Lemma lor_shifted_low (hi lo k : Z) :
  0 <= k -> 0 <= lo < 2 ^ k -> Z.lor (hi * 2 ^ k) lo = hi * 2 ^ k + lo.
Proof.
  intros Hk Hlo.
  assert (Hdisj : Z.land (hi * 2 ^ k) lo = 0).
  { apply Z.bits_inj'. intros n Hn.
    rewrite Z.land_spec, Z.bits_0.
    destruct (Z_lt_le_dec n k) as [Hlt|Hge].
    - rewrite Z.mul_pow2_bits_low by lia. reflexivity.
    - destruct (Z.eq_dec lo 0) as [->|Hne].
      + rewrite Z.bits_0. apply andb_false_r.
      + rewrite (Z.bits_above_log2 lo n); [apply andb_false_r|lia|].
        apply Z.log2_lt_pow2; try lia.
        apply Z.lt_le_trans with (2 ^ k); try lia.
        apply Z.pow_le_mono_r; lia. }
  rewrite <- Z.lxor_lor by assumption.
  symmetry. apply Z.add_nocarry_lxor. assumption.
Qed.

Lemma be16_value (b1 b0 : byte) :
  be16 b1 b0 = 256 * byte_to_Z b1 + byte_to_Z b0.
Proof.
  unfold be16, wrap32.
  pose proof (byte_to_Z_range b1). pose proof (byte_to_Z_range b0).
  rewrite Z.shiftl_mul_pow2 by lia.
  rewrite Z.mod_small by lia.
  rewrite (lor_shifted_low (byte_to_Z b1) (byte_to_Z b0) 8) by lia.
  lia.
Qed.

Lemma be32_value (b3 b2 b1 b0 : byte) :
  be32 b3 b2 b1 b0 =
  16777216 * byte_to_Z b3 + 65536 * byte_to_Z b2
  + 256 * byte_to_Z b1 + byte_to_Z b0.
Proof.
  unfold be32, wrap32.
  pose proof (byte_to_Z_range b3). pose proof (byte_to_Z_range b2).
  pose proof (byte_to_Z_range b1). pose proof (byte_to_Z_range b0).
  rewrite !Z.shiftl_mul_pow2 by lia.
  rewrite !Z.mod_small by lia.
  rewrite (lor_shifted_low (byte_to_Z b3) (byte_to_Z b2 * 2 ^ 16) 24) by lia.
  replace (byte_to_Z b3 * 2 ^ 24 + byte_to_Z b2 * 2 ^ 16)
    with ((byte_to_Z b3 * 256 + byte_to_Z b2) * 2 ^ 16) by lia.
  rewrite (lor_shifted_low _ (byte_to_Z b1 * 2 ^ 8) 16) by lia.
  replace ((byte_to_Z b3 * 256 + byte_to_Z b2) * 2 ^ 16 + byte_to_Z b1 * 2 ^ 8)
    with ((byte_to_Z b3 * 65536 + byte_to_Z b2 * 256 + byte_to_Z b1) * 2 ^ 8)
    by lia.
  rewrite (lor_shifted_low _ (byte_to_Z b0) 8) by lia.
  lia.
Qed.

(* ================================================================== *)
(** * Address space: what a store changes *)
(* ================================================================== *)

Lemma wrap32_range (x : Z) : 0 <= wrap32 x < 4294967296.
Proof. unfold wrap32. apply Z.mod_pos_bound. lia. Qed.

Lemma wrap32_small (x : Z) : 0 <= x < 4294967296 -> wrap32 x = x.
Proof. unfold wrap32. intros. apply Z.mod_small. assumption. Qed.

(** Outside the 32-bit range nothing is ever stored. *)
Lemma store_bytes_outside (bs : list byte) (m : memory) (a x : Z) :
  ~ (0 <= x < 4294967296) -> store_bytes m a bs x = m x.
Proof.
  forget_collaborators.
  revert m a. induction bs as [|b rest IH]; intros m a Hx; simpl.
  - reflexivity.
  - rewrite IH by assumption. unfold store8.
    pose proof (wrap32_range a).
    destruct (x =? wrap32 a) eqn:E; [apply Z.eqb_eq in E; lia|reflexivity].
Qed.

(** A store of fewer than 2^32 bytes puts byte [i] at [a + i] modulo 2^32
    and leaves every other address alone. *)
Lemma store_bytes_get (bs : list byte) (m : memory) (a x : Z) :
  0 <= x < 4294967296 ->
  Z.of_nat (length bs) <= 4294967296 ->
  store_bytes m a bs x =
  if wrap32 (x - a) <? Z.of_nat (length bs)
  then nth (Z.to_nat (wrap32 (x - a))) bs x00
  else m x.
Proof.
  forget_collaborators.
  revert m a. induction bs as [|b rest IH]; intros m a Hx Hlen.
  - simpl. pose proof (wrap32_range (x - a)).
    destruct (wrap32 (x - a) <? 0) eqn:E; [apply Z.ltb_lt in E; lia|reflexivity].
  - simpl store_bytes. rewrite IH by (simpl length in Hlen; lia).
    simpl length.
    pose proof (wrap32_range (x - a)) as Hr.
    pose proof (wrap32_range (x - (a + 1))) as Hr'.
    destruct (Z.eq_dec x (wrap32 a)) as [Heq|Hne].
    + assert (H0 : wrap32 (x - a) = 0) by (unfold wrap32 in *; lia).
      assert (H1 : wrap32 (x - (a + 1)) = 4294967295)
        by (unfold wrap32 in *; lia).
      rewrite H0, H1.
      destruct (4294967295 <? Z.of_nat (length rest)) eqn:E;
        [apply Z.ltb_lt in E; simpl length in Hlen; lia|].
      destruct (0 <? Z.of_nat (S (length rest))) eqn:E';
        [|apply Z.ltb_ge in E'; lia].
      unfold store8. rewrite Heq, Z.eqb_refl. reflexivity.
    + assert (H1 : wrap32 (x - (a + 1)) = wrap32 (x - a) - 1)
        by (unfold wrap32 in *; lia).
      rewrite H1.
      assert (Hpos : 0 < wrap32 (x - a)) by (unfold wrap32 in *; lia).
      destruct (wrap32 (x - a) - 1 <? Z.of_nat (length rest)) eqn:E.
      * apply Z.ltb_lt in E.
        destruct (wrap32 (x - a) <? Z.of_nat (S (length rest))) eqn:E';
          [|apply Z.ltb_ge in E'; lia].
        replace (Z.to_nat (wrap32 (x - a)))
          with (S (Z.to_nat (wrap32 (x - a) - 1))) by lia.
        reflexivity.
      * apply Z.ltb_ge in E.
        destruct (wrap32 (x - a) <? Z.of_nat (S (length rest))) eqn:E';
          [apply Z.ltb_lt in E'; lia|].
        unfold store8.
        destruct (x =? wrap32 a) eqn:E''; [apply Z.eqb_eq in E''; lia|].
        reflexivity.
Qed.

(** The same fact for a store that does not cross the end of the range. *)
Lemma store_bytes_flat (bs : list byte) (m : memory) (a x : Z) :
  0 <= a -> a + Z.of_nat (length bs) <= 4294967296 ->
  store_bytes m a bs x =
  if (a <=? x) && (x <? a + Z.of_nat (length bs))
  then nth (Z.to_nat (x - a)) bs x00
  else m x.
Proof.
  forget_collaborators.
  intros Ha Hlen.
  destruct (Z_lt_le_dec x 0) as [Hneg|Hnn];
    [|destruct (Z_lt_le_dec x 4294967296) as [Hlt|Hge]].
  - rewrite store_bytes_outside by lia.
    destruct (a <=? x) eqn:E; [apply Z.leb_le in E; lia|reflexivity].
  - rewrite store_bytes_get by lia.
    destruct (a <=? x) eqn:E1; simpl.
    + apply Z.leb_le in E1.
      rewrite (wrap32_small (x - a)) by lia.
      destruct (x - a <? Z.of_nat (length bs)) eqn:E2;
        destruct (x <? a + Z.of_nat (length bs)) eqn:E3;
        try reflexivity;
        rewrite ?Z.ltb_lt, ?Z.ltb_ge in *; lia.
    + apply Z.leb_gt in E1.
      assert (Hw : wrap32 (x - a) = x - a + 4294967296)
        by (unfold wrap32; lia).
      destruct (wrap32 (x - a) <? Z.of_nat (length bs)) eqn:E2;
        [apply Z.ltb_lt in E2; lia|reflexivity].
  - rewrite store_bytes_outside by lia.
    destruct (a <=? x) eqn:E1; simpl; [|reflexivity].
    destruct (x <? a + Z.of_nat (length bs)) eqn:E3;
      [apply Z.ltb_lt in E3; lia|reflexivity].
Qed.

Lemma word_bytes_length (w : Z) : length (word_bytes w) = 4%nat.
Proof. reflexivity. Qed.

(** A word written at a word slot reads back modulo 2^32. *)
Lemma load32_store_word (m : memory) (a w : Z) :
  0 <= a -> a + 4 <= 4294967296 ->
  load32 (store_bytes m a (word_bytes w)) a = wrap32 w.
Proof.
  intros Ha Hb. unfold load32.
  rewrite !wrap32_small by lia.
  rewrite !store_bytes_flat by (rewrite ?word_bytes_length; lia).
  rewrite word_bytes_length.
  repeat match goal with
  | |- context [(?p <=? ?q) && (?r <? ?t)] =>
      replace ((p <=? q) && (r <? t)) with true
        by (symmetry; apply andb_true_iff; split;
            [apply Z.leb_le|apply Z.ltb_lt]; lia)
  end.
  replace (a - a) with 0 by lia.
  replace (a + 1 - a) with 1 by lia.
  replace (a + 2 - a) with 2 by lia.
  replace (a + 3 - a) with 3 by lia.
  simpl nth.
  rewrite !byte_to_of_Z, !Z.shiftr_div_pow2 by lia.
  unfold wrap32. lia.
Qed.

Lemma load_bytes_length (m : memory) (a n : Z) :
  length (load_bytes m a n) = Z.to_nat n.
Proof. unfold load_bytes. rewrite length_map, length_seq. reflexivity. Qed.

Lemma load_bytes_nth (m : memory) (a n : Z) (i : nat) :
  (i < Z.to_nat n)%nat ->
  nth i (load_bytes m a n) x00 = m (wrap32 (a + Z.of_nat i)).
Proof.
  intros Hi. unfold load_bytes.
  rewrite (nth_indep _ x00 (m (wrap32 (a + Z.of_nat 0))))
    by (rewrite length_map, length_seq; exact Hi).
  rewrite (map_nth (fun i => m (wrap32 (a + Z.of_nat i)))).
  rewrite seq_nth by exact Hi. reflexivity.
Qed.

(** Memories that agree on the range read give the same bytes. *)
Lemma load_bytes_ext (m m' : memory) (a n : Z) :
  (forall x, 0 <= x < 4294967296 -> m x = m' x) ->
  load_bytes m a n = load_bytes m' a n.
Proof.
  intros H. unfold load_bytes. apply map_ext. intros i.
  apply H. apply wrap32_range.
Qed.

Lemma buffer_bytes_length (p : buffer) (n : Z) :
  length (buffer_bytes p n) = Z.to_nat n.
Proof. unfold buffer_bytes. rewrite length_map, length_seq. reflexivity. Qed.

Lemma buffer_bytes_nth (p : buffer) (n : Z) (i : nat) :
  (i < Z.to_nat n)%nat -> nth i (buffer_bytes p n) x00 = p (Z.of_nat i).
Proof.
  intros Hi. unfold buffer_bytes.
  rewrite (nth_indep _ x00 (p (Z.of_nat 0)))
    by (rewrite length_map, length_seq; exact Hi).
  rewrite (map_nth (fun i => p (Z.of_nat i))).
  rewrite seq_nth by exact Hi. reflexivity.
Qed.

(* ================================================================== *)
(** * Readback Handler: properties *)
(* ================================================================== *)

(** C8.  A readback with selector 'F' or 'C' answers 'R', echoes the
    selector, and then sends exactly the [n] bytes found at the selected
    storage base, [n] being the big-endian size the host sent; nothing in the
    answer depends on the recorded payload size, and nothing is written.  Any
    other selector ends the command after the 'R' with no further byte sent
    and no flash driver call. *)
Theorem handle_readback_identity (s : state) (sel : byte) (rest : list byte) :
  rx s = sel :: rest ->
  (forall b3 b2 b1 b0 rest',
      sel = "F"%byte \/ sel = "C"%byte ->
      rest = b3 :: b2 :: b1 :: b0 :: rest' ->
      let base := if Byte.eqb sel "F" then FIRMWARE_STORAGE_PTR
                  else CONFIGURATION_STORAGE_PTR in
      let n := 16777216 * byte_to_Z b3 + 65536 * byte_to_Z b2
               + 256 * byte_to_Z b1 + byte_to_Z b0 in
      handle_readback s =
        Done tt (mkState (mem s) rest'
                         (tx s ++ ["R"%byte; sel] ++ load_bytes (mem s) base n)
                         (flash_log s))
      /\ Z.of_nat (length (load_bytes (mem s) base n)) = n
      /\ (forall i, (i < Z.to_nat n)%nat ->
            nth i (load_bytes (mem s) base n) x00 =
            mem s (wrap32 (base + Z.of_nat i))))
  /\ (sel <> "F"%byte -> sel <> "C"%byte ->
      handle_readback s =
        Done tt (mkState (mem s) rest (tx s ++ ["R"%byte]) (flash_log s))).
Proof.
  forget_collaborators.
  intros Hrx. split.
  - intros b3 b2 b1 b0 rest' Hsel Hrest base n.
    assert (Hn : be32 b3 b2 b1 b0 = n) by apply be32_value.
    pose proof (byte_to_Z_range b3). pose proof (byte_to_Z_range b2).
    pose proof (byte_to_Z_range b1). pose proof (byte_to_Z_range b0).
    split; [|split].
    + unfold handle_readback, bind, uart_writeb, uart_readb, uart_write, ret.
      simpl. rewrite Hrx, Hrest.
      destruct Hsel as [-> | ->]; simpl; rewrite Hn;
        rewrite <- !app_assoc; reflexivity.
    + rewrite load_bytes_length. lia.
    + intros i Hi. apply load_bytes_nth. exact Hi.
  - intros HF HC.
    apply byte_eqb_neq in HF. apply byte_eqb_neq in HC.
    unfold handle_readback, bind, uart_writeb, uart_readb, ret.
    simpl. rewrite Hrx, HF, HC. reflexivity.
Qed.

(* ================================================================== *)
(** * Integrity Pipeline: properties *)
(* ================================================================== *)

Lemma do_AES_decrypt_unsupported (enc_data len : Z)
    (ve : br_block_cbcenc_class) (vd : br_block_cbcdec_class) (m : memory) :
  unsupported_block_size ve vd -> do_AES_decrypt enc_data len ve vd m = m.
Proof.
  unfold unsupported_block_size, do_AES_decrypt. intros H.
  destruct (cbcenc_block_size ve =? 16) eqn:E1; simpl; [|reflexivity].
  destruct (cbcdec_block_size vd =? 16) eqn:E2; simpl; [|reflexivity].
  destruct (cbcenc_log_block_size ve =? 4) eqn:E3; simpl; [|reflexivity].
  destruct (cbcdec_log_block_size vd =? 4) eqn:E4; simpl; [|reflexivity].
  apply Z.eqb_eq in E1, E2, E3, E4. intuition congruence.
Qed.

(** The decryption touches only the [len] bytes at [enc_data]. *)
Lemma do_AES_decrypt_frame (enc_data len : Z)
    (ve : br_block_cbcenc_class) (vd : br_block_cbcdec_class)
    (m : memory) (x : Z) :
  0 <= enc_data -> enc_data + wrap32 len <= 4294967296 ->
  ~ (enc_data <= x < enc_data + wrap32 len) ->
  do_AES_decrypt enc_data len ve vd m x = m x.
Proof.
  forget_collaborators.
  intros Ha Hb Hx. unfold do_AES_decrypt.
  match goal with |- (if ?c then _ else _) x = _ => destruct c end;
    [reflexivity|].
  cbv zeta.
  set (out := firstn _ _).
  assert (Hlen : (length out <= Z.to_nat (wrap32 len))%nat)
    by (unfold out; apply firstn_le_length).
  pose proof (wrap32_range len).
  rewrite store_bytes_flat by lia.
  destruct ((enc_data <=? x) && (x <? enc_data + Z.of_nat (length out))) eqn:E;
    [|reflexivity].
  apply andb_true_iff in E. destruct E as [E1 E2].
  apply Z.leb_le in E1. apply Z.ltb_lt in E2. lia.
Qed.

Lemma hash_check_values (fuel : nat) (i : Z) (hash : list byte) (m : memory) :
  fst (hash_check fuel i hash m) = 0 \/ fst (hash_check fuel i hash m) = -1.
Proof.
  forget_collaborators.
  revert i. induction fuel as [|fuel IH]; intros i; cbn [hash_check].
  - left. reflexivity.
  - destruct (Byte.eqb _ _); [apply IH|right; reflexivity].
Qed.

Lemma hash_check_ok_iff (fuel : nat) (i : Z) (hash : list byte) (m : memory) :
  fst (hash_check fuel i hash m) = 0 <->
  (forall j, i <= j < i + Z.of_nat fuel ->
     nth (Z.to_nat j) hash x00 = m (wrap32 (FIRMWARE_HASH_PTR + j))).
Proof.
  forget_collaborators.
  revert i. induction fuel as [|fuel IH]; intros i.
  - cbn [hash_check fst]. split; [intros _ j Hj; lia|reflexivity].
  - cbn [hash_check].
    destruct (Byte.eqb (nth (Z.to_nat i) hash x00)
                       (m (wrap32 (FIRMWARE_HASH_PTR + i)))) eqn:E.
    + apply byte_eqb_eq in E. rewrite IH. split.
      * intros H j Hj. destruct (Z.eq_dec j i) as [->|Hne]; [exact E|].
        apply H. lia.
      * intros H j Hj. apply H. lia.
    + apply byte_eqb_neq in E. cbn [fst]. split; [discriminate|].
      intros H. exfalso. apply E. apply H. lia.
Qed.

(** On failure the loop stops at the first index where the bytes differ. *)
Lemma hash_check_first_mismatch
    (fuel : nat) (i : Z) (hash : list byte) (m : memory) :
  fst (hash_check fuel i hash m) = -1 ->
  let k := snd (hash_check fuel i hash m) in
  i <= k < i + Z.of_nat fuel
  /\ nth (Z.to_nat k) hash x00 <> m (wrap32 (FIRMWARE_HASH_PTR + k))
  /\ (forall j, i <= j < k ->
        nth (Z.to_nat j) hash x00 = m (wrap32 (FIRMWARE_HASH_PTR + j))).
Proof.
  forget_collaborators.
  revert i. induction fuel as [|fuel IH]; intros i.
  - cbn [hash_check fst]. discriminate.
  - cbn [hash_check].
    destruct (Byte.eqb (nth (Z.to_nat i) hash x00)
                       (m (wrap32 (FIRMWARE_HASH_PTR + i)))) eqn:E.
    + intros H. specialize (IH (i + 1) H). cbv zeta in *.
      destruct IH as (Hk & Hd & Heq). apply byte_eqb_eq in E.
      split; [lia|]. split; [exact Hd|].
      intros j Hj. destruct (Z.eq_dec j i) as [->|Hne]; [exact E|].
      apply Heq. lia.
    + intros _. apply byte_eqb_neq in E. cbn [snd].
      split; [lia|]. split; [exact E|]. intros j Hj. lia.
Qed.

Lemma hash_slot_address (i : Z) :
  0 <= i < 32 -> wrap32 (FIRMWARE_HASH_PTR + i) = FIRMWARE_HASH_PTR + i.
Proof.
  intros Hi. apply wrap32_small. unfold FIRMWARE_HASH_PTR, FLASH_START. lia.
Qed.

(** The verdict of [decrypt_firmware] in terms of the bytes it hashes, which
    are those at [FIRMWARE_DATA_PTR], not those at [image]: 0 exactly when
    the image pointer is not null and the 32 bytes of their digest equal the
    stored digest; a null pointer gives -1 and changes nothing; on a
    mismatch the comparison stops at the first index that differs. *)
Lemma decrypt_firmware_verdict (image totalsize : Z) (s : state) :
  exists r s',
    decrypt_firmware image totalsize s = Done r s'
    /\ (r = 0 \/ r = -1)
    /\ (image = 0 -> r = -1 /\ s' = s)
    /\ (image <> 0 ->
        mem s' = do_AES_decrypt FIRMWARE_DATA_PTR
                   (load32 (mem s) (image + FIRMWARE_SIZE_PTR))
                   br_aes_big_cbcenc_vtable br_aes_big_cbcdec_vtable (mem s))
    /\ let decrypted :=
         load_bytes (mem s') FIRMWARE_DATA_PTR
                    (load32 (mem s) (image + FIRMWARE_SIZE_PTR)) in
       let digest := br_sha256 decrypted in
       (r = 0 <->
        image <> 0 /\
        forall i, 0 <= i < 32 ->
          nth (Z.to_nat i) digest x00 = mem s' (FIRMWARE_HASH_PTR + i))
       /\ (image <> 0 -> r = -1 ->
           exists k, 0 <= k < 32
             /\ snd (hash_check 32 0 digest (mem s')) = k
             /\ nth (Z.to_nat k) digest x00 <> mem s' (FIRMWARE_HASH_PTR + k)
             /\ forall j, 0 <= j < k ->
                  nth (Z.to_nat j) digest x00 = mem s' (FIRMWARE_HASH_PTR + j)).
Proof.
  unfold decrypt_firmware.
  destruct (image =? 0) eqn:Himg.
  - apply Z.eqb_eq in Himg. exists (-1), s.
    split; [reflexivity|]. split; [right; reflexivity|].
    split; [intros _; split; reflexivity|].
    split; [intros H; contradiction|]. cbv zeta.
    split; [split; [discriminate|intros [H _]; contradiction]|].
    intros H; contradiction.
  - apply Z.eqb_neq in Himg. cbv zeta.
    set (image_size := load32 (mem s) (image + FIRMWARE_SIZE_PTR)).
    set (m' := do_AES_decrypt FIRMWARE_DATA_PTR image_size
                 br_aes_big_cbcenc_vtable br_aes_big_cbcdec_vtable (mem s)).
    assert (Hsz : wrap32 image_size = image_size).
    { apply wrap32_small. unfold image_size, load32.
      repeat match goal with
      | |- context [byte_to_Z ?b] =>
          lazymatch goal with
          | _ : 0 <= byte_to_Z b < 256 |- _ => fail
          | _ => pose proof (byte_to_Z_range b)
          end
      end. lia. }
    unfold compute_sha256. rewrite Hsz.
    set (digest := br_sha256 (load_bytes m' FIRMWARE_DATA_PTR image_size)).
    eexists. eexists. split; [reflexivity|]. cbn [mem].
    split; [apply hash_check_values|].
    split; [intros H; contradiction|].
    split; [intros _; reflexivity|].
    split.
    + rewrite hash_check_ok_iff. split.
      * intros H. split; [exact Himg|]. intros i Hi.
        rewrite <- hash_slot_address by exact Hi. apply H.
        change (Z.of_nat 32) with 32. lia.
      * intros [_ H] j Hj. change (Z.of_nat 32) with 32 in Hj.
        rewrite hash_slot_address by lia. apply H. lia.
    + intros _ Hfail.
      pose proof (hash_check_first_mismatch 32 0 digest m' Hfail) as H.
      cbv zeta in H. change (Z.of_nat 32) with 32 in H.
      destruct H as (Hk & Hd & Heq).
      exists (snd (hash_check 32 0 digest m')).
      split; [lia|]. split; [reflexivity|]. split.
      * rewrite <- hash_slot_address by lia. exact Hd.
      * intros j Hj. rewrite <- hash_slot_address by lia. apply Heq. exact Hj.
Qed.

(** C10.  The [totalsize] argument has no effect: any two values give the
    same outcome, and for a non-null image the number of bytes decrypted and
    hashed is the word read at [image + FIRMWARE_SIZE_PTR]. *)
Theorem decrypt_firmware_ignores_totalsize
    (image totalsize1 totalsize2 : Z) (s : state) :
  decrypt_firmware image totalsize1 s = decrypt_firmware image totalsize2 s
  /\ (image <> 0 ->
      let image_size := load32 (mem s) (image + FIRMWARE_SIZE_PTR) in
      let m' := do_AES_decrypt FIRMWARE_DATA_PTR image_size
                  br_aes_big_cbcenc_vtable br_aes_big_cbcdec_vtable (mem s) in
      decrypt_firmware image totalsize1 s =
      Done (fst (hash_check 32 0
                   (br_sha256 (load_bytes m' FIRMWARE_DATA_PTR
                                          (wrap32 image_size))) m'))
           (mkState m' (rx s) (tx s) (flash_log s))).
Proof.
  split; [reflexivity|].
  intros Himg. unfold decrypt_firmware.
  apply Z.eqb_neq in Himg. rewrite Himg. reflexivity.
Qed.

(** C9.  When the configured cipher reports a block size other than 16, or
    a log-block-size other than 4, [do_AES_decrypt] returns with memory as it
    was.  It has no result to report; [decrypt_firmware] then leaves the
    state as it found it and answers 0 or -1 from the digest of the bytes
    that were never decrypted, as in any other verification. *)
Theorem unsupported_block_size_is_silent
    (enc_data len image totalsize : Z) (s : state) :
  unsupported_block_size br_aes_big_cbcenc_vtable br_aes_big_cbcdec_vtable ->
  (forall m, do_AES_decrypt enc_data len br_aes_big_cbcenc_vtable
                            br_aes_big_cbcdec_vtable m = m)
  /\ exists r,
       decrypt_firmware image totalsize s = Done r s
       /\ (r = 0 \/ r = -1)
       /\ (r = 0 <->
           image <> 0 /\
           forall i, 0 <= i < 32 ->
             nth (Z.to_nat i)
                 (br_sha256 (load_bytes (mem s) FIRMWARE_DATA_PTR
                               (load32 (mem s) (image + FIRMWARE_SIZE_PTR))))
                 x00
             = mem s (FIRMWARE_HASH_PTR + i)).
Proof.
  intros Hbad. split.
  - intros m. apply do_AES_decrypt_unsupported. exact Hbad.
  - destruct (decrypt_firmware_verdict image totalsize s)
      as (r & s' & Hrun & Hval & Hnull & Hmem & Hiff & _).
    assert (Hs : s' = s).
    { destruct (Z.eq_dec image 0) as [H0|Hn0].
      - apply Hnull. exact H0.
      - unfold decrypt_firmware in Hrun.
        apply Z.eqb_neq in Hn0. rewrite Hn0 in Hrun. cbv zeta in Hrun.
        rewrite do_AES_decrypt_unsupported in Hrun by exact Hbad.
        destruct s. simpl in Hrun. congruence. }
    subst s'. exists r. split; [exact Hrun|]. split; [exact Hval|].
    exact Hiff.
Qed.
(* ================================================================== *)
(** * Page Loader: properties *)
(* ================================================================== *)

Lemma page_frame_length (payload : list byte) (k : nat) :
  length (page_frame payload k) = 1024%nat.
Proof.
  forget_collaborators.
  unfold page_frame. cbv zeta. rewrite length_app, repeat_length.
  pose proof (firstn_le_length 1024 (skipn (1024 * k) payload)). lia.
Qed.

Lemma page_frame_shift (payload : list byte) (k : nat) :
  page_frame (skipn 1024 payload) k = page_frame payload (S k).
Proof.
  forget_collaborators.
  unfold page_frame. rewrite skipn_skipn.
  replace (1024 * k + 1024)%nat with (1024 * S k)%nat by lia. reflexivity.
Qed.

Lemma page_frame_nth (payload : list byte) (i : nat) :
  (i < 1024)%nat -> nth i (page_frame payload 0) x00 = nth i payload xff.
Proof.
  forget_collaborators.
  intros Hi. unfold page_frame. cbv zeta. rewrite Nat.mul_0_r, skipn_0.
  destruct (Nat.lt_ge_cases i (length payload)) as [Hlt|Hge].
  - rewrite app_nth1 by (rewrite length_firstn; lia).
    rewrite (nth_indep _ x00 xff) by (rewrite length_firstn; lia).
    rewrite <- (firstn_skipn 1024 payload) at 2.
    rewrite app_nth1 by (rewrite length_firstn; lia). reflexivity.
  - rewrite (nth_overflow payload) by lia.
    rewrite app_nth2 by (rewrite length_firstn; lia).
    apply nth_repeat_lt. rewrite length_firstn. lia.
Qed.

Lemma page_address_shift (dst : Z) (k : nat) :
  page_address (wrap32 (dst + FLASH_PAGE_SIZE)) k = page_address dst (S k).
Proof.
  unfold page_address, wrap32, FLASH_PAGE_SIZE.
  rewrite Zplus_mod_idemp_l. f_equal. lia.
Qed.

Lemma page_count_step (size : Z) :
  0 < size ->
  page_count size = 1 + page_count (Z.max 0 (size - FLASH_PAGE_SIZE)).
Proof. unfold page_count, FLASH_PAGE_SIZE. intros H. lia. Qed.

Lemma skipn_page_length (payload : list byte) :
  Z.of_nat (length (skipn 1024 payload)) =
  Z.max 0 (Z.of_nat (length payload) - FLASH_PAGE_SIZE).
Proof. forget_collaborators. rewrite length_skipn. unfold FLASH_PAGE_SIZE. lia. Qed.

Lemma load_ops_nil (dst : Z) : load_ops dst [] = [].
Proof. reflexivity. Qed.

Lemma load_ops_step (dst : Z) (payload : list byte) :
  0 <= dst < 4294967296 ->
  payload <> [] ->
  load_ops dst payload =
  [FlashErasePage dst; FlashWrite (page_frame payload 0) dst 256]
  ++ load_ops (wrap32 (dst + FLASH_PAGE_SIZE)) (skipn 1024 payload).
Proof.
  forget_collaborators.
  intros Hdst Hne. unfold load_ops.
  assert (Hpos : 0 < Z.of_nat (length payload))
    by (destruct payload; [congruence|simpl length; lia]).
  rewrite (page_count_step _ Hpos), <- skipn_page_length.
  set (n := page_count (Z.of_nat (length (skipn 1024 payload)))).
  assert (Hn : 0 <= n)
    by (unfold n, page_count, FLASH_PAGE_SIZE; lia).
  replace (Z.to_nat (1 + n)) with (S (Z.to_nat n)) by lia.
  cbn [seq flat_map]. rewrite <- seq_shift, flat_map_concat_map, map_map.
  rewrite flat_map_concat_map.
  assert (H0 : page_address dst 0 = dst).
  { unfold page_address, FLASH_PAGE_SIZE. simpl Z.of_nat.
    rewrite Z.mul_0_r, Z.add_0_r. apply wrap32_small. lia. }
  rewrite H0. cbn [app]. do 3 f_equal.
  apply map_ext. intros k.
  rewrite page_address_shift, page_frame_shift. reflexivity.
Qed.

Lemma buffer_bytes_of_list (l : list byte) :
  buffer_bytes (buffer_of l) (Z.of_nat (length l)) = l.
Proof.
  forget_collaborators.
  apply (nth_ext _ _ x00 x00).
  - rewrite buffer_bytes_length. lia.
  - intros i Hi. rewrite buffer_bytes_length in Hi.
    rewrite buffer_bytes_nth by exact Hi.
    unfold buffer_of. rewrite Nat2Z.id. reflexivity.
Qed.

(** One pass of the loop on a payload that is not empty. *)
Lemma load_data_loop_step
    (fuel : nat) (dst : Z) (payload rest : list byte) (s : state) :
  rx s = payload ++ rest ->
  payload <> [] ->
  Z.of_nat (length payload) < 4294967296 ->
  load_data_loop (S fuel) dst (Z.of_nat (length payload)) s =
  load_data_loop fuel (wrap32 (dst + FLASH_PAGE_SIZE))
    (Z.of_nat (length (skipn 1024 payload)))
    (mkState (store_bytes (erase (mem s) dst) dst (page_frame payload 0))
             (skipn 1024 payload ++ rest)
             (tx s ++ [FRAME_OK])
             (flash_log s ++ [FlashErasePage dst;
                              FlashWrite (page_frame payload 0) dst 256])).
Proof.
  forget_collaborators.
  intros Hrx Hne Hlen.
  assert (Hpos : 0 < Z.of_nat (length payload))
    by (destruct payload; [congruence|simpl length; lia]).
  cbn [load_data_loop].
  destruct (Z.of_nat (length payload) >? 0) eqn:E;
    [|rewrite Z.gtb_ltb in E; apply Z.ltb_ge in E; lia].
  clear E.
  set (fs := if Z.of_nat (length payload) >? FLASH_PAGE_SIZE
             then FLASH_PAGE_SIZE else Z.of_nat (length payload)).
  assert (Hfs : fs = Z.min (Z.of_nat (length payload)) 1024).
  { unfold fs, FLASH_PAGE_SIZE.
    destruct (Z.of_nat (length payload) >? 1024) eqn:E;
      rewrite Z.gtb_ltb in E;
      [apply Z.ltb_lt in E|apply Z.ltb_ge in E]; lia. }
  assert (Hfirst : firstn (Z.to_nat fs) (rx s) = firstn 1024 payload).
  { rewrite Hrx, firstn_app.
    replace (Z.to_nat fs - length payload)%nat with 0%nat by lia.
    rewrite firstn_O, app_nil_r.
    destruct (Z_le_gt_dec (Z.of_nat (length payload)) 1024) as [Hle|Hgt].
    - rewrite !firstn_all2 by lia. reflexivity.
    - replace (Z.to_nat fs) with 1024%nat by lia. reflexivity. }
  assert (Hskip : skipn (Z.to_nat fs) (rx s) = skipn 1024 payload ++ rest).
  { rewrite Hrx, skipn_app.
    replace (Z.to_nat fs - length payload)%nat with 0%nat by lia.
    rewrite skipn_O.
    destruct (Z_le_gt_dec (Z.of_nat (length payload)) 1024) as [Hle|Hgt].
    - rewrite !skipn_all2 by lia. reflexivity.
    - replace (Z.to_nat fs) with 1024%nat by lia. reflexivity. }
  assert (Hbuf : firstn 1024 payload
                 ++ repeat xff (Z.to_nat (FLASH_PAGE_SIZE - fs))
                 = page_frame payload 0).
  { unfold page_frame. cbv zeta. rewrite Nat.mul_0_r, skipn_0.
    f_equal. f_equal. rewrite length_firstn. unfold FLASH_PAGE_SIZE. lia. }
  unfold bind at 1. unfold uart_read at 1.
  destruct (Z.of_nat (length (rx s)) <? fs) eqn:E.
  { apply Z.ltb_lt in E. rewrite Hrx, length_app in E. lia. }
  clear E. rewrite Hfirst, Hskip, Hbuf.
  unfold bind, flash_erase_page, flash_write, uart_writeb. cbn [mem rx tx flash_log].
  replace (4 * Z.shiftr FLASH_PAGE_SIZE 2)
    with (Z.of_nat (length (page_frame payload 0)))
    by (rewrite page_frame_length; reflexivity).
  rewrite buffer_bytes_of_list.
  replace (Z.shiftr FLASH_PAGE_SIZE 2) with 256 by reflexivity.
  rewrite <- app_assoc. cbn [app].
  replace (wrap32 (Z.of_nat (length payload) - fs))
    with (Z.of_nat (length (skipn 1024 payload))).
  - reflexivity.
  - rewrite length_skipn. rewrite wrap32_small by lia. lia.
Qed.

Lemma erase_get (m : memory) (addr x : Z) :
  addr mod FLASH_PAGE_SIZE = 0 ->
  erase m addr x =
  if (addr <=? x) && (x <? addr + FLASH_PAGE_SIZE) then xff else m x.
Proof.
  intros Ha. unfold erase, page_base. rewrite Ha, Z.sub_0_r. reflexivity.
Qed.

(** The pages a load writes are distinct while the payload is shorter than
    the address space, so the first page survives the rest of the load. *)
Lemma loaded_step (m : memory) (dst : Z) (payload : list byte) (x : Z) :
  0 <= dst < 4294967296 ->
  dst mod FLASH_PAGE_SIZE = 0 ->
  payload <> [] ->
  Z.of_nat (length payload) < 4294967296 ->
  loaded (store_bytes (erase m dst) dst (page_frame payload 0))
         (wrap32 (dst + FLASH_PAGE_SIZE)) (skipn 1024 payload) x
  = loaded m dst payload x.
Proof.
  forget_collaborators.
  intros Hdst Hal Hne Hlen.
  assert (Hpos : 0 < Z.of_nat (length payload))
    by (destruct payload; [congruence|simpl length; lia]).
  unfold loaded.
  rewrite (page_count_step _ Hpos), <- skipn_page_length.
  set (n := page_count (Z.of_nat (length (skipn 1024 payload)))).
  assert (Hn : 0 <= FLASH_PAGE_SIZE * n <= 4294967296 - 1024).
  { unfold n, page_count. rewrite length_skipn.
    unfold FLASH_PAGE_SIZE in *. lia. }
  assert (Hfirst : forall y,
             store_bytes (erase m dst) dst (page_frame payload 0) y =
             if (dst <=? y) && (y <? dst + 1024)
             then nth (Z.to_nat (y - dst)) payload xff else m y).
  { intros y.
    rewrite store_bytes_flat
      by (rewrite ?page_frame_length; unfold FLASH_PAGE_SIZE in *; lia).
    rewrite page_frame_length. change (Z.of_nat 1024) with 1024.
    destruct ((dst <=? y) && (y <? dst + 1024)) eqn:E.
    - apply andb_true_iff in E. destruct E as [E1 E2].
      apply Z.leb_le in E1. apply Z.ltb_lt in E2.
      apply page_frame_nth. lia.
    - rewrite erase_get by exact Hal. unfold FLASH_PAGE_SIZE.
      rewrite E. reflexivity. }
  rewrite Hfirst.
  destruct ((0 <=? x) && (x <? 4294967296)) eqn:Ex; cbn [andb].
  - apply andb_true_iff in Ex. destruct Ex as [Ex1 Ex2].
    apply Z.leb_le in Ex1. apply Z.ltb_lt in Ex2.
    unfold FLASH_PAGE_SIZE in *.
    destruct (Z_lt_le_dec (wrap32 (x - dst)) 1024) as [Hin|Hout].
    + (* [x] lies in the first page *)
      assert (Hoff : wrap32 (x - dst) = x - dst /\ dst <= x < dst + 1024)
        by (unfold wrap32 in *; lia).
      destruct Hoff as [Hoff Hx].
      assert (Hoff' : wrap32 (x - wrap32 (dst + 1024)) >= 4294967296 - 1024)
        by (unfold wrap32 in *; lia).
      destruct (wrap32 (x - wrap32 (dst + 1024)) <? 1024 * n) eqn:E1;
        [apply Z.ltb_lt in E1; lia|].
      destruct (wrap32 (x - dst) <? 1024 * (1 + n)) eqn:E2;
        [|apply Z.ltb_ge in E2; lia].
      replace ((dst <=? x) && (x <? dst + 1024)) with true
        by (symmetry; apply andb_true_iff; split;
            [apply Z.leb_le|apply Z.ltb_lt]; lia).
      rewrite Hoff. reflexivity.
    + (* [x] lies beyond the first page *)
      assert (Hoff' : wrap32 (x - wrap32 (dst + 1024)) = wrap32 (x - dst) - 1024)
        by (unfold wrap32 in *; lia).
      assert (Hx : ~ (dst <= x < dst + 1024))
        by (unfold wrap32 in *; lia).
      rewrite Hoff'.
      replace ((dst <=? x) && (x <? dst + 1024)) with false
        by (symmetry; apply andb_false_iff;
            destruct (Z_le_gt_dec dst x);
            [right; apply Z.ltb_ge|left; apply Z.leb_gt]; lia).
      destruct (wrap32 (x - dst) - 1024 <? 1024 * n) eqn:E1;
        destruct (wrap32 (x - dst) <? 1024 * (1 + n)) eqn:E2;
        rewrite ?Z.ltb_lt, ?Z.ltb_ge in *; try lia; try reflexivity.
      rewrite nth_skipn. f_equal. lia.
  - replace ((dst <=? x) && (x <? dst + 1024)) with false; [reflexivity|].
    symmetry. apply andb_false_iff. apply andb_false_iff in Ex.
    unfold FLASH_PAGE_SIZE in *.
    destruct Ex as [Ex|Ex]; [apply Z.leb_gt in Ex|apply Z.ltb_ge in Ex].
    + left. apply Z.leb_gt. lia.
    + right. apply Z.ltb_ge. lia.
Qed.

Lemma loaded_nil (m : memory) (dst x : Z) : loaded m dst [] x = m x.
Proof.
  unfold loaded, page_count, FLASH_PAGE_SIZE. simpl length.
  pose proof (wrap32_range (x - dst)).
  replace (1024 * ((Z.of_nat 0 + 1024 - 1) / 1024)) with 0 by (simpl; lia).
  destruct (wrap32 (x - dst) <? 0) eqn:E; [apply Z.ltb_lt in E; lia|].
  rewrite andb_false_r. reflexivity.
Qed.

(** The loop, given the payload on the serial link and enough fuel. *)
Lemma load_data_loop_run (fuel : nat) :
  forall (dst : Z) (payload rest : list byte) (s : state),
    rx s = payload ++ rest ->
    (length payload <= fuel)%nat ->
    Z.of_nat (length payload) < 4294967296 ->
    0 <= dst < 4294967296 ->
    dst mod FLASH_PAGE_SIZE = 0 ->
    exists s',
      load_data_loop fuel dst (Z.of_nat (length payload)) s = Done tt s'
      /\ rx s' = rest
      /\ tx s' = tx s ++ repeat FRAME_OK
                          (Z.to_nat (page_count (Z.of_nat (length payload))))
      /\ flash_log s' = flash_log s ++ load_ops dst payload
      /\ forall x, mem s' x = loaded (mem s) dst payload x.
Proof.
  forget_collaborators.
  induction fuel as [|fuel IH]; intros dst payload rest s Hrx Hfuel Hlen Hdst Hal.
  - destruct payload; [|simpl in Hfuel; lia].
    exists s. cbn [load_data_loop ret]. simpl in Hrx.
    split; [reflexivity|]. split; [exact Hrx|].
    split; [simpl; rewrite app_nil_r; reflexivity|].
    split; [rewrite load_ops_nil, app_nil_r; reflexivity|].
    intros x. rewrite loaded_nil. reflexivity.
  - destruct (list_eq_dec Byte.byte_eq_dec payload []) as [Hnil|Hne].
    + subst payload. exists s. cbn [load_data_loop length Z.of_nat].
      cbn [Z.gtb Z.compare ret]. simpl in Hrx.
      split; [reflexivity|]. split; [exact Hrx|].
      split; [simpl; rewrite app_nil_r; reflexivity|].
      split; [rewrite load_ops_nil, app_nil_r; reflexivity|].
      intros x. rewrite loaded_nil. reflexivity.
    + rewrite (load_data_loop_step fuel dst payload rest s Hrx Hne Hlen).
      set (s1 := mkState _ _ _ _).
      assert (Hpos : 0 < Z.of_nat (length payload))
        by (destruct payload; [congruence|simpl length; lia]).
      destruct (IH (wrap32 (dst + FLASH_PAGE_SIZE)) (skipn 1024 payload) rest s1)
        as (s' & Hrun & Hrx' & Htx' & Hlog' & Hmem').
      * reflexivity.
      * rewrite length_skipn. lia.
      * rewrite length_skipn. lia.
      * apply wrap32_range.
      * unfold wrap32, FLASH_PAGE_SIZE in *. lia.
      * exists s'. split; [exact Hrun|]. split; [exact Hrx'|].
        split; [|split].
        -- rewrite Htx'. unfold s1. cbn [tx].
           rewrite (page_count_step _ Hpos), <- skipn_page_length.
           set (n := page_count (Z.of_nat (length (skipn 1024 payload)))).
           assert (Hn : 0 <= n)
             by (unfold n, page_count, FLASH_PAGE_SIZE; lia).
           replace (Z.to_nat (1 + n)) with (S (Z.to_nat n)) by lia.
           rewrite <- app_assoc. reflexivity.
        -- rewrite Hlog'. unfold s1. cbn [flash_log].
           rewrite (load_ops_step dst payload Hdst Hne).
           rewrite <- app_assoc. reflexivity.
        -- intros x. rewrite Hmem'. unfold s1. cbn [mem].
           apply loaded_step; assumption.
Qed.

Lemma load_data_run (interface : uart_base) (dst : Z)
    (payload rest : list byte) (s : state) :
  rx s = payload ++ rest ->
  Z.of_nat (length payload) < 4294967296 ->
  0 <= dst < 4294967296 ->
  dst mod FLASH_PAGE_SIZE = 0 ->
  exists s',
    load_data interface dst (Z.of_nat (length payload)) s = Done tt s'
    /\ rx s' = rest
    /\ tx s' = tx s ++ repeat FRAME_OK
                        (Z.to_nat (page_count (Z.of_nat (length payload))))
    /\ flash_log s' = flash_log s ++ load_ops dst payload
    /\ forall x, mem s' x = loaded (mem s) dst payload x.
Proof.
  forget_collaborators.
  intros Hrx Hlen Hdst Hal. unfold load_data.
  apply load_data_loop_run; try assumption. lia.
Qed.

(** C6.  Page Loader round trip.  With a payload of [L] bytes waiting on the
    serial link and a page-aligned destination, [load_data] returns having
    consumed exactly the payload; the destination then holds the [L] payload
    bytes in order, followed by 0xFF up to the end of the last page; the
    flash driver saw, for each page in turn, one erase of that page and then
    one write of the whole page; and the host received one 0x00 per page,
    [ceil(L / FLASH_PAGE_SIZE)] in all. *)
Theorem load_data_round_trip (interface : uart_base) (dst : Z)
    (payload rest : list byte) (s : state) :
  let L := Z.of_nat (length payload) in
  rx s = payload ++ rest ->
  L < 4294967296 ->
  0 <= dst < 4294967296 ->
  dst mod FLASH_PAGE_SIZE = 0 ->
  exists s',
    load_data interface dst L s = Done tt s'
    /\ rx s' = rest
    /\ (forall i, 0 <= i < L ->
          mem s' (wrap32 (dst + i)) = nth (Z.to_nat i) payload x00)
    /\ (forall i, L <= i < FLASH_PAGE_SIZE * page_count L ->
          mem s' (wrap32 (dst + i)) = xff)
    /\ flash_log s' =
         flash_log s ++
         flat_map
           (fun k => [FlashErasePage (page_address dst k);
                      FlashWrite (page_frame payload k) (page_address dst k)
                                 (Z.shiftr FLASH_PAGE_SIZE 2)])
           (seq 0 (Z.to_nat (page_count L)))
    /\ tx s' = tx s ++ repeat x00 (Z.to_nat (page_count L))
    /\ page_count L = (L + FLASH_PAGE_SIZE - 1) / FLASH_PAGE_SIZE.
Proof.
  forget_collaborators.
  intros L Hrx Hlen Hdst Hal.
  destruct (load_data_run interface dst payload rest s Hrx Hlen Hdst Hal)
    as (s' & Hrun & Hrx' & Htx' & Hlog' & Hmem').
  assert (Hpc : L <= FLASH_PAGE_SIZE * page_count L <= 4294967296).
  { unfold page_count, FLASH_PAGE_SIZE. lia. }
  assert (Hoff : forall i, 0 <= i < 4294967296 ->
                   wrap32 (wrap32 (dst + i) - dst) = i)
    by (intros i Hi; unfold wrap32; lia).
  exists s'. split; [exact Hrun|]. split; [exact Hrx'|].
  split; [|split; [|split; [|split]]].
  - intros i Hi. rewrite Hmem'. unfold loaded.
    pose proof (wrap32_range (dst + i)) as Hr.
    rewrite Hoff by lia. fold L.
    replace ((0 <=? wrap32 (dst + i)) && (wrap32 (dst + i) <? 4294967296))
      with true
      by (symmetry; apply andb_true_iff; split;
          [apply Z.leb_le|apply Z.ltb_lt]; lia).
    replace (i <? FLASH_PAGE_SIZE * page_count L) with true
      by (symmetry; apply Z.ltb_lt; lia).
    cbn [andb]. apply nth_indep. lia.
  - intros i Hi. rewrite Hmem'. unfold loaded.
    pose proof (wrap32_range (dst + i)) as Hr.
    rewrite Hoff by lia. fold L.
    replace ((0 <=? wrap32 (dst + i)) && (wrap32 (dst + i) <? 4294967296))
      with true
      by (symmetry; apply andb_true_iff; split;
          [apply Z.leb_le|apply Z.ltb_lt]; lia).
    replace (i <? FLASH_PAGE_SIZE * page_count L) with true
      by (symmetry; apply Z.ltb_lt; lia).
    cbn [andb]. apply nth_overflow. lia.
  - exact Hlog'.
  - exact Htx'.
  - reflexivity.
Qed.

(* ================================================================== *)
(** * Update Handler: properties *)
(* ================================================================== *)

Lemma read_line_app (line rest : list byte) :
  ~ In line_delimiter line ->
  read_line (line ++ line_delimiter :: rest) = Some (line, rest).
Proof.
  induction line as [|c line IH]; intros Hnot; simpl.
  - replace (Byte.eqb line_delimiter line_delimiter) with true
      by (symmetry; apply byte_eqb_eq; reflexivity).
    reflexivity.
  - replace (Byte.eqb c line_delimiter) with false.
    + rewrite IH; [reflexivity|]. intros H. apply Hnot. right. exact H.
    + symmetry. apply byte_eqb_neq. intros ->. apply Hnot. left. reflexivity.
Qed.

Lemma uart_readline_run (uart : uart_base) (capacity : Z)
    (line rest : list byte) (s : state) :
  rx s = line ++ line_delimiter :: rest ->
  fits line capacity ->
  uart_readline uart capacity s =
  Done line (mkState (mem s) rest (tx s) (flash_log s)).
Proof.
  forget_collaborators.
  intros Hrx [Hnot Hcap]. unfold uart_readline.
  rewrite Hrx, read_line_app by exact Hnot.
  destruct (capacity <? Z.of_nat (length line) + 1) eqn:E;
    [apply Z.ltb_lt in E; lia|reflexivity].
Qed.

Lemma round_up4_facts (n : Z) :
  0 <= n -> n <= round_up4 n < n + 4 /\ round_up4 n mod 4 = 0.
Proof.
  intros Hn. unfold round_up4.
  destruct (n mod 4 =? 0) eqn:E;
    [apply Z.eqb_eq in E|apply Z.eqb_neq in E]; lia.
Qed.

Lemma update_request_shape (v1 v0 b3 b2 b1 b0 : byte)
    (line digest pending : list byte) :
  update_request v1 v0 b3 b2 b1 b0 line digest ++ pending =
  v1 :: v0 :: b3 :: b2 :: b1 :: b0
  :: line ++ line_delimiter :: digest ++ line_delimiter :: pending.
Proof.
  unfold update_request. rewrite <- !app_assoc. reflexivity.
Qed.

Lemma stale_test (version : Z) (m : memory) :
  (negb (version =? 0) && (version <? current_version m) = true
   <-> stale version m).
Proof.
  unfold stale. rewrite andb_true_iff, negb_true_iff, Z.eqb_neq, Z.ltb_lt.
  reflexivity.
Qed.

(** A stale candidate: the handler answers [FRAME_BAD] and returns. *)
Lemma handle_update_rejected (v1 v0 b3 b2 b1 b0 : byte)
    (line digest pending : list byte) (s : state) :
  rx s = update_request v1 v0 b3 b2 b1 b0 line digest ++ pending ->
  fits line 1025 -> fits digest 65 ->
  stale (be16 v1 v0) (mem s) ->
  handle_update s =
  Done tt (mkState (mem s) pending (tx s ++ ["U"%byte; FRAME_BAD])
                   (flash_log s)).
Proof.
  intros Hrx Hline Hdig Hstale. rewrite update_request_shape in Hrx.
  apply stale_test in Hstale. unfold current_version in Hstale.
  cbv zeta in Hstale.
  unfold handle_update.
  unfold bind at 1. unfold uart_writeb at 1.
  do 6 (unfold bind at 1; unfold uart_readb at 1; cbn [rx tx mem flash_log];
        try rewrite Hrx).
  unfold bind at 1.
  rewrite (uart_readline_run HOST_UART 1025 line
             (digest ++ line_delimiter :: pending)) by (try reflexivity; exact Hline).
  unfold bind at 1.
  rewrite (uart_readline_run HOST_UART 65 digest pending)
    by (try reflexivity; exact Hdig).
  unfold bind at 1. unfold read_word at 1. cbn [rx tx mem flash_log].
  cbv zeta. rewrite Hstale.
  unfold uart_writeb. cbn [rx tx mem flash_log].
  rewrite <- app_assoc. reflexivity.
Qed.

Lemma round_up4_code (n : Z) :
  0 <= n < 4294967292 ->
  (if negb (n mod 4 =? 0) then wrap32 (n + (4 - n mod 4)) else n)
  = round_up4 n.
Proof.
  intros Hn. unfold round_up4.
  destruct (n mod 4 =? 0) eqn:E; cbn [negb]; [reflexivity|].
  apply wrap32_small. apply Z.eqb_neq in E. lia.
Qed.

Lemma round_up4_words (n : Z) :
  0 <= n -> 4 * Z.shiftr (round_up4 n) 2 = round_up4 n.
Proof.
  intros Hn. pose proof (round_up4_facts n Hn) as [_ Hm].
  rewrite Z.shiftr_div_pow2 by lia. change (2 ^ 2) with 4. lia.
Qed.

(** A candidate that passes the check: up to the [FRAME_OK] answer the
    handler is straight-line code, and what remains is the load of the
    payload followed by the integrity check. *)
Lemma handle_update_accepted (v1 v0 b3 b2 b1 b0 : byte)
    (line digest pending : list byte) (s : state) :
  rx s = update_request v1 v0 b3 b2 b1 b0 line digest ++ pending ->
  fits line 1025 -> fits digest 65 ->
  ~ stale (be16 v1 v0) (mem s) ->
  handle_update s =
  (load_data HOST_UART FIRMWARE_STORAGE_PTR (be32 b3 b2 b1 b0) ;;;
   result <- decrypt_firmware FIRMWARE_BOOT_PTR FIRMWARE_SIZE_PTR ;;
   ret tt)
    (staged s (be16 v1 v0) (be32 b3 b2 b1 b0) line pending).
Proof.
  intros Hrx Hline Hdig Hstale. rewrite update_request_shape in Hrx.
  rewrite <- stale_test in Hstale. apply not_true_is_false in Hstale.
  unfold handle_update.
  unfold bind at 1. unfold uart_writeb at 1.
  do 6 (unfold bind at 1; unfold uart_readb at 1; cbn [rx tx mem flash_log];
        try rewrite Hrx).
  unfold bind at 1.
  rewrite (uart_readline_run HOST_UART 1025 line
             (digest ++ line_delimiter :: pending)) by (try reflexivity; exact Hline).
  unfold bind at 1.
  rewrite (uart_readline_run HOST_UART 65 digest pending)
    by (try reflexivity; exact Hdig).
  unfold bind at 1. unfold read_word at 1. cbn [rx tx mem flash_log].
  cbv zeta. fold (current_version (mem s)). rewrite Hstale.
  destruct Hline as [_ Hcap].
  assert (Hn : wrap32 (Z.of_nat (length line) + 1) = Z.of_nat (length line) + 1)
    by (apply wrap32_small; lia).
  rewrite Hn.
  unfold bind at 1. unfold flash_erase_page at 1. cbn [rx tx mem flash_log].
  unfold bind at 1.
  replace (if negb (be16 v1 v0 =? 0)
           then flash_write_word (be16 v1 v0) FIRMWARE_VERSION_PTR
           else flash_write_word (current_version (mem s)) FIRMWARE_VERSION_PTR)
    with (flash_write_word (resolved_version (be16 v1 v0) (mem s))
                           FIRMWARE_VERSION_PTR)
    by (unfold resolved_version; destruct (be16 v1 v0 =? 0); reflexivity).
  unfold flash_write_word at 1. cbn [rx tx mem flash_log].
  unfold bind at 1. unfold flash_write_word at 1. cbn [rx tx mem flash_log].
  unfold staged, release_mem, release_ops. cbv zeta.
  destruct (Z.of_nat (length line) + 1 >? FLASH_PAGE_SIZE - 8) eqn:Esplit.
  - rewrite Z.gtb_ltb in Esplit. apply Z.ltb_lt in Esplit.
    unfold FLASH_PAGE_SIZE in Esplit.
    unfold bind at 1. unfold bind at 1. unfold flash_write at 1.
    cbn [rx tx mem flash_log].
    unfold bind at 1. unfold flash_erase_page at 1. cbn [rx tx mem flash_log].
    unfold ret at 1.
    rewrite (wrap32_small (Z.of_nat (length line) + 1 - (FLASH_PAGE_SIZE - 8)))
      by (unfold FLASH_PAGE_SIZE; lia).
    rewrite round_up4_code by (unfold FLASH_PAGE_SIZE; lia).
    unfold bind at 1. unfold flash_write at 1. cbn [rx tx mem flash_log].
    rewrite round_up4_words by (unfold FLASH_PAGE_SIZE; lia).
    unfold bind at 1. unfold uart_writeb at 1. cbn [rx tx mem flash_log].
    replace (4 * Z.shiftr (FLASH_PAGE_SIZE - 8) 2) with (FLASH_PAGE_SIZE - 8)
      by reflexivity.
    rewrite <- !app_assoc. reflexivity.
  - rewrite Z.gtb_ltb in Esplit. apply Z.ltb_ge in Esplit.
    unfold bind at 1. unfold ret at 1.
    rewrite round_up4_code by lia.
    unfold bind at 1. unfold flash_write at 1. cbn [rx tx mem flash_log].
    rewrite round_up4_words by lia.
    unfold bind at 1. unfold uart_writeb at 1. cbn [rx tx mem flash_log].
    rewrite <- !app_assoc. reflexivity.
Qed.

Lemma be32_range (b3 b2 b1 b0 : byte) : 0 <= be32 b3 b2 b1 b0 < 4294967296.
Proof.
  rewrite be32_value.
  pose proof (byte_to_Z_range b3). pose proof (byte_to_Z_range b2).
  pose proof (byte_to_Z_range b1). pose proof (byte_to_Z_range b0). lia.
Qed.

Lemma be16_range (b1 b0 : byte) : 0 <= be16 b1 b0 < 65536.
Proof.
  rewrite be16_value.
  pose proof (byte_to_Z_range b1). pose proof (byte_to_Z_range b0). lia.
Qed.

Lemma load32_range (m : memory) (a : Z) : 0 <= load32 m a < 4294967296.
Proof.
  unfold load32.
  pose proof (byte_to_Z_range (m (wrap32 a))).
  pose proof (byte_to_Z_range (m (wrap32 (a + 1)))).
  pose proof (byte_to_Z_range (m (wrap32 (a + 2)))).
  pose proof (byte_to_Z_range (m (wrap32 (a + 3)))). lia.
Qed.

Lemma load32_ext (m m' : memory) (a : Z) :
  0 <= a -> a + 4 <= 4294967296 ->
  (forall x, a <= x < a + 4 -> m x = m' x) ->
  load32 m a = load32 m' a.
Proof.
  intros Ha Hb H. unfold load32.
  rewrite !wrap32_small by lia.
  rewrite (H a), (H (a + 1)), (H (a + 2)), (H (a + 3)) by lia.
  reflexivity.
Qed.

Lemma storage_address_facts :
  FIRMWARE_STORAGE_PTR = 0x2BC00
  /\ FIRMWARE_METADATA_PTR = 0x2B400
  /\ FIRMWARE_VERSION_PTR = 0x2B404
  /\ FIRMWARE_SIZE_PTR = 0x2B400
  /\ FIRMWARE_RELEASE_MSG_PTR = 0x2B408
  /\ FIRMWARE_RELEASE_MSG_PTR2 = 0x2B800
  /\ FIRMWARE_BOOT_PTR = 0x20004000
  /\ FIRMWARE_DATA_PTR = 0.
Proof. repeat split; reflexivity. Qed.

(** After an accepted request the whole transaction runs to its end once the
    payload has arrived. *)
Lemma handle_update_completes (v1 v0 b3 b2 b1 b0 : byte)
    (line digest payload rest : list byte) (s : state) :
  rx s = update_request v1 v0 b3 b2 b1 b0 line digest ++ payload ++ rest ->
  fits line 1025 -> fits digest 65 ->
  ~ stale (be16 v1 v0) (mem s) ->
  Z.of_nat (length payload) = be32 b3 b2 b1 b0 ->
  let st := staged s (be16 v1 v0) (be32 b3 b2 b1 b0) line (payload ++ rest) in
  exists m2 : memory,
    (forall x, m2 x = loaded (mem st) FIRMWARE_STORAGE_PTR payload x)
    /\ handle_update s =
       Done tt
         (mkState
            (do_AES_decrypt FIRMWARE_DATA_PTR
               (load32 m2 (FIRMWARE_BOOT_PTR + FIRMWARE_SIZE_PTR))
               br_aes_big_cbcenc_vtable br_aes_big_cbcdec_vtable m2)
            rest
            (tx st ++ repeat FRAME_OK
                        (Z.to_nat (page_count (Z.of_nat (length payload)))))
            (flash_log st ++ load_ops FIRMWARE_STORAGE_PTR payload)).
Proof.
  intros Hrx Hline Hdig Hstale Hsize st.
  rewrite (handle_update_accepted v1 v0 b3 b2 b1 b0 line digest
             (payload ++ rest) s Hrx Hline Hdig Hstale).
  fold st. rewrite <- Hsize.
  pose proof (be32_range b3 b2 b1 b0) as Hr.
  destruct (load_data_run HOST_UART FIRMWARE_STORAGE_PTR payload rest st)
    as (s2 & Hrun & Hrx2 & Htx2 & Hlog2 & Hmem2).
  - reflexivity.
  - lia.
  - destruct storage_address_facts as (-> & _). lia.
  - reflexivity.
  - exists (mem s2). split; [exact Hmem2|].
    unfold bind at 1. rewrite Hrun.
    unfold bind at 1. unfold decrypt_firmware.
    replace (FIRMWARE_BOOT_PTR =? 0) with false by reflexivity.
    cbv zeta. unfold ret. rewrite Hrx2, Htx2, Hlog2. reflexivity.
Qed.

Lemma buffer_bytes_firstn (p : buffer) (k j : Z) :
  0 <= j <= k ->
  firstn (Z.to_nat j) (buffer_bytes p k) = buffer_bytes p j.
Proof.
  intros Hj. apply (nth_ext _ _ x00 x00).
  - rewrite length_firstn, !buffer_bytes_length. lia.
  - intros i Hi.
    rewrite length_firstn, buffer_bytes_length in Hi.
    rewrite nth_firstn.
    destruct (i <? Z.to_nat j)%nat eqn:E;
      [apply Nat.ltb_lt in E|apply Nat.ltb_ge in E; lia].
    rewrite !buffer_bytes_nth by lia. reflexivity.
Qed.

(** Up to and including its terminator, [rel_msg] holds the message. *)
Lemma buffer_bytes_message (line : list byte) (off j : Z) :
  0 <= off -> 0 <= j -> off + j <= Z.of_nat (length line) + 1 ->
  buffer_bytes (buffer_from (rel_msg_after line) off) j =
  firstn (Z.to_nat j) (skipn (Z.to_nat off) (line ++ [x00])).
Proof.
  forget_collaborators.
  intros Hoff Hj Hle.
  assert (Hlen : length (line ++ [x00]) = S (length line))
    by (rewrite length_app; simpl; lia).
  apply (nth_ext _ _ x00 x00).
  - rewrite buffer_bytes_length, length_firstn, length_skipn, Hlen. lia.
  - intros i Hi. rewrite buffer_bytes_length in Hi.
    rewrite buffer_bytes_nth by exact Hi.
    rewrite nth_firstn.
    destruct (i <? Z.to_nat j)%nat eqn:E;
      [clear E|apply Nat.ltb_ge in E; lia].
    rewrite nth_skipn. unfold buffer_from, rel_msg_after.
    destruct (off + Z.of_nat i <? Z.of_nat (length line)) eqn:E1.
    + apply Z.ltb_lt in E1.
      rewrite app_nth1 by lia. f_equal. lia.
    + apply Z.ltb_ge in E1.
      destruct (off + Z.of_nat i =? Z.of_nat (length line)) eqn:E2;
        [apply Z.eqb_eq in E2|apply Z.eqb_neq in E2; lia].
      rewrite app_nth2 by lia.
      replace (Z.to_nat off + i - length line)%nat with 0%nat by lia.
      reflexivity.
Qed.

Lemma buffer_from_zero (p : buffer) (n : Z) :
  buffer_bytes p n = buffer_bytes (buffer_from p 0) n.
Proof. reflexivity. Qed.

(** C5.  A stale candidate (not 0, and below the current version) makes the
    device answer 0x01 where an accepted update gets 0x00, right after the
    'U'; the handler then returns without reading anything further, and no
    flash driver call is made: memory and the log of flash calls are as
    before the transaction. *)
Theorem stale_update_is_rejected (v1 v0 b3 b2 b1 b0 : byte)
    (line digest pending : list byte) (s : state) :
  rx s = update_request v1 v0 b3 b2 b1 b0 line digest ++ pending ->
  fits line 1025 -> fits digest 65 ->
  be16 v1 v0 <> 0 ->
  be16 v1 v0 < current_version (mem s) ->
  exists s',
    handle_update s = Done tt s'
    /\ tx s' = tx s ++ ["U"%byte; x01]
    /\ rx s' = pending
    /\ mem s' = mem s
    /\ flash_log s' = flash_log s.
Proof.
  intros Hrx Hline Hdig Hnz Hlt.
  eexists. split.
  - apply (handle_update_rejected v1 v0 b3 b2 b1 b0 line digest pending s);
      try assumption.
    split; assumption.
  - cbn [mem rx tx flash_log]. repeat split; reflexivity.
Qed.

(** C7.  Release message placement.  Let the stored message be the line with
    its terminator, [n] bytes in all.  When [n] exceeds
    [FLASH_PAGE_SIZE - 8], the handler writes the first [FLASH_PAGE_SIZE - 8]
    bytes at [FIRMWARE_RELEASE_MSG_PTR], erases the page at
    [FIRMWARE_RELEASE_MSG_PTR2], and writes there the remaining bytes, the
    count rounded up to a multiple of 4.  Otherwise the message goes out in
    a single write at [FIRMWARE_RELEASE_MSG_PTR] and the second page is not
    touched for it.  The flash driver calls of the transaction are, in
    order: the metadata erase, the version and size words, these message
    writes, and the page loads of the payload. *)
Theorem release_message_placement (v1 v0 b3 b2 b1 b0 : byte)
    (line digest payload rest : list byte) (s : state) :
  rx s = update_request v1 v0 b3 b2 b1 b0 line digest ++ payload ++ rest ->
  fits line 1025 -> fits digest 65 ->
  ~ stale (be16 v1 v0) (mem s) ->
  Z.of_nat (length payload) = be32 b3 b2 b1 b0 ->
  let message := line ++ [x00] in
  let n := Z.of_nat (length message) in
  let room := FLASH_PAGE_SIZE - 8 in
  let metadata_ops :=
    [FlashErasePage FIRMWARE_METADATA_PTR;
     FlashWriteWord (resolved_version (be16 v1 v0) (mem s))
                    FIRMWARE_VERSION_PTR;
     FlashWriteWord (be32 b3 b2 b1 b0) FIRMWARE_SIZE_PTR] in
  exists s',
    handle_update s = Done tt s'
    /\ (room < n ->
        exists second,
          flash_log s' =
            flash_log s ++ metadata_ops
            ++ [FlashWrite (firstn (Z.to_nat room) message)
                           FIRMWARE_RELEASE_MSG_PTR (Z.shiftr room 2);
                FlashErasePage FIRMWARE_RELEASE_MSG_PTR2;
                FlashWrite second FIRMWARE_RELEASE_MSG_PTR2
                           (Z.shiftr (round_up4 (n - room)) 2)]
            ++ load_ops FIRMWARE_STORAGE_PTR payload
          /\ Z.of_nat (length second) = round_up4 (n - room)
          /\ firstn (Z.to_nat (n - room)) second
             = skipn (Z.to_nat room) message)
    /\ (n <= room ->
        exists first,
          flash_log s' =
            flash_log s ++ metadata_ops
            ++ [FlashWrite first FIRMWARE_RELEASE_MSG_PTR
                           (Z.shiftr (round_up4 n) 2)]
            ++ load_ops FIRMWARE_STORAGE_PTR payload
          /\ Z.of_nat (length first) = round_up4 n
          /\ firstn (Z.to_nat n) first = message)
    /\ (n <= round_up4 n < n + 4 /\ round_up4 n mod 4 = 0)
    /\ FIRMWARE_RELEASE_MSG_PTR2 = FIRMWARE_METADATA_PTR + FLASH_PAGE_SIZE.
Proof.
  intros Hrx Hline Hdig Hstale Hsize message n room metadata_ops.
  destruct (handle_update_completes v1 v0 b3 b2 b1 b0 line digest payload
              rest s Hrx Hline Hdig Hstale Hsize) as (m2 & _ & Hrun).
  cbv zeta in Hrun.
  assert (Hn : n = Z.of_nat (length line) + 1)
    by (unfold n, message; rewrite length_app; simpl length; lia).
  destruct Hline as [_ Hcap].
  assert (Hroom : room = 1016) by reflexivity.
  eexists. split; [exact Hrun|]. cbn [flash_log staged].
  unfold release_ops. cbv zeta. rewrite <- Hn. fold room.
  split; [|split; [|split]].
  - intros Hsplit.
    destruct (n >? room) eqn:E;
      [|rewrite Z.gtb_ltb in E; apply Z.ltb_ge in E; lia].
    exists (buffer_bytes (buffer_from (rel_msg_after line) room)
                         (round_up4 (n - room))).
    split; [|split].
    + rewrite (buffer_from_zero (rel_msg_after line) room).
      rewrite buffer_bytes_message by lia.
      rewrite skipn_O. fold message.
      rewrite <- !app_assoc. reflexivity.
    + rewrite buffer_bytes_length.
      pose proof (round_up4_facts (n - room)). lia.
    + pose proof (round_up4_facts (n - room)).
      rewrite buffer_bytes_firstn by lia.
      rewrite buffer_bytes_message by lia.
      fold message. apply firstn_all2.
      rewrite length_skipn. fold n in Hn. unfold n. lia.
  - intros Hone.
    destruct (n >? room) eqn:E;
      [rewrite Z.gtb_ltb in E; apply Z.ltb_lt in E; lia|].
    exists (buffer_bytes (rel_msg_after line) (round_up4 n)).
    split; [|split].
    + rewrite <- !app_assoc. reflexivity.
    + rewrite buffer_bytes_length.
      pose proof (round_up4_facts n). lia.
    + pose proof (round_up4_facts n).
      rewrite buffer_bytes_firstn by lia.
      rewrite (buffer_from_zero (rel_msg_after line) n).
      rewrite buffer_bytes_message by lia.
      rewrite skipn_O. fold message. apply firstn_all2. unfold n. lia.
  - apply round_up4_facts. lia.
  - reflexivity.
Qed.

(** Storing the release message stays inside its two pages. *)
Lemma release_mem_frame (m : memory) (line : list byte) (x : Z) :
  Z.of_nat (length line) + 1 <= 1025 ->
  ~ (FIRMWARE_RELEASE_MSG_PTR <= x < FIRMWARE_METADATA_PTR + 2048) ->
  release_mem m line x = m x.
Proof.
  forget_collaborators.
  intros Hcap Hx.
  destruct storage_address_facts as (_ & Hmeta & _ & _ & Hmsg & Hmsg2 & _).
  rewrite Hmeta, Hmsg in Hx.
  unfold release_mem. cbv zeta. rewrite Hmsg, Hmsg2.
  replace (FLASH_PAGE_SIZE - 8) with 1016 by reflexivity.
  destruct (Z.of_nat (length line) + 1 >? 1016) eqn:E.
  - rewrite Z.gtb_ltb in E. apply Z.ltb_lt in E.
    pose proof (round_up4_facts (Z.of_nat (length line) + 1 - 1016)).
    rewrite store_bytes_flat by (rewrite ?buffer_bytes_length; lia).
    rewrite buffer_bytes_length.
    match goal with |- (if ?c then _ else _) = _ => destruct c eqn:E1 end.
    { apply andb_true_iff in E1. destruct E1 as [E1 E2].
      apply Z.leb_le in E1. apply Z.ltb_lt in E2. lia. }
    rewrite erase_get by reflexivity.
    match goal with |- (if ?c then _ else _) = _ => destruct c eqn:E2 end.
    { apply andb_true_iff in E2. destruct E2 as [E2 E3].
      apply Z.leb_le in E2. apply Z.ltb_lt in E3.
      unfold FLASH_PAGE_SIZE in E3. lia. }
    rewrite store_bytes_flat by (rewrite ?buffer_bytes_length; lia).
    rewrite buffer_bytes_length.
    match goal with |- (if ?c then _ else _) = _ => destruct c eqn:E3 end;
      [|reflexivity].
    apply andb_true_iff in E3. destruct E3 as [E3 E4].
    apply Z.leb_le in E3. apply Z.ltb_lt in E4. lia.
  - rewrite Z.gtb_ltb in E. apply Z.ltb_ge in E.
    pose proof (round_up4_facts (Z.of_nat (length line) + 1)).
    rewrite store_bytes_flat by (rewrite ?buffer_bytes_length; lia).
    rewrite buffer_bytes_length.
    match goal with |- (if ?c then _ else _) = _ => destruct c eqn:E3 end;
      [|reflexivity].
    apply andb_true_iff in E3. destruct E3 as [E3 E4].
    apply Z.leb_le in E3. apply Z.ltb_lt in E4. lia.
Qed.

(** Up to the [FRAME_OK] answer an accepted update changes only the two
    metadata pages. *)
Lemma staged_frame (s : state) (version size : Z) (line pending : list byte)
    (x : Z) :
  Z.of_nat (length line) + 1 <= 1025 ->
  ~ (FIRMWARE_METADATA_PTR <= x < FIRMWARE_METADATA_PTR + 2048) ->
  mem (staged s version size line pending) x = mem s x.
Proof.
  forget_collaborators.
  intros Hcap Hx. unfold staged. cbn [mem].
  destruct storage_address_facts as (_ & Hmeta & Hver & Hsz & Hmsg & _).
  rewrite release_mem_frame by (try assumption; rewrite Hmsg, Hmeta in *; lia).
  rewrite Hmeta in Hx. rewrite Hsz, Hver.
  rewrite store_bytes_flat by (rewrite ?word_bytes_length; lia).
  rewrite word_bytes_length.
  match goal with |- (if ?c then _ else _) = _ => destruct c eqn:E1 end.
  { apply andb_true_iff in E1. destruct E1 as [E1 E2].
    apply Z.leb_le in E1. apply Z.ltb_lt in E2. lia. }
  rewrite store_bytes_flat by (rewrite ?word_bytes_length; lia).
  rewrite word_bytes_length.
  match goal with |- (if ?c then _ else _) = _ => destruct c eqn:E2 end.
  { apply andb_true_iff in E2. destruct E2 as [E2 E3].
    apply Z.leb_le in E2. apply Z.ltb_lt in E3. lia. }
  rewrite erase_get by reflexivity.
  match goal with |- (if ?c then _ else _) = _ => destruct c eqn:E3 end;
    [|reflexivity].
  apply andb_true_iff in E3. destruct E3 as [E3 E4].
  apply Z.leb_le in E3. apply Z.ltb_lt in E4.
  unfold FLASH_PAGE_SIZE in E4. lia.
Qed.



(** Outside the pages it writes, a load leaves memory as it was. *)
Lemma loaded_frame (m : memory) (dst : Z) (payload : list byte) (x : Z) :
  FLASH_PAGE_SIZE * page_count (Z.of_nat (length payload)) <= wrap32 (x - dst) ->
  loaded m dst payload x = m x.
Proof.
  forget_collaborators.
  intros H. unfold loaded.
  destruct (wrap32 (x - dst) <?
            FLASH_PAGE_SIZE * page_count (Z.of_nat (length payload))) eqn:E;
    [apply Z.ltb_lt in E; lia|].
  rewrite andb_false_r. reflexivity.
Qed.


(* ================================================================== *)
(** * Page Loader: stalls and frame *)
(* ================================================================== *)

Lemma load_data_loop_short (fuel : nat) :
  forall (dst size : Z) (s : state),
    size <= Z.of_nat fuel ->
    size < 4294967296 ->
    Z.of_nat (length (rx s)) < size ->
    load_data_loop fuel dst size s = Fault HostStalled.
Proof.
  forget_collaborators.
  induction fuel as [|fuel IH]; intros dst size s Hfuel Hsize Hshort.
  - lia.
  - cbn [load_data_loop].
    destruct (size >? 0) eqn:E;
      [|rewrite Z.gtb_ltb in E; apply Z.ltb_ge in E; lia].
    clear E.
    destruct (size >? FLASH_PAGE_SIZE) eqn:Ebig; rewrite Z.gtb_ltb in Ebig;
      [apply Z.ltb_lt in Ebig|apply Z.ltb_ge in Ebig];
      unfold FLASH_PAGE_SIZE in Ebig.
    + unfold bind at 1. unfold uart_read at 1.
      destruct (Z.of_nat (length (rx s)) <? FLASH_PAGE_SIZE) eqn:Erx;
        [reflexivity|].
      apply Z.ltb_ge in Erx. unfold FLASH_PAGE_SIZE in Erx.
      unfold bind, flash_erase_page, flash_write, uart_writeb.
      cbn [mem rx tx flash_log].
      apply IH.
      * rewrite wrap32_small by (unfold FLASH_PAGE_SIZE; lia).
        unfold FLASH_PAGE_SIZE. lia.
      * apply wrap32_range.
      * cbn [rx]. rewrite length_skipn.
        rewrite wrap32_small by (unfold FLASH_PAGE_SIZE; lia).
        unfold FLASH_PAGE_SIZE. lia.
    + unfold bind at 1. unfold uart_read at 1.
      destruct (Z.of_nat (length (rx s)) <? size) eqn:Erx;
        [reflexivity|apply Z.ltb_ge in Erx; lia].
Qed.

(** X1.  When the host has sent fewer bytes than [size], [load_data] does not
    return: it blocks in a read, whatever pages it has programmed so far. *)
Theorem load_data_stalls_on_short_input
    (interface : uart_base) (dst size : Z) (s : state) :
  size < 4294967296 ->
  Z.of_nat (length (rx s)) < size ->
  load_data interface dst size s = Fault HostStalled.
Proof.
  forget_collaborators.
  intros Hsize Hshort. unfold load_data.
  apply load_data_loop_short; try assumption. lia.
Qed.

(** X2.  A load changes no byte outside the pages it programs: an address
    whose offset from [dst], modulo 2^32, is at least the number of bytes in
    those pages keeps its content.  Nothing confines the pages to a region:
    they are [page_count L] consecutive pages from [dst] on. *)
Theorem load_data_frame (interface : uart_base) (dst : Z)
    (payload rest : list byte) (s : state) :
  let L := Z.of_nat (length payload) in
  rx s = payload ++ rest ->
  L < 4294967296 ->
  0 <= dst < 4294967296 ->
  dst mod FLASH_PAGE_SIZE = 0 ->
  exists s',
    load_data interface dst L s = Done tt s'
    /\ (forall x,
          FLASH_PAGE_SIZE * page_count L <= wrap32 (x - dst) ->
          mem s' x = mem s x)
    /\ (forall x, ~ (0 <= x < 4294967296) -> mem s' x = mem s x)
    /\ (dst + FLASH_PAGE_SIZE * page_count L <= 4294967296 ->
        forall x, x < dst \/ dst + FLASH_PAGE_SIZE * page_count L <= x ->
                  mem s' x = mem s x).
Proof.
  forget_collaborators.
  intros L Hrx Hlen Hdst Hal.
  destruct (load_data_run interface dst payload rest s Hrx Hlen Hdst Hal)
    as (s' & Hrun & _ & _ & _ & Hmem).
  assert (Hpc : 0 <= FLASH_PAGE_SIZE * page_count L)
    by (unfold page_count, FLASH_PAGE_SIZE, L; lia).
  assert (Hout : forall x, ~ (0 <= x < 4294967296) -> mem s' x = mem s x).
  { intros x Hx. rewrite Hmem. unfold loaded.
    destruct ((0 <=? x) && (x <? 4294967296)) eqn:E; [|reflexivity].
    apply andb_true_iff in E. destruct E as [E1 E2].
    apply Z.leb_le in E1. apply Z.ltb_lt in E2. lia. }
  exists s'. split; [exact Hrun|]. split; [|split].
  - intros x Hx. rewrite Hmem. apply loaded_frame. exact Hx.
  - exact Hout.
  - intros Hfit x Hx.
    destruct (Z_lt_le_dec x 0) as [Hneg|Hnn]; [apply Hout; lia|].
    destruct (Z_lt_le_dec x 4294967296) as [Hlt|Hge]; [|apply Hout; lia].
    rewrite Hmem. apply loaded_frame. fold L. unfold wrap32. lia.
Qed.

(* ================================================================== *)
(** * Configure Handler: properties *)
(* ================================================================== *)

Lemma configuration_address_facts :
  CONFIGURATION_METADATA_PTR = 0x2FC00
  /\ CONFIGURATION_SIZE_PTR = 0x2FC00
  /\ CONFIGURATION_STORAGE_PTR = 0x30000.
Proof. forget_collaborators. repeat split; reflexivity. Qed.

(** A configuration load whose payload has arrived runs to its end. *)
Lemma handle_configure_run (b3 b2 b1 b0 : byte)
    (payload rest : list byte) (s : state) :
  rx s = configure_request b3 b2 b1 b0 ++ payload ++ rest ->
  Z.of_nat (length payload) = be32 b3 b2 b1 b0 ->
  exists s',
    handle_configure s = Done tt s'
    /\ rx s' = rest
    /\ tx s' = tx s ++ ["C"%byte; FRAME_OK]
               ++ repeat FRAME_OK
                    (Z.to_nat (page_count (Z.of_nat (length payload))))
    /\ flash_log s' =
       flash_log s
       ++ [FlashErasePage CONFIGURATION_METADATA_PTR;
           FlashWriteWord (be32 b3 b2 b1 b0) CONFIGURATION_SIZE_PTR]
       ++ load_ops CONFIGURATION_STORAGE_PTR payload
    /\ forall x,
         mem s' x =
         loaded (store_bytes (erase (mem s) CONFIGURATION_METADATA_PTR)
                             CONFIGURATION_SIZE_PTR
                             (word_bytes (be32 b3 b2 b1 b0)))
                CONFIGURATION_STORAGE_PTR payload x.
Proof.
  forget_collaborators.
  intros Hrx Hsize. unfold configure_request in Hrx. cbn [app] in Hrx.
  pose proof (be32_range b3 b2 b1 b0) as Hr.
  unfold handle_configure.
  unfold bind at 1. unfold uart_writeb at 1.
  do 4 (unfold bind at 1; unfold uart_readb at 1; cbn [rx tx mem flash_log];
        try rewrite Hrx).
  cbv zeta.
  unfold bind at 1. unfold flash_erase_page at 1. cbn [rx tx mem flash_log].
  unfold bind at 1. unfold flash_write_word at 1. cbn [rx tx mem flash_log].
  unfold bind at 1. unfold uart_writeb at 1. cbn [rx tx mem flash_log].
  rewrite <- Hsize.
  match goal with
  | |- context [load_data _ _ _ ?st] =>
      destruct (load_data_run HOST_UART CONFIGURATION_STORAGE_PTR payload rest st)
        as (s' & Hrun & Hrx' & Htx' & Hlog' & Hmem')
  end.
  - reflexivity.
  - lia.
  - destruct configuration_address_facts as (_ & _ & ->). lia.
  - reflexivity.
  - exists s'. split; [exact Hrun|]. split; [exact Hrx'|].
    cbn [rx tx mem flash_log] in Htx', Hlog', Hmem'.
    split; [|split].
    + rewrite Htx', <- !app_assoc. reflexivity.
    + rewrite Hlog', Hsize, <- !app_assoc. reflexivity.
    + intros x. rewrite Hmem', Hsize. reflexivity.
Qed.

(** X3.  A configuration load of [L] bytes that the host completes answers
    'C', 0x00 and one 0x00 per page; the flash driver sees the erase of the
    metadata page, the size word, and the page loads; the payload then lies
    at [CONFIGURATION_STORAGE_PTR].  The size slot reads back [L] unless the
    load wraps around the address space onto the metadata page, and when the
    payload ends inside the address space nothing below the configuration
    metadata, the firmware record included, is changed. *)
Theorem handle_configure_stores (b3 b2 b1 b0 : byte)
    (payload rest : list byte) (s : state) :
  let L := Z.of_nat (length payload) in
  rx s = configure_request b3 b2 b1 b0 ++ payload ++ rest ->
  L = be32 b3 b2 b1 b0 ->
  exists s',
    handle_configure s = Done tt s'
    /\ rx s' = rest
    /\ tx s' = tx s ++ ["C"%byte; x00] ++ repeat x00 (Z.to_nat (page_count L))
    /\ flash_log s' =
       flash_log s
       ++ [FlashErasePage CONFIGURATION_METADATA_PTR;
           FlashWriteWord L CONFIGURATION_SIZE_PTR]
       ++ load_ops CONFIGURATION_STORAGE_PTR payload
    /\ (forall i, 0 <= i < L ->
          mem s' (wrap32 (CONFIGURATION_STORAGE_PTR + i))
          = nth (Z.to_nat i) payload x00)
    /\ (L <= 4294967296 - FLASH_PAGE_SIZE ->
        load32 (mem s') CONFIGURATION_SIZE_PTR = L)
    /\ (CONFIGURATION_STORAGE_PTR + L <= 4294967296 ->
        forall x, x < CONFIGURATION_METADATA_PTR -> mem s' x = mem s x).
Proof.
  forget_collaborators.
  intros L Hrx Hsize.
  destruct (handle_configure_run b3 b2 b1 b0 payload rest s Hrx Hsize)
    as (s' & Hrun & Hrx' & Htx' & Hlog' & Hmem').
  pose proof (be32_range b3 b2 b1 b0) as Hr. rewrite <- Hsize in Hr.
  destruct configuration_address_facts as (Hmeta & Hsz & Hsto).
  assert (Hpc : L <= FLASH_PAGE_SIZE * page_count L <= 4294967296)
    by (unfold page_count, FLASH_PAGE_SIZE; lia).
  exists s'. split; [exact Hrun|]. split; [exact Hrx'|].
  split; [exact Htx'|]. split; [rewrite Hlog', <- Hsize; reflexivity|].
  split; [|split].
  - intros i Hi. rewrite Hmem'. unfold loaded.
    pose proof (wrap32_range (CONFIGURATION_STORAGE_PTR + i)) as Hw.
    replace (wrap32 (wrap32 (CONFIGURATION_STORAGE_PTR + i)
                     - CONFIGURATION_STORAGE_PTR)) with i
      by (rewrite Hsto; unfold wrap32; lia).
    replace ((0 <=? wrap32 (CONFIGURATION_STORAGE_PTR + i))
             && (wrap32 (CONFIGURATION_STORAGE_PTR + i) <? 4294967296))
      with true
      by (symmetry; apply andb_true_iff; split;
          [apply Z.leb_le|apply Z.ltb_lt]; lia).
    fold L.
    replace (i <? FLASH_PAGE_SIZE * page_count L) with true
      by (symmetry; apply Z.ltb_lt; lia).
    cbn [andb]. apply nth_indep. lia.
  - intros Hfit.
    rewrite (load32_ext _
               (store_bytes (erase (mem s) CONFIGURATION_METADATA_PTR)
                  CONFIGURATION_SIZE_PTR (word_bytes (be32 b3 b2 b1 b0)))).
    + rewrite load32_store_word by (rewrite Hsz; lia).
      rewrite <- Hsize. apply wrap32_small. lia.
    + rewrite Hsz. lia.
    + rewrite Hsz. lia.
    + intros x Hx. rewrite Hsz in Hx. rewrite Hmem'.
      apply loaded_frame. fold L. rewrite Hsto.
      unfold page_count, FLASH_PAGE_SIZE in *. unfold wrap32. lia.
  - intros Hfit x Hx. rewrite Hmeta in Hx. rewrite Hsto in Hfit.
    rewrite Hmem'.
    destruct (Z_lt_le_dec x 0) as [Hneg|Hnn].
    + unfold loaded.
      replace ((0 <=? x) && (x <? 4294967296)) with false
        by (symmetry; apply andb_false_iff; left; apply Z.leb_gt; lia).
      cbn [andb].
      rewrite store_bytes_outside by lia.
      rewrite erase_get by reflexivity. rewrite Hmeta.
      replace ((195584 <=? x) && (x <? 195584 + FLASH_PAGE_SIZE)) with false
        by (symmetry; apply andb_false_iff; left; apply Z.leb_gt; lia).
      reflexivity.
    + rewrite loaded_frame
        by (fold L; rewrite Hsto;
            unfold page_count, FLASH_PAGE_SIZE in *; unfold wrap32; lia).
      rewrite store_bytes_flat by (rewrite ?word_bytes_length, ?Hsz; lia).
      rewrite word_bytes_length, Hsz.
      replace ((195584 <=? x) && (x <? 195584 + Z.of_nat 4)) with false
        by (symmetry; apply andb_false_iff; left; apply Z.leb_gt; lia).
      rewrite erase_get by reflexivity. rewrite Hmeta.
      replace ((195584 <=? x) && (x <? 195584 + FLASH_PAGE_SIZE)) with false
        by (symmetry; apply andb_false_iff; left; apply Z.leb_gt; lia).
      reflexivity.
Qed.

Lemma handle_readback_selected (sel b3 b2 b1 b0 : byte)
    (rest : list byte) (s : state) :
  rx s = readback_request sel b3 b2 b1 b0 ++ rest ->
  sel = "F"%byte \/ sel = "C"%byte ->
  handle_readback s =
  Done tt
    (mkState (mem s) rest
       (tx s ++ ["R"%byte; sel]
        ++ load_bytes (mem s)
             (if Byte.eqb sel "F" then FIRMWARE_STORAGE_PTR
              else CONFIGURATION_STORAGE_PTR)
             (be32 b3 b2 b1 b0))
       (flash_log s)).
Proof.
  forget_collaborators.
  intros Hrx Hsel. unfold readback_request in Hrx. cbn [app] in Hrx.
  unfold handle_readback, bind, uart_writeb, uart_readb, uart_write, ret.
  cbn [mem rx tx flash_log]. rewrite Hrx.
  destruct Hsel as [-> | ->]; simpl; rewrite <- ?app_assoc; reflexivity.
Qed.

(** Bytes read back from a range that holds a list are that list. *)
Lemma load_bytes_firstn (m : memory) (base n : Z) (data : list byte) :
  0 <= n <= Z.of_nat (length data) ->
  (forall i, 0 <= i < n ->
     m (wrap32 (base + i)) = nth (Z.to_nat i) data x00) ->
  load_bytes m base n = firstn (Z.to_nat n) data.
Proof.
  forget_collaborators.
  intros Hn Hdata. apply (nth_ext _ _ x00 x00).
  - rewrite load_bytes_length, length_firstn. lia.
  - intros i Hi. rewrite load_bytes_length in Hi.
    rewrite load_bytes_nth by exact Hi.
    rewrite nth_firstn.
    destruct (i <? Z.to_nat n)%nat eqn:E;
      [clear E|apply Nat.ltb_ge in E; lia].
    rewrite Hdata by lia. rewrite Nat2Z.id. reflexivity.
Qed.

(* ================================================================== *)
(** * Update Handler: more properties *)
(* ================================================================== *)

(** X5.  The candidate version is made of two bytes, so it is below 65536.
    When the current version is above 65535, which includes an erased slot
    on a build whose [OLDEST_VERSION] is that large, every candidate other
    than 0 is rejected: only an update that keeps the version is open. *)
Theorem version_above_16_bits_locks_updates (v1 v0 b3 b2 b1 b0 : byte)
    (line digest pending : list byte) (s : state) :
  rx s = update_request v1 v0 b3 b2 b1 b0 line digest ++ pending ->
  fits line 1025 -> fits digest 65 ->
  65535 < current_version (mem s) ->
  (be16 v1 v0 <> 0 ->
   handle_update s =
   Done tt (mkState (mem s) pending (tx s ++ ["U"%byte; FRAME_BAD])
                    (flash_log s)))
  /\ be16 v1 v0 <= 65535.
Proof.
  intros Hrx Hline Hdig Hcur.
  pose proof (be16_range v1 v0) as Hv.
  split; [|lia].
  intros Hnz.
  apply (handle_update_rejected v1 v0 b3 b2 b1 b0 line digest pending s);
    try assumption.
  split; [exact Hnz|lia].
Qed.

Lemma rel_msg_after_nth (line : list byte) (i : Z) :
  0 <= i <= Z.of_nat (length line) ->
  rel_msg_after line i = nth (Z.to_nat i) (line ++ [x00]) x00.
Proof.
  forget_collaborators.
  intros Hi. unfold rel_msg_after.
  destruct (i <? Z.of_nat (length line)) eqn:E1.
  - apply Z.ltb_lt in E1. rewrite app_nth1 by lia. reflexivity.
  - apply Z.ltb_ge in E1.
    destruct (i =? Z.of_nat (length line)) eqn:E2;
      [apply Z.eqb_eq in E2|apply Z.eqb_neq in E2; lia].
    rewrite app_nth2 by lia.
    replace (Z.to_nat i - length line)%nat with 0%nat by lia. reflexivity.
Qed.

Lemma in_range_true (a x b : Z) :
  a <= x < b -> (a <=? x) && (x <? b) = true.
Proof.
  forget_collaborators.
  intros H. apply andb_true_iff. split; [apply Z.leb_le|apply Z.ltb_lt]; lia.
Qed.

Lemma in_range_false (a x b : Z) :
  ~ (a <= x < b) -> (a <=? x) && (x <? b) = false.
Proof.
  forget_collaborators.
  intros H. apply andb_false_iff.
  destruct (Z_le_gt_dec a x); [right; apply Z.ltb_ge|left; apply Z.leb_gt]; lia.
Qed.

(** The release message lands in one piece: the second page starts where
    the first write ends. *)
Lemma release_mem_message (m : memory) (line : list byte) (i : Z) :
  Z.of_nat (length line) + 1 <= 1025 ->
  0 <= i <= Z.of_nat (length line) ->
  release_mem m line (FIRMWARE_RELEASE_MSG_PTR + i)
  = nth (Z.to_nat i) (line ++ [x00]) x00.
Proof.
  forget_collaborators.
  intros Hcap Hi.
  destruct storage_address_facts as (_ & Hmeta & _ & _ & Hmsg & Hmsg2 & _).
  rewrite <- rel_msg_after_nth by exact Hi.
  unfold release_mem. cbv zeta. rewrite Hmsg, Hmsg2.
  replace (FLASH_PAGE_SIZE - 8) with 1016 by reflexivity.
  destruct (Z.of_nat (length line) + 1 >? 1016) eqn:E.
  - rewrite Z.gtb_ltb in E. apply Z.ltb_lt in E.
    pose proof (round_up4_facts (Z.of_nat (length line) + 1 - 1016)) as Hr.
    rewrite store_bytes_flat by (rewrite ?buffer_bytes_length; lia).
    rewrite buffer_bytes_length.
    destruct (Z_lt_le_dec i 1016) as [Hlow|Hhigh].
    + rewrite in_range_false by lia.
      rewrite erase_get by reflexivity.
      rewrite in_range_false by (unfold FLASH_PAGE_SIZE; lia).
      rewrite store_bytes_flat by (rewrite ?buffer_bytes_length; lia).
      rewrite buffer_bytes_length.
      rewrite in_range_true by lia.
      rewrite buffer_bytes_nth by lia. f_equal. lia.
    + rewrite in_range_true by lia.
      rewrite buffer_bytes_nth by lia. unfold buffer_from. f_equal. lia.
  - rewrite Z.gtb_ltb in E. apply Z.ltb_ge in E.
    pose proof (round_up4_facts (Z.of_nat (length line) + 1)) as Hr.
    rewrite store_bytes_flat by (rewrite ?buffer_bytes_length; lia).
    rewrite buffer_bytes_length.
    rewrite in_range_true by lia.
    rewrite buffer_bytes_nth by lia. f_equal. lia.
Qed.

Lemma staged_size (s : state) (version size : Z) (line pending : list byte) :
  Z.of_nat (length line) + 1 <= 1025 ->
  0 <= size < 4294967296 ->
  load32 (mem (staged s version size line pending)) FIRMWARE_SIZE_PTR = size.
Proof.
  forget_collaborators.
  intros Hcap Hsize.
  destruct storage_address_facts as (_ & Hmeta & Hver & Hsz & Hmsg & _).
  rewrite (load32_ext _
             (store_bytes
                (store_bytes (erase (mem s) FIRMWARE_METADATA_PTR)
                   FIRMWARE_VERSION_PTR
                   (word_bytes (resolved_version version (mem s))))
                FIRMWARE_SIZE_PTR (word_bytes size))).
  - rewrite load32_store_word by (rewrite Hsz; lia).
    apply wrap32_small. exact Hsize.
  - rewrite Hsz. lia.
  - rewrite Hsz. lia.
  - intros x Hx. rewrite Hsz in Hx. unfold staged. cbn [mem].
    apply release_mem_frame; [exact Hcap|]. rewrite Hmsg, Hmeta. lia.
Qed.

(** The end of an accepted update, from the metadata pages upwards. *)
Lemma handle_update_final (v1 v0 b3 b2 b1 b0 : byte)
    (line digest payload rest : list byte) (s : state) :
  rx s = update_request v1 v0 b3 b2 b1 b0 line digest ++ payload ++ rest ->
  fits line 1025 -> fits digest 65 ->
  ~ stale (be16 v1 v0) (mem s) ->
  settles (be32 b3 b2 b1 b0) payload (mem s) ->
  let st := staged s (be16 v1 v0) (be32 b3 b2 b1 b0) line (payload ++ rest) in
  exists s',
    handle_update s = Done tt s'
    /\ rx s' = rest
    /\ tx s' = tx s ++ ["U"%byte; FRAME_OK]
               ++ repeat FRAME_OK
                    (Z.to_nat (page_count (Z.of_nat (length payload))))
    /\ flash_log s' = flash_log st ++ load_ops FIRMWARE_STORAGE_PTR payload
    /\ (forall x, FIRMWARE_METADATA_PTR <= x ->
          mem s' x = loaded (mem st) FIRMWARE_STORAGE_PTR payload x).
Proof.
  intros Hrx Hline Hdig Hns (Hsize & Harea & Hdec & _) st.
  destruct (handle_update_completes v1 v0 b3 b2 b1 b0 line digest payload
              rest s Hrx Hline Hdig Hns Hsize) as (m2 & Hm2 & Hrun).
  cbv zeta in Hrun. fold st in Hrun, Hm2.
  destruct Hline as [_ Hcap].
  destruct storage_address_facts
    as (Hsto & Hmeta & Hver & Hsz & Hmsg & Hmsg2 & Hboot & Hdata).
  pose proof (be32_range b3 b2 b1 b0) as Hsr.
  assert (Hpc : FLASH_PAGE_SIZE * page_count (Z.of_nat (length payload))
                <= 16384).
  { rewrite Hsize. unfold page_count, FLASH_PAGE_SIZE in *. lia. }
  assert (Hlenword : load32 m2 (FIRMWARE_BOOT_PTR + FIRMWARE_SIZE_PTR)
                     = load32 (mem s) (FIRMWARE_BOOT_PTR + FIRMWARE_SIZE_PTR)).
  { apply load32_ext; rewrite ?Hboot, ?Hsz; try lia.
    intros x Hx. rewrite Hm2.
    rewrite loaded_frame by (rewrite Hsto; unfold wrap32; lia).
    apply staged_frame; [exact Hcap|]. rewrite Hmeta. lia. }
  eexists. split; [exact Hrun|]. cbn [mem rx tx flash_log].
  split; [reflexivity|]. split; [|split; [reflexivity|]].
  - unfold st, staged. cbn [tx]. rewrite <- app_assoc. reflexivity.
  - intros x Hx. rewrite Hlenword.
    pose proof (load32_range (mem s) (FIRMWARE_BOOT_PTR + FIRMWARE_SIZE_PTR))
      as Hr.
    rewrite Hmeta in Hdec, Hx.
    rewrite do_AES_decrypt_frame
      by (rewrite ?Hdata, ?wrap32_small by lia; lia).
    apply Hm2.
Qed.

(** What flash holds at the end of an accepted update. *)
Lemma handle_update_flash (v1 v0 b3 b2 b1 b0 : byte)
    (line digest payload rest : list byte) (s : state) :
  rx s = update_request v1 v0 b3 b2 b1 b0 line digest ++ payload ++ rest ->
  fits line 1025 -> fits digest 65 ->
  ~ stale (be16 v1 v0) (mem s) ->
  settles (be32 b3 b2 b1 b0) payload (mem s) ->
  let L := Z.of_nat (length payload) in
  exists s',
    handle_update s = Done tt s'
    /\ rx s' = rest
    /\ tx s' = tx s ++ ["U"%byte; FRAME_OK]
               ++ repeat FRAME_OK (Z.to_nat (page_count L))
    /\ load32 (mem s') FIRMWARE_SIZE_PTR = L
    /\ (forall i, 0 <= i <= Z.of_nat (length line) ->
          mem s' (FIRMWARE_RELEASE_MSG_PTR + i)
          = nth (Z.to_nat i) (line ++ [x00]) x00)
    /\ (forall i, 0 <= i < FLASH_PAGE_SIZE * page_count L ->
          mem s' (FIRMWARE_STORAGE_PTR + i) = nth (Z.to_nat i) payload xff)
    /\ (forall x, FIRMWARE_STORAGE_PTR + FLASH_PAGE_SIZE * 16 <= x ->
          mem s' x = mem s x).
Proof.
  intros Hrx Hline Hdig Hns Hset L.
  destruct (handle_update_final v1 v0 b3 b2 b1 b0 line digest payload rest s
              Hrx Hline Hdig Hns Hset)
    as (s' & Hrun & Hrx' & Htx' & _ & Hmem').
  destruct Hset as (Hsize & Harea & _).
  destruct Hline as [_ Hcap].
  destruct storage_address_facts
    as (Hsto & Hmeta & Hver & Hsz & Hmsg & Hmsg2 & Hboot & Hdata).
  pose proof (be32_range b3 b2 b1 b0) as Hsr.
  assert (Hpc : L <= FLASH_PAGE_SIZE * page_count L <= 16384).
  { unfold L. rewrite Hsize. unfold page_count, FLASH_PAGE_SIZE in *. lia. }
  exists s'. split; [exact Hrun|]. split; [exact Hrx'|].
  split; [exact Htx'|]. split; [|split; [|split]].
  - transitivity
      (load32 (mem (staged s (be16 v1 v0) (be32 b3 b2 b1 b0) line
                           (payload ++ rest)))
              FIRMWARE_SIZE_PTR).
    + apply load32_ext; rewrite ?Hsz; try lia.
      intros x Hx. rewrite Hmem' by (rewrite Hmeta; lia).
      apply loaded_frame. fold L. rewrite Hsto. unfold wrap32. lia.
    + rewrite staged_size by lia. unfold L. symmetry. exact Hsize.
  - intros i Hi. rewrite Hmem' by (rewrite Hmeta, Hmsg; lia).
    rewrite loaded_frame
      by (fold L; rewrite Hsto, Hmsg; unfold wrap32; lia).
    unfold staged. cbn [mem]. apply release_mem_message; assumption.
  - intros i Hi. rewrite Hmem' by (rewrite Hmeta, Hsto; lia).
    unfold loaded. fold L.
    replace (wrap32 (FIRMWARE_STORAGE_PTR + i - FIRMWARE_STORAGE_PTR)) with i
      by (unfold wrap32; lia).
    rewrite (in_range_true 0 _ 4294967296) by (rewrite Hsto; lia).
    replace (i <? FLASH_PAGE_SIZE * page_count L) with true
      by (symmetry; apply Z.ltb_lt; lia).
    reflexivity.
  - intros x Hx. rewrite Hsto in Hx. unfold FLASH_PAGE_SIZE in Hx.
    rewrite Hmem' by (rewrite Hmeta; lia).
    destruct (Z_lt_le_dec x 4294967296) as [Hlt|Hge].
    + rewrite loaded_frame by (fold L; rewrite Hsto; unfold wrap32; lia).
      apply staged_frame; [exact Hcap|]. rewrite Hmeta. lia.
    + unfold loaded. rewrite in_range_false by lia. cbn [andb].
      apply staged_frame; [exact Hcap|]. rewrite Hmeta. lia.
Qed.

(** An accepted update whose payload has arrived: what is left of the
    handler is its last call, the integrity check, and the state that call
    starts from is the staged device with the payload loaded. *)
Lemma handle_update_received (v1 v0 b3 b2 b1 b0 : byte)
    (line digest payload rest : list byte) (s : state) :
  rx s = update_request v1 v0 b3 b2 b1 b0 line digest ++ payload ++ rest ->
  fits line 1025 -> fits digest 65 ->
  ~ stale (be16 v1 v0) (mem s) ->
  Z.of_nat (length payload) = be32 b3 b2 b1 b0 ->
  let st := staged s (be16 v1 v0) (be32 b3 b2 b1 b0) line (payload ++ rest) in
  exists s2,
    handle_update s =
    (result <- decrypt_firmware FIRMWARE_BOOT_PTR FIRMWARE_SIZE_PTR ;;
     ret tt) s2
    /\ rx s2 = rest
    /\ tx s2 = tx st ++ repeat FRAME_OK
                          (Z.to_nat (page_count (Z.of_nat (length payload))))
    /\ flash_log s2 = flash_log st ++ load_ops FIRMWARE_STORAGE_PTR payload
    /\ forall x, mem s2 x = loaded (mem st) FIRMWARE_STORAGE_PTR payload x.
Proof.
  intros Hrx Hline Hdig Hstale Hsize st.
  rewrite (handle_update_accepted v1 v0 b3 b2 b1 b0 line digest
             (payload ++ rest) s Hrx Hline Hdig Hstale).
  fold st. rewrite <- Hsize.
  pose proof (be32_range b3 b2 b1 b0) as Hr.
  destruct (load_data_run HOST_UART FIRMWARE_STORAGE_PTR payload rest st)
    as (s2 & Hrun & Hrx2 & Htx2 & Hlog2 & Hmem2).
  - reflexivity.
  - lia.
  - destruct storage_address_facts as (-> & _). lia.
  - reflexivity.
  - exists s2. split.
    + unfold bind at 1. rewrite Hrun. reflexivity.
    + split; [exact Hrx2|]. split; [exact Htx2|].
      split; [exact Hlog2|exact Hmem2].
Qed.

(** X6.  An accepted update whose payload has arrived and fits the sixteen
    pages of the firmware area reaches its last call, the integrity check,
    with the received size in the size slot and the payload in the firmware
    area byte for byte as the host sent it, followed by 0xFF up to the end of
    the last page. *)
Theorem update_stores_image_as_received (v1 v0 b3 b2 b1 b0 : byte)
    (line digest payload rest : list byte) (s : state) :
  let L := Z.of_nat (length payload) in
  rx s = update_request v1 v0 b3 b2 b1 b0 line digest ++ payload ++ rest ->
  fits line 1025 -> fits digest 65 ->
  ~ stale (be16 v1 v0) (mem s) ->
  L = be32 b3 b2 b1 b0 ->
  L <= FLASH_PAGE_SIZE * 16 ->
  exists s2,
    handle_update s =
    (result <- decrypt_firmware FIRMWARE_BOOT_PTR FIRMWARE_SIZE_PTR ;;
     ret tt) s2
    /\ rx s2 = rest
    /\ load32 (mem s2) FIRMWARE_SIZE_PTR = L
    /\ load_bytes (mem s2) FIRMWARE_STORAGE_PTR L = payload
    /\ (forall i, L <= i < FLASH_PAGE_SIZE * page_count L ->
          mem s2 (FIRMWARE_STORAGE_PTR + i) = xff).
Proof.
  intros L Hrx Hline Hdig Hns Hsize Harea.
  unfold FLASH_PAGE_SIZE in Harea.
  destruct (handle_update_received v1 v0 b3 b2 b1 b0 line digest payload rest s
              Hrx Hline Hdig Hns Hsize)
    as (s2 & Hrun & Hrx2 & _ & _ & Hmem2).
  destruct Hline as [_ Hcap].
  destruct storage_address_facts
    as (Hsto & Hmeta & Hver & Hsz & Hmsg & Hmsg2 & Hboot & Hdata).
  assert (Hpc : L <= FLASH_PAGE_SIZE * page_count L <= 16384)
    by (unfold page_count, FLASH_PAGE_SIZE, L in *; lia).
  assert (Hpayload : forall i, 0 <= i < FLASH_PAGE_SIZE * page_count L ->
            mem s2 (FIRMWARE_STORAGE_PTR + i) = nth (Z.to_nat i) payload xff).
  { intros i Hi. rewrite Hmem2. unfold loaded. fold L.
    replace (wrap32 (FIRMWARE_STORAGE_PTR + i - FIRMWARE_STORAGE_PTR)) with i
      by (unfold wrap32; lia).
    rewrite (in_range_true 0 _ 4294967296) by (rewrite Hsto; lia).
    replace (i <? FLASH_PAGE_SIZE * page_count L) with true
      by (symmetry; apply Z.ltb_lt; lia).
    reflexivity. }
  exists s2. split; [exact Hrun|]. split; [exact Hrx2|].
  split; [|split].
  - transitivity
      (load32 (mem (staged s (be16 v1 v0) (be32 b3 b2 b1 b0) line
                           (payload ++ rest)))
              FIRMWARE_SIZE_PTR).
    + apply load32_ext; rewrite ?Hsz; try lia.
      intros x Hx. rewrite Hmem2.
      apply loaded_frame. fold L. rewrite Hsto. unfold wrap32. lia.
    + rewrite staged_size by (try exact Hcap; apply be32_range).
      symmetry. exact Hsize.
  - rewrite (load_bytes_firstn (mem s2) FIRMWARE_STORAGE_PTR L payload).
    + apply firstn_all2. unfold L. lia.
    + unfold L. lia.
    + intros i Hi. rewrite wrap32_small by (rewrite Hsto; unfold L in *; lia).
      rewrite Hpayload by lia. apply nth_indep. unfold L in Hi. lia.
  - intros i Hi. rewrite Hpayload by lia.
    apply nth_overflow. unfold L in Hi. lia.
Qed.

(** X7.  When an accepted update has stored its release message and answers
    [FRAME_OK], flash holds the message and its terminator as one run of
    bytes from [FIRMWARE_RELEASE_MSG_PTR], whether the handler placed it in
    one write or split it over the two message pages.  The handler goes on
    from that state [st] to receive the payload. *)
Theorem release_message_is_contiguous (v1 v0 b3 b2 b1 b0 : byte)
    (line digest pending : list byte) (s : state) :
  rx s = update_request v1 v0 b3 b2 b1 b0 line digest ++ pending ->
  fits line 1025 -> fits digest 65 ->
  ~ stale (be16 v1 v0) (mem s) ->
  exists st,
    handle_update s =
    (load_data HOST_UART FIRMWARE_STORAGE_PTR (be32 b3 b2 b1 b0) ;;;
     result <- decrypt_firmware FIRMWARE_BOOT_PTR FIRMWARE_SIZE_PTR ;;
     ret tt) st
    /\ tx st = tx s ++ ["U"%byte; FRAME_OK]
    /\ load_bytes (mem st) FIRMWARE_RELEASE_MSG_PTR
                  (Z.of_nat (length line) + 1)
       = line ++ [x00].
Proof.
  intros Hrx Hline Hdig Hns.
  pose proof (handle_update_accepted v1 v0 b3 b2 b1 b0 line digest pending s
                Hrx Hline Hdig Hns) as Hrun.
  destruct Hline as [_ Hcap].
  destruct storage_address_facts as (_ & _ & _ & _ & Hptr & _).
  assert (Hlen : length (line ++ [x00]) = S (length line))
    by (rewrite length_app; simpl; lia).
  eexists. split; [exact Hrun|]. split; [reflexivity|].
  rewrite (load_bytes_firstn _ FIRMWARE_RELEASE_MSG_PTR
             (Z.of_nat (length line) + 1) (line ++ [x00])).
  - apply firstn_all2. lia.
  - lia.
  - intros i Hi. rewrite wrap32_small by (rewrite Hptr; lia).
    unfold staged. cbn [mem]. apply release_mem_message; [exact Hcap|lia].
Qed.

(* ================================================================== *)
(** * Boot Handler: properties *)
(* ================================================================== *)

(** The copy loop, when the image is no longer than the distance between the
    firmware area and the boot area: source and destination do not meet. *)
Lemma boot_copy_get (passes : nat) :
  forall (i : Z) (m : memory) (x : Z),
    0 <= i ->
    i + Z.of_nat passes <= FIRMWARE_BOOT_PTR - FIRMWARE_STORAGE_PTR ->
    boot_copy passes i m x =
    if (FIRMWARE_BOOT_PTR + i <=? x)
       && (x <? FIRMWARE_BOOT_PTR + i + Z.of_nat passes)
    then m (x - FIRMWARE_BOOT_PTR + FIRMWARE_STORAGE_PTR)
    else m x.
Proof.
  forget_collaborators.
  destruct storage_address_facts as (Hsto & _ & _ & _ & _ & _ & Hboot & _).
  rewrite Hsto, Hboot.
  induction passes as [|passes IH]; intros i m x Hi Hfit.
  - cbn [boot_copy]. rewrite in_range_false by lia. reflexivity.
  - cbn [boot_copy]. rewrite IH by lia.
    rewrite Hsto, Hboot.
    rewrite !wrap32_small by lia.
    destruct (Z.eq_dec x (536887296 + i)) as [->|Hne].
    + rewrite in_range_false by lia. rewrite in_range_true by lia.
      unfold store8. rewrite Z.eqb_refl. f_equal. lia.
    + destruct (Z_le_gt_dec (536887296 + (i + 1)) x) as [Hge|Hlt];
        [destruct (Z_lt_le_dec x (536887296 + (i + 1) + Z.of_nat passes))
           as [Hin|Hout]|].
      * rewrite !in_range_true by lia. unfold store8.
        destruct (x - 536887296 + 179200 =? 536887296 + i) eqn:E;
          [apply Z.eqb_eq in E; lia|reflexivity].
      * rewrite !in_range_false by lia. unfold store8.
        destruct (x =? 536887296 + i) eqn:E;
          [apply Z.eqb_eq in E; lia|reflexivity].
      * rewrite !in_range_false by lia. unfold store8.
        destruct (x =? 536887296 + i) eqn:E;
          [apply Z.eqb_eq in E; lia|reflexivity].
Qed.

Lemma wrap32_succ (p i : Z) :
  wrap32 (wrap32 (p + 1) + i) = wrap32 (p + (i + 1)).
Proof.
  forget_collaborators.
  unfold wrap32. rewrite Zplus_mod_idemp_l. f_equal. lia.
Qed.

(** The printing loop sends the bytes before the first zero byte. *)
Lemma print_release_msg_run (msg : list byte) :
  forall (fuel : nat) (p : Z) (k : state -> boot_outcome) (s : state),
    (length msg < fuel)%nat ->
    p = wrap32 p ->
    Forall (fun b => b <> x00) msg ->
    (forall i, 0 <= i < Z.of_nat (length msg) ->
       mem s (wrap32 (p + i)) = nth (Z.to_nat i) msg x00) ->
    mem s (wrap32 (p + Z.of_nat (length msg))) = x00 ->
    print_release_msg fuel p k s =
    k (mkState (mem s) (rx s) (tx s ++ msg) (flash_log s)).
Proof.
  forget_collaborators.
  induction msg as [|b msg IH]; intros fuel p k s Hfuel Hp Hnz Hmsg Hend.
  - destruct fuel as [|fuel]; [simpl in Hfuel; lia|].
    cbn [print_release_msg]. simpl length in Hend.
    rewrite Z.add_0_r, <- Hp in Hend. rewrite Hend.
    cbn [Byte.eqb negb]. rewrite app_nil_r.
    destruct s; reflexivity.
  - destruct fuel as [|fuel]; [simpl in Hfuel; lia|].
    cbn [print_release_msg].
    assert (Hb : mem s p = b).
    { specialize (Hmsg 0). rewrite Z.add_0_r, <- Hp in Hmsg.
      apply Hmsg. simpl length. lia. }
    rewrite Hb.
    inversion Hnz as [|? ? Hbnz Hrest]; subst.
    replace (Byte.eqb (mem s p) x00) with false
      by (symmetry; apply byte_eqb_neq; exact Hbnz).
    cbn [negb]. unfold after at 1. unfold uart_writeb at 1.
    rewrite IH.
    + cbn [mem rx tx flash_log]. rewrite <- app_assoc. reflexivity.
    + simpl in Hfuel. lia.
    + unfold wrap32. rewrite Zmod_mod. reflexivity.
    + exact Hrest.
    + intros i Hi. cbn [mem]. rewrite wrap32_succ.
      rewrite Hmsg by (simpl length; lia).
      replace (Z.to_nat (i + 1)) with (S (Z.to_nat i)) by lia. reflexivity.
    + cbn [mem]. rewrite wrap32_succ.
      replace (Z.of_nat (length msg) + 1)
        with (Z.of_nat (length (mem s p :: msg))) by (simpl length; lia).
      exact Hend.
Qed.

(** With no zero byte ahead, the printing loop uses up any number of
    passes. *)
Lemma print_release_msg_goes_on (fuel : nat) :
  forall (p : Z) (k : state -> boot_outcome) (s : state),
    p = wrap32 p ->
    (forall i, 0 <= i < Z.of_nat fuel -> mem s (wrap32 (p + i)) <> x00) ->
    print_release_msg fuel p k s = PrintsOn.
Proof.
  forget_collaborators.
  induction fuel as [|fuel IH]; intros p k s Hp Hnz.
  - reflexivity.
  - cbn [print_release_msg].
    assert (Hb : mem s p <> x00).
    { specialize (Hnz 0). rewrite Z.add_0_r, <- Hp in Hnz. apply Hnz. lia. }
    replace (Byte.eqb (mem s p) x00) with false
      by (symmetry; apply byte_eqb_neq; exact Hb).
    cbn [negb]. unfold after at 1. unfold uart_writeb at 1.
    apply IH.
    + unfold wrap32. rewrite Zmod_mod. reflexivity.
    + intros i Hi. cbn [mem]. rewrite wrap32_succ. apply Hnz. lia.
Qed.

(** The boot handler on a device whose message area starts with [msg] and
    a zero byte. *)
Lemma handle_boot_run (fuel : nat) (msg : list byte) (s : state) :
  let size := load32 (mem s) FIRMWARE_SIZE_PTR in
  size <= FIRMWARE_BOOT_PTR - FIRMWARE_STORAGE_PTR ->
  FIRMWARE_RELEASE_MSG_PTR + Z.of_nat (length msg) < FIRMWARE_BOOT_PTR ->
  Forall (fun b => b <> x00) msg ->
  (forall i, 0 <= i < Z.of_nat (length msg) ->
     mem s (FIRMWARE_RELEASE_MSG_PTR + i) = nth (Z.to_nat i) msg x00) ->
  mem s (FIRMWARE_RELEASE_MSG_PTR + Z.of_nat (length msg)) = x00 ->
  (length msg < fuel)%nat ->
  handle_boot fuel s =
  EntersFirmware (FIRMWARE_BOOT_PTR + 1)
    (mkState (boot_copy (Z.to_nat size) 0 (mem s)) (rx s)
             (tx s ++ ["B"%byte; "M"%byte] ++ msg ++ [x00])
             (flash_log s)).
Proof.
  forget_collaborators.
  intros size Hsize Hbelow Hnz Hmsg Hend Hfuel.
  pose proof (load32_range (mem s) FIRMWARE_SIZE_PTR) as Hr. fold size in Hr.
  destruct storage_address_facts
    as (Hsto & _ & _ & _ & Hptr & _ & Hboot & _).
  rewrite Hptr, Hboot in Hbelow. rewrite Hsto, Hboot in Hsize.
  assert (Hkeep : forall x, x < FIRMWARE_BOOT_PTR ->
            boot_copy (Z.to_nat size) 0 (mem s) x = mem s x).
  { intros x Hx. rewrite boot_copy_get by (rewrite ?Hsto, ?Hboot; lia).
    rewrite in_range_false by lia. reflexivity. }
  unfold handle_boot.
  unfold after at 1. unfold uart_writeb at 1. cbn [mem rx tx flash_log].
  fold size.
  unfold after at 1. unfold copy_firmware at 1. cbn [mem rx tx flash_log].
  unfold after at 1. unfold uart_writeb at 1. cbn [mem rx tx flash_log].
  rewrite (print_release_msg_run msg).
  - unfold after, uart_writeb. cbn [mem rx tx flash_log].
    rewrite wrap32_small by (rewrite Hboot; lia).
    rewrite <- !app_assoc. reflexivity.
  - exact Hfuel.
  - rewrite Hptr. reflexivity.
  - exact Hnz.
  - intros i Hi. cbn [mem].
    rewrite wrap32_small by (rewrite Hptr; lia).
    rewrite Hkeep by (rewrite Hptr, Hboot; lia). apply Hmsg. exact Hi.
  - cbn [mem]. rewrite wrap32_small by (rewrite Hptr; lia).
    rewrite Hkeep by (rewrite Hptr, Hboot; lia). exact Hend.
Qed.

(** X8.  Boot.  Let the message area start with [msg], no byte of it zero,
    followed by a zero byte, and let the stored size be at most the distance
    from the firmware area to the boot area.  The boot handler sends 'B',
    'M', the message and a zero byte, copies [size] bytes from
    [FIRMWARE_STORAGE_PTR] to [FIRMWARE_BOOT_PTR], and enters the firmware
    at [FIRMWARE_BOOT_PTR + 1].  It reads nothing from the host, makes no
    flash driver call, and changes no byte outside the boot area.  The
    message has no bound: it ends at the first zero byte, wherever that
    is. *)
Theorem handle_boot_transfers (fuel : nat) (msg : list byte) (s : state) :
  let size := load32 (mem s) FIRMWARE_SIZE_PTR in
  size <= FIRMWARE_BOOT_PTR - FIRMWARE_STORAGE_PTR ->
  FIRMWARE_RELEASE_MSG_PTR + Z.of_nat (length msg) < FIRMWARE_BOOT_PTR ->
  Forall (fun b => b <> x00) msg ->
  (forall i, 0 <= i < Z.of_nat (length msg) ->
     mem s (FIRMWARE_RELEASE_MSG_PTR + i) = nth (Z.to_nat i) msg x00) ->
  mem s (FIRMWARE_RELEASE_MSG_PTR + Z.of_nat (length msg)) = x00 ->
  (length msg < fuel)%nat ->
  exists s',
    handle_boot fuel s = EntersFirmware (FIRMWARE_BOOT_PTR + 1) s'
    /\ tx s' = tx s ++ ["B"%byte; "M"%byte] ++ msg ++ [x00]
    /\ rx s' = rx s
    /\ flash_log s' = flash_log s
    /\ (forall i, 0 <= i < size ->
          mem s' (FIRMWARE_BOOT_PTR + i) = mem s (FIRMWARE_STORAGE_PTR + i))
    /\ (forall x, ~ (FIRMWARE_BOOT_PTR <= x < FIRMWARE_BOOT_PTR + size) ->
          mem s' x = mem s x).
Proof.
  forget_collaborators.
  intros size Hsize Hbelow Hnz Hmsg Hend Hfuel.
  pose proof (load32_range (mem s) FIRMWARE_SIZE_PTR) as Hr. fold size in Hr.
  eexists. split.
  - apply (handle_boot_run fuel msg s); assumption.
  - cbn [mem rx tx flash_log]. fold size.
    split; [reflexivity|]. split; [reflexivity|]. split; [reflexivity|].
    split.
    + intros i Hi. rewrite boot_copy_get by lia.
      rewrite in_range_true by lia. f_equal. lia.
    + intros x Hx. rewrite boot_copy_get by lia.
      rewrite in_range_false by lia. reflexivity.
Qed.

(** X9.  The printing loop of the boot handler has no bound of its own: it
    ends only at a zero byte.  Let the stored size be at most the distance
    from the firmware area to the boot area, so that the copy leaves the
    message area alone, and let the first [n] bytes from
    [FIRMWARE_RELEASE_MSG_PTR], all below the boot area, be other than
    zero.  Then [n] passes of the loop, or fewer, do not bring the handler
    to the firmware. *)
Theorem handle_boot_prints_until_zero (n fuel : nat) (s : state) :
  let size := load32 (mem s) FIRMWARE_SIZE_PTR in
  size <= FIRMWARE_BOOT_PTR - FIRMWARE_STORAGE_PTR ->
  FIRMWARE_RELEASE_MSG_PTR + Z.of_nat n <= FIRMWARE_BOOT_PTR ->
  (forall i, 0 <= i < Z.of_nat n ->
     mem s (FIRMWARE_RELEASE_MSG_PTR + i) <> x00) ->
  (fuel <= n)%nat ->
  handle_boot fuel s = PrintsOn.
Proof.
  forget_collaborators.
  intros size Hsize Hbelow Hnz Hfuel.
  pose proof (load32_range (mem s) FIRMWARE_SIZE_PTR) as Hr. fold size in Hr.
  destruct storage_address_facts
    as (Hsto & _ & _ & _ & Hptr & _ & Hboot & _).
  rewrite Hptr, Hboot in Hbelow. rewrite Hsto, Hboot in Hsize.
  unfold handle_boot.
  unfold after at 1. unfold uart_writeb at 1. cbn [mem rx tx flash_log].
  fold size.
  unfold after at 1. unfold copy_firmware at 1. cbn [mem rx tx flash_log].
  unfold after at 1. unfold uart_writeb at 1. cbn [mem rx tx flash_log].
  apply print_release_msg_goes_on.
  - rewrite Hptr. reflexivity.
  - intros i Hi. cbn [mem].
    rewrite wrap32_small by (rewrite Hptr; lia).
    rewrite boot_copy_get by (rewrite ?Hsto, ?Hboot; lia).
    rewrite in_range_false by (rewrite Hptr, Hboot; lia).
    apply Hnz. lia.
Qed.

(* ================================================================== *)
(** * Command loop: properties *)
(* ================================================================== *)

Lemma main_loop_configure (passes boot_fuel : nat) (input : list byte)
    (s s' : state) :
  rx s = "C"%byte :: input ->
  handle_configure (mkState (mem s) input (tx s) (flash_log s)) = Done tt s' ->
  main_loop (S passes) boot_fuel s = main_loop passes boot_fuel s'.
Proof.
  intros Hrx Hrun. cbn [main_loop]. unfold uart_readb. rewrite Hrx.
  change (Byte.eqb "C" "C") with true. cbv iota zeta. rewrite Hrun.
  reflexivity.
Qed.

Lemma main_loop_update (passes boot_fuel : nat) (input : list byte)
    (s s' : state) :
  rx s = "U"%byte :: input ->
  handle_update (mkState (mem s) input (tx s) (flash_log s)) = Done tt s' ->
  main_loop (S passes) boot_fuel s = main_loop passes boot_fuel s'.
Proof.
  intros Hrx Hrun. cbn [main_loop]. unfold uart_readb. rewrite Hrx.
  change (Byte.eqb "U" "C") with false. change (Byte.eqb "U" "U") with true.
  cbv iota zeta. rewrite Hrun. reflexivity.
Qed.

Lemma main_loop_readback (passes boot_fuel : nat) (input : list byte)
    (s s' : state) :
  rx s = "R"%byte :: input ->
  handle_readback (mkState (mem s) input (tx s) (flash_log s)) = Done tt s' ->
  main_loop (S passes) boot_fuel s = main_loop passes boot_fuel s'.
Proof.
  intros Hrx Hrun. cbn [main_loop]. unfold uart_readb. rewrite Hrx.
  change (Byte.eqb "R" "C") with false. change (Byte.eqb "R" "U") with false.
  change (Byte.eqb "R" "R") with true.
  cbv iota zeta. rewrite Hrun. reflexivity.
Qed.

Lemma main_loop_boot (passes boot_fuel : nat) (input : list byte)
    (entry : Z) (s s' : state) :
  rx s = "B"%byte :: input ->
  handle_boot boot_fuel (mkState (mem s) input (tx s) (flash_log s))
  = EntersFirmware entry s' ->
  main_loop (S passes) boot_fuel s = Booted entry s'.
Proof.
  intros Hrx Hrun. cbn [main_loop]. unfold uart_readb. rewrite Hrx.
  change (Byte.eqb "B" "C") with false. change (Byte.eqb "B" "U") with false.
  change (Byte.eqb "B" "R") with false. change (Byte.eqb "B" "B") with true.
  cbv iota zeta. rewrite Hrun. reflexivity.
Qed.

(** X10.  Bytes that are not 'C', 'U', 'R' or 'B' are dropped one per pass of
    the command loop: nothing is sent, nothing written, and the loop goes on
    with the input that follows them. *)
Theorem main_loop_skips_unknown_bytes (junk : list byte) :
  forall (passes boot_fuel : nat) (rest : list byte) (s : state),
    rx s = junk ++ rest ->
    Forall (fun b => ~ is_command b) junk ->
    main_loop (length junk + passes) boot_fuel s =
    main_loop passes boot_fuel (mkState (mem s) rest (tx s) (flash_log s)).
Proof.
  induction junk as [|b junk IH]; intros passes boot_fuel rest s Hrx Hjunk.
  - simpl in Hrx. rewrite <- Hrx. destruct s; reflexivity.
  - inversion Hjunk as [|? ? Hb Hrest]; subst.
    unfold is_command in Hb.
    cbn [length Nat.add main_loop]. unfold uart_readb. rewrite Hrx.
    cbn [app].
    replace (Byte.eqb b "C") with false
      by (symmetry; apply byte_eqb_neq; tauto).
    replace (Byte.eqb b "U") with false
      by (symmetry; apply byte_eqb_neq; tauto).
    replace (Byte.eqb b "R") with false
      by (symmetry; apply byte_eqb_neq; tauto).
    replace (Byte.eqb b "B") with false
      by (symmetry; apply byte_eqb_neq; tauto).
    cbv iota zeta.
    rewrite (IH passes boot_fuel rest
               (mkState (mem s) (junk ++ rest) (tx s) (flash_log s)))
      by (try reflexivity; exact Hrest).
    reflexivity.
Qed.

(** X11.  Configure, then read back, through the command loop.  The host
    sends 'C' with a payload of [L] bytes, then 'R' for region 'C' with a
    size [n] of at most [L].  After two passes the loop is polling again,
    and the device has sent the answers of the load followed by 'R', 'C' and
    the first [n] bytes of the payload. *)
Theorem configure_then_readback (c3 c2 c1 c0 n3 n2 n1 n0 : byte)
    (payload rest : list byte) (passes boot_fuel : nat) (s : state) :
  let L := Z.of_nat (length payload) in
  let n := be32 n3 n2 n1 n0 in
  rx s = "C"%byte :: configure_request c3 c2 c1 c0 ++ payload
         ++ "R"%byte :: readback_request "C" n3 n2 n1 n0 ++ rest ->
  L = be32 c3 c2 c1 c0 ->
  n <= L ->
  exists s',
    main_loop (S (S passes)) boot_fuel s = main_loop passes boot_fuel s'
    /\ rx s' = rest
    /\ tx s' = tx s ++ ["C"%byte; x00] ++ repeat x00 (Z.to_nat (page_count L))
               ++ ["R"%byte; "C"%byte] ++ firstn (Z.to_nat n) payload.
Proof.
  intros L n Hrx Hsize Hn.
  destruct (handle_configure_run c3 c2 c1 c0 payload
              ("R"%byte :: readback_request "C" n3 n2 n1 n0 ++ rest)
              (mkState (mem s)
                 (configure_request c3 c2 c1 c0 ++ payload
                  ++ "R"%byte :: readback_request "C" n3 n2 n1 n0 ++ rest)
                 (tx s) (flash_log s)) eq_refl Hsize)
    as (s1 & Hrun & Hrx1 & Htx1 & _ & Hmem1).
  cbn [mem rx tx flash_log] in Htx1, Hmem1.
  pose proof (be32_range c3 c2 c1 c0) as Hr. rewrite <- Hsize in Hr.
  pose proof (be32_range n3 n2 n1 n0) as Hnr. fold n in Hnr.
  destruct configuration_address_facts as (_ & _ & Hsto).
  assert (Hpc : L <= FLASH_PAGE_SIZE * page_count L <= 4294967296)
    by (unfold page_count, FLASH_PAGE_SIZE; lia).
  assert (Hdata : forall i, 0 <= i < n ->
             mem s1 (wrap32 (CONFIGURATION_STORAGE_PTR + i))
             = nth (Z.to_nat i) payload x00).
  { intros i Hi. rewrite Hmem1. unfold loaded.
    pose proof (wrap32_range (CONFIGURATION_STORAGE_PTR + i)) as Hw.
    replace (wrap32 (wrap32 (CONFIGURATION_STORAGE_PTR + i)
                     - CONFIGURATION_STORAGE_PTR)) with i
      by (rewrite Hsto; unfold wrap32; lia).
    rewrite (in_range_true 0 _ 4294967296) by lia.
    fold L.
    replace (i <? FLASH_PAGE_SIZE * page_count L) with true
      by (symmetry; apply Z.ltb_lt; lia).
    cbn [andb]. apply nth_indep. lia. }
  eexists. split.
  - rewrite (main_loop_configure (S passes) boot_fuel _ s s1 Hrx Hrun).
    apply (main_loop_readback passes boot_fuel
             (readback_request "C" n3 n2 n1 n0 ++ rest) s1 _ Hrx1).
    apply (handle_readback_selected "C" n3 n2 n1 n0 rest).
    + reflexivity.
    + right. reflexivity.
  - cbn [mem rx tx flash_log]. split; [reflexivity|].
    change (if Byte.eqb "C" "F" then FIRMWARE_STORAGE_PTR
            else CONFIGURATION_STORAGE_PTR) with CONFIGURATION_STORAGE_PTR.
    fold n. rewrite (load_bytes_firstn (mem s1) CONFIGURATION_STORAGE_PTR n
                       payload) by (try exact Hdata; lia).
    rewrite Htx1. fold L. rewrite <- !app_assoc. reflexivity.
Qed.

(** X12.  Update, then read back, through the command loop.  The host sends
    an update that is accepted, with a payload of [L] bytes that fits the
    sixteen pages of the firmware area, then 'R' for region 'F' with a size
    [n] of at most [L].  The closing decryption of the update works from
    address 0 on the number of bytes it finds at
    [FIRMWARE_BOOT_PTR + FIRMWARE_SIZE_PTR]; let that word [w] be a multiple
    of the 16-byte block and at most [FIRMWARE_METADATA_PTR], so that the
    decryption ends below the metadata.  Then the readback sends the first
    [n] bytes of the payload as the host had sent them, undecrypted. *)
Theorem update_then_readback (v1 v0 b3 b2 b1 b0 n3 n2 n1 n0 : byte)
    (line digest payload rest : list byte) (passes boot_fuel : nat)
    (s : state) :
  let L := Z.of_nat (length payload) in
  let n := be32 n3 n2 n1 n0 in
  let w := load32 (mem s) (FIRMWARE_BOOT_PTR + FIRMWARE_SIZE_PTR) in
  rx s = "U"%byte :: update_request v1 v0 b3 b2 b1 b0 line digest ++ payload
         ++ "R"%byte :: readback_request "F" n3 n2 n1 n0 ++ rest ->
  fits line 1025 -> fits digest 65 ->
  ~ stale (be16 v1 v0) (mem s) ->
  L = be32 b3 b2 b1 b0 ->
  L <= FLASH_PAGE_SIZE * 16 ->
  w <= FIRMWARE_METADATA_PTR -> w mod 16 = 0 ->
  n <= L ->
  exists s',
    main_loop (S (S passes)) boot_fuel s = main_loop passes boot_fuel s'
    /\ rx s' = rest
    /\ tx s' = tx s ++ ["U"%byte; x00] ++ repeat x00 (Z.to_nat (page_count L))
               ++ ["R"%byte; "F"%byte] ++ firstn (Z.to_nat n) payload.
Proof.
  intros L n w Hrx Hline Hdig Hns HL Hfit Hw Hblock Hn.
  assert (Hset : settles (be32 b3 b2 b1 b0) payload (mem s)).
  { unfold settles. fold L. fold w. rewrite <- HL.
    repeat split; assumption. }
  pose proof Hset as (Hsize & Harea & _). unfold FLASH_PAGE_SIZE in Harea.
  pose proof (be32_range b3 b2 b1 b0) as Hsr.
  destruct (handle_update_flash v1 v0 b3 b2 b1 b0 line digest payload
              ("R"%byte :: readback_request "F" n3 n2 n1 n0 ++ rest)
              (mkState (mem s)
                 (update_request v1 v0 b3 b2 b1 b0 line digest ++ payload
                  ++ "R"%byte :: readback_request "F" n3 n2 n1 n0 ++ rest)
                 (tx s) (flash_log s))
              eq_refl Hline Hdig Hns Hset)
    as (s1 & Hrun & Hrx1 & Htx1 & _ & _ & Hdata & _).
  cbv zeta in Htx1, Hdata. cbn [mem rx tx flash_log] in Htx1, Hdata.
  fold L in Htx1, Hdata.
  pose proof (be32_range n3 n2 n1 n0) as Hnr. fold n in Hnr.
  assert (Hpc : L <= FLASH_PAGE_SIZE * page_count L)
    by (unfold page_count, FLASH_PAGE_SIZE, L; lia).
  destruct storage_address_facts as (Hsto & _).
  eexists. split.
  - rewrite (main_loop_update (S passes) boot_fuel _ s s1 Hrx Hrun).
    apply (main_loop_readback passes boot_fuel
             (readback_request "F" n3 n2 n1 n0 ++ rest) s1 _ Hrx1).
    apply (handle_readback_selected "F" n3 n2 n1 n0 rest).
    + reflexivity.
    + left. reflexivity.
  - cbn [mem rx tx flash_log]. split; [reflexivity|].
    change (if Byte.eqb "F" "F" then FIRMWARE_STORAGE_PTR
            else CONFIGURATION_STORAGE_PTR) with FIRMWARE_STORAGE_PTR.
    fold n.
    rewrite (load_bytes_firstn (mem s1) FIRMWARE_STORAGE_PTR n payload).
    + rewrite Htx1, <- !app_assoc. reflexivity.
    + unfold L in Hn. lia.
    + intros i Hi. rewrite wrap32_small by (rewrite Hsto; unfold L in *; lia).
      rewrite Hdata by lia. apply nth_indep. unfold L in Hn. lia.
Qed.

(** X13.  Update, then boot, through the command loop.  The host sends an
    update that is accepted, with a release message that has no zero byte
    and a payload of [L] bytes that fits the sixteen pages of the firmware
    area, then 'B'.  As in X12, let the word [w] at
    [FIRMWARE_BOOT_PTR + FIRMWARE_SIZE_PTR], the length of the closing
    decryption from address 0, be a multiple of the 16-byte block and at
    most [FIRMWARE_METADATA_PTR].  Then the device sends 'B', 'M', the
    release message of that update and a zero byte, and enters the firmware
    at [FIRMWARE_BOOT_PTR + 1] with the payload, as the host had sent it, at
    [FIRMWARE_BOOT_PTR]. *)
Theorem update_then_boot (v1 v0 b3 b2 b1 b0 : byte)
    (line digest payload rest : list byte) (passes boot_fuel : nat)
    (s : state) :
  let L := Z.of_nat (length payload) in
  let w := load32 (mem s) (FIRMWARE_BOOT_PTR + FIRMWARE_SIZE_PTR) in
  rx s = "U"%byte :: update_request v1 v0 b3 b2 b1 b0 line digest ++ payload
         ++ "B"%byte :: rest ->
  fits line 1025 -> fits digest 65 ->
  ~ stale (be16 v1 v0) (mem s) ->
  L = be32 b3 b2 b1 b0 ->
  L <= FLASH_PAGE_SIZE * 16 ->
  w <= FIRMWARE_METADATA_PTR -> w mod 16 = 0 ->
  Forall (fun b => b <> x00) line ->
  (length line < boot_fuel)%nat ->
  exists s',
    main_loop (S (S passes)) boot_fuel s = Booted (FIRMWARE_BOOT_PTR + 1) s'
    /\ rx s' = rest
    /\ tx s' = tx s ++ ["U"%byte; x00] ++ repeat x00 (Z.to_nat (page_count L))
               ++ ["B"%byte; "M"%byte] ++ line ++ [x00]
    /\ load_bytes (mem s') FIRMWARE_BOOT_PTR L = payload.
Proof.
  intros L w Hrx Hline Hdig Hns Hlen Hfit Hw Hblock Hnz Hfuel.
  assert (Hset : settles (be32 b3 b2 b1 b0) payload (mem s)).
  { unfold settles. fold L. fold w. rewrite <- Hlen.
    repeat split; assumption. }
  pose proof Hset as (Hsize & Harea & _). unfold FLASH_PAGE_SIZE in Harea.
  pose proof (be32_range b3 b2 b1 b0) as Hsr.
  destruct (handle_update_flash v1 v0 b3 b2 b1 b0 line digest payload
              ("B"%byte :: rest)
              (mkState (mem s)
                 (update_request v1 v0 b3 b2 b1 b0 line digest ++ payload
                  ++ "B"%byte :: rest)
                 (tx s) (flash_log s))
              eq_refl Hline Hdig Hns Hset)
    as (s1 & Hrun & Hrx1 & Htx1 & Hsz1 & Hmsg1 & Hdata & _).
  cbv zeta in Htx1, Hdata, Hsz1. cbn [mem rx tx flash_log] in Htx1, Hdata.
  fold L in Htx1, Hdata, Hsz1.
  destruct Hline as [_ Hcap].
  assert (Hpc : L <= FLASH_PAGE_SIZE * page_count L)
    by (unfold page_count, FLASH_PAGE_SIZE, L; lia).
  destruct storage_address_facts
    as (Hsto & _ & _ & _ & Hptr & _ & Hboot & _).
  assert (HL : 0 <= L <= 16384) by (unfold L in *; lia).
  pose proof (handle_boot_run boot_fuel line
                (mkState (mem s1) rest (tx s1) (flash_log s1))) as Hbootrun.
  cbv zeta in Hbootrun. cbn [mem rx tx flash_log] in Hbootrun.
  rewrite Hsz1 in Hbootrun.
  eexists. split.
  - rewrite (main_loop_update (S passes) boot_fuel _ s s1 Hrx Hrun).
    apply (main_loop_boot passes boot_fuel rest _ s1 _ Hrx1).
    apply Hbootrun.
    + rewrite Hsto, Hboot. lia.
    + rewrite Hptr, Hboot. lia.
    + exact Hnz.
    + intros i Hi. rewrite Hmsg1 by lia. apply app_nth1. lia.
    + rewrite Hmsg1 by lia. rewrite app_nth2 by lia.
      replace (Z.to_nat (Z.of_nat (length line)) - length line)%nat
        with 0%nat by lia.
      reflexivity.
    + exact Hfuel.
  - cbn [mem rx tx flash_log]. split; [reflexivity|]. split.
    + rewrite Htx1, <- !app_assoc. reflexivity.
    + rewrite (load_bytes_firstn _ FIRMWARE_BOOT_PTR L payload).
      * apply firstn_all2. unfold L. lia.
      * unfold L. lia.
      * intros i Hi. rewrite wrap32_small by (rewrite Hboot; lia).
        rewrite boot_copy_get by (rewrite ?Hsto, ?Hboot; lia).
        rewrite in_range_true by lia.
        replace (FIRMWARE_BOOT_PTR + i - FIRMWARE_BOOT_PTR
                 + FIRMWARE_STORAGE_PTR)
          with (FIRMWARE_STORAGE_PTR + i) by lia.
        rewrite Hdata by lia. apply nth_indep. unfold L in Hi. lia.
Qed.

(* ================================================================== *)
(** * Command loop: every pass reads *)
(* ================================================================== *)

Lemma consumes_ret {A : Type} (a : A) : consumes (ret a).
Proof.
  forget_collaborators.
  intros s a' s' H. unfold ret in H. inversion H; subst. lia.
Qed.

Lemma consumes_bind {A B : Type} (m : M A) (k : A -> M B) :
  consumes m -> (forall a, consumes (k a)) -> consumes (bind m k).
Proof.
  forget_collaborators.
  intros Hm Hk s b s' H. unfold bind in H.
  destruct (m s) as [a s1|f] eqn:E; [|discriminate].
  specialize (Hm s a s1 E). specialize (Hk a s1 b s' H). lia.
Qed.

Lemma consumes_uart_readb (uart : uart_base) : consumes (uart_readb uart).
Proof.
  forget_collaborators.
  intros s a s' H. unfold uart_readb in H.
  destruct (rx s) as [|b rest] eqn:E; [discriminate|].
  inversion H; subst. cbn [rx length]. lia.
Qed.

Lemma consumes_uart_read (uart : uart_base) (n : Z) :
  consumes (uart_read uart n).
Proof.
  forget_collaborators.
  intros s a s' H. unfold uart_read in H.
  destruct (Z.of_nat (length (rx s)) <? n); [discriminate|].
  inversion H; subst. cbn [rx]. rewrite length_skipn. lia.
Qed.

Lemma read_line_shorter (input line rest : list byte) :
  read_line input = Some (line, rest) ->
  (length rest < length input)%nat.
Proof.
  forget_collaborators.
  revert line. induction input as [|c input IH]; intros line H.
  - discriminate.
  - cbn [read_line] in H.
    destruct (Byte.eqb c line_delimiter).
    + inversion H; subst. simpl. lia.
    + destruct (read_line input) as [[l r]|] eqn:E; [|discriminate].
      inversion H; subst. specialize (IH l eq_refl). simpl. lia.
Qed.

Lemma consumes_uart_readline (uart : uart_base) (capacity : Z) :
  consumes (uart_readline uart capacity).
Proof.
  forget_collaborators.
  intros s a s' H. unfold uart_readline in H.
  destruct (read_line (rx s)) as [[l r]|] eqn:E; [|discriminate].
  destruct (capacity <? Z.of_nat (length l) + 1); [discriminate|].
  inversion H; subst. cbn [rx].
  pose proof (read_line_shorter _ _ _ E). lia.
Qed.

Lemma consumes_keeps_rx {A : Type} (m : M A) :
  (forall s a s', m s = Done a s' -> rx s' = rx s) -> consumes m.
Proof.
  forget_collaborators.
  intros H s a s' Hrun. rewrite (H s a s' Hrun). lia.
Qed.

Lemma consumes_uart_writeb (uart : uart_base) (b : byte) :
  consumes (uart_writeb uart b).
Proof.
  forget_collaborators.
  apply consumes_keeps_rx. intros s a s' H. unfold uart_writeb in H.
  inversion H; reflexivity.
Qed.

Lemma consumes_uart_write (uart : uart_base) (buf len : Z) :
  consumes (uart_write uart buf len).
Proof.
  forget_collaborators.
  apply consumes_keeps_rx. intros s a s' H. unfold uart_write in H.
  inversion H; reflexivity.
Qed.

Lemma consumes_flash_erase_page (addr : Z) : consumes (flash_erase_page addr).
Proof.
  forget_collaborators.
  apply consumes_keeps_rx. intros s a s' H. unfold flash_erase_page in H.
  inversion H; reflexivity.
Qed.

Lemma consumes_flash_write_word (data addr : Z) :
  consumes (flash_write_word data addr).
Proof.
  forget_collaborators.
  apply consumes_keeps_rx. intros s a s' H. unfold flash_write_word in H.
  inversion H; reflexivity.
Qed.

Lemma consumes_flash_write (data : buffer) (addr count : Z) :
  consumes (flash_write data addr count).
Proof.
  forget_collaborators.
  apply consumes_keeps_rx. intros s a s' H. unfold flash_write in H.
  inversion H; reflexivity.
Qed.

Lemma consumes_read_word (addr : Z) : consumes (read_word addr).
Proof.
  forget_collaborators.
  apply consumes_keeps_rx. intros s a s' H. unfold read_word in H.
  inversion H; reflexivity.
Qed.

Lemma consumes_decrypt_firmware (image totalsize : Z) :
  consumes (decrypt_firmware image totalsize).
Proof.
  apply consumes_keeps_rx. intros s a s' H. unfold decrypt_firmware in H.
  destruct (image =? 0); inversion H; reflexivity.
Qed.

Ltac consumes_steps :=
  repeat match goal with
  | |- consumes (ret _) => apply consumes_ret
  | |- consumes (uart_readb _) => apply consumes_uart_readb
  | |- consumes (uart_read _ _) => apply consumes_uart_read
  | |- consumes (uart_readline _ _) => apply consumes_uart_readline
  | |- consumes (uart_writeb _ _) => apply consumes_uart_writeb
  | |- consumes (uart_write _ _ _) => apply consumes_uart_write
  | |- consumes (flash_erase_page _) => apply consumes_flash_erase_page
  | |- consumes (flash_write_word _ _) => apply consumes_flash_write_word
  | |- consumes (flash_write _ _ _) => apply consumes_flash_write
  | |- consumes (read_word _) => apply consumes_read_word
  | |- consumes (decrypt_firmware _ _) => apply consumes_decrypt_firmware
  | |- consumes (bind _ _) => apply consumes_bind; [|intros]
  | |- consumes (if ?c then _ else _) => destruct c
  | |- consumes (match ?p with Some _ => _ | None => _ end) => destruct p
  | |- consumes (let '(_, _) := ?p in _) => destruct p
  end.

Lemma consumes_load_data_loop (fuel : nat) :
  forall dst size, consumes (load_data_loop fuel dst size).
Proof.
  forget_collaborators.
  induction fuel as [|fuel IH]; intros dst size; cbn [load_data_loop].
  - apply consumes_ret.
  - destruct (size >? 0); [|apply consumes_ret].
    cbv zeta. consumes_steps. apply IH.
Qed.

Lemma consumes_load_data (interface : uart_base) (dst size : Z) :
  consumes (load_data interface dst size).
Proof.
  forget_collaborators.
  unfold load_data. apply consumes_load_data_loop.
Qed.

Lemma consumes_handle_readback : consumes handle_readback.
Proof.
  forget_collaborators.
  unfold handle_readback. consumes_steps.
Qed.

Lemma consumes_handle_configure : consumes handle_configure.
Proof.
  forget_collaborators.
  unfold handle_configure. consumes_steps. apply consumes_load_data.
Qed.

Lemma consumes_handle_update : consumes handle_update.
Proof.
  unfold handle_update. consumes_steps. apply consumes_load_data.
Qed.

(** X14.  Every pass of the command loop reads at least the command byte and
    no handler puts input back, so a finite input is used up: with more
    passes than bytes waiting, the loop is not polling any more.  It has
    stopped in a blocking read or on an overrun, or the boot handler has
    taken over. *)
Theorem main_loop_uses_up_input (passes : nat) :
  forall (boot_fuel : nat) (s s' : state),
    (length (rx s) < passes)%nat ->
    main_loop passes boot_fuel s <> Polling s'.
Proof.
  induction passes as [|passes IH]; intros boot_fuel s s' Hlen.
  - lia.
  - cbn [main_loop].
    destruct (uart_readb HOST_UART s) as [cmd s1|f] eqn:Eread;
      [|discriminate].
    pose proof (consumes_uart_readb HOST_UART s cmd s1 Eread) as H1.
    assert (Hlt : (length (rx s1) < length (rx s))%nat).
    { unfold uart_readb in Eread.
      destruct (rx s) as [|b r] eqn:E; [discriminate|].
      inversion Eread; subst. cbn [rx length]. lia. }
    cbv zeta.
    destruct (Byte.eqb cmd "C").
    { destruct (handle_configure s1) as [u s2|f] eqn:E; [|discriminate].
      apply IH. pose proof (consumes_handle_configure s1 u s2 E). lia. }
    destruct (Byte.eqb cmd "U").
    { destruct (handle_update s1) as [u s2|f] eqn:E; [|discriminate].
      apply IH. pose proof (consumes_handle_update s1 u s2 E). lia. }
    destruct (Byte.eqb cmd "R").
    { destruct (handle_readback s1) as [u s2|f] eqn:E; [|discriminate].
      apply IH. pose proof (consumes_handle_readback s1 u s2 E). lia. }
    destruct (Byte.eqb cmd "B").
    { destruct (handle_boot boot_fuel s1); discriminate. }
    apply IH. lia.
Qed.

End Bootloader.


(* ================================================================== *)
(** * The verdict of the integrity check and the rest of the update *)
(* ================================================================== *)

Lemma bind_ext {A B : Type} (m : M A) (k k' : A -> M B) (s : state) :
  (forall a s', k a s' = k' a s') -> bind m k s = bind m k' s.
Proof.
  intros H. unfold bind. destruct (m s); [apply H|reflexivity].
Qed.

(** The state [decrypt_firmware] leaves does not depend on the digest. *)
Lemma decrypt_firmware_discarded
    (sha sha' : list byte -> list byte)
    (ve : br_block_cbcenc_class) (vd : br_block_cbcdec_class)
    (image totalsize : Z) (s : state) :
  (result <- decrypt_firmware sha ve vd image totalsize ;;
   let ret8 := wrap8 result in ret tt) s
  = (result <- decrypt_firmware sha' ve vd image totalsize ;;
     let ret8 := wrap8 result in ret tt) s.
Proof.
  unfold bind, decrypt_firmware.
  destruct (image =? 0); reflexivity.
Qed.

(** C4.  Whatever digest the integrity check computes, and so whichever
    verdict its comparison reaches, the update transaction ends the same:
    two runs of the handler that differ only in the hash function used, on
    the same device state and the same host input, have the same outcome,
    with the same bytes sent to the host, the same memory and the same
    flash driver calls.  Such runs do reach different verdicts: on an
    address space of zero bytes, a hash made of 32 zero bytes verifies (0)
    and one made of 32 bytes 0xFF does not (-1). *)
Theorem digest_verdict_not_surfaced :
  (forall (OLDEST_VERSION : Z) (line_delimiter : byte)
          (sha sha' : list byte -> list byte)
          (ve : br_block_cbcenc_class) (vd : br_block_cbcdec_class)
          (rel_msg_residue : buffer) (s : state),
      handle_update OLDEST_VERSION line_delimiter sha ve vd rel_msg_residue s
      = handle_update OLDEST_VERSION line_delimiter sha' ve vd
                      rel_msg_residue s)
  /\ (forall (ve : br_block_cbcenc_class) (vd : br_block_cbcdec_class)
             (rx0 tx0 : list byte) (log0 : list flash_op),
        let s := mkState (fun _ => x00) rx0 tx0 log0 in
        exists s',
          decrypt_firmware (fun _ => repeat x00 32) ve vd
                           FIRMWARE_BOOT_PTR FIRMWARE_SIZE_PTR s
            = Done 0 s'
          /\ decrypt_firmware (fun _ => repeat xff 32) ve vd
                              FIRMWARE_BOOT_PTR FIRMWARE_SIZE_PTR s
            = Done (-1) s').
Proof.
  split.
  - intros OLDEST_VERSION line_delimiter sha sha' ve vd rel_msg_residue s.
    unfold handle_update.
    repeat (apply bind_ext; intros).
    match goal with
    | |- (if ?c then _ else _) _ = _ => destruct c; [reflexivity|]
    end.
    repeat (apply bind_ext; intros).
    match goal with
    | p : (Z * buffer * Z)%type |- _ => destruct p as [[? ?] ?]
    end.
    repeat (apply bind_ext; intros).
    apply decrypt_firmware_discarded.
  - intros ve vd rx0 tx0 log0 s.
    eexists. unfold decrypt_firmware, s.
    replace (FIRMWARE_BOOT_PTR =? 0) with false by reflexivity.
    cbv zeta. cbn [mem rx tx flash_log].
    replace (load32 (fun _ : Z => x00) (FIRMWARE_BOOT_PTR + FIRMWARE_SIZE_PTR))
      with 0 by reflexivity.
    assert (Hnoop : forall a, do_AES_decrypt a 0 ve vd (fun _ : Z => x00)
                              = (fun _ : Z => x00)).
    { intros a. unfold do_AES_decrypt.
      match goal with |- (if ?c then _ else _) = _ => destruct c end;
        reflexivity. }
    rewrite Hnoop. split; reflexivity.
Qed.

(* ================================================================== *)
(** * The theorems at concrete devices and transactions *)
(* ================================================================== *)

Lemma handle_readback_identity_witness :
  handle_readback (idle (at_version 5) ["F"%byte; x00; x00; x00; x02; x77])
  = Done tt (mkState (at_version 5) [x77] ["R"%byte; "F"%byte; xff; xff] [])
  /\ handle_readback (idle (at_version 5) ["X"%byte; x00])
     = Done tt (mkState (at_version 5) [x00] ["R"%byte] []).
Proof.
  split.
  - exact (proj1
             (proj1 (handle_readback_identity
                       (idle (at_version 5)
                             ["F"%byte; x00; x00; x00; x02; x77])
                       "F"%byte [x00; x00; x00; x02; x77] eq_refl)
                    x00 x00 x00 x02 [x77] (or_introl eq_refl) eq_refl)).
  - apply (proj2 (handle_readback_identity
                    (idle (at_version 5) ["X"%byte; x00])
                    "X"%byte [x00] eq_refl)); discriminate.
Defined.

Lemma load_data_round_trip_witness :
  exists s',
    load_data HOST_UART FIRMWARE_STORAGE_PTR 3
              (idle factory_fresh [x11; x22; x33; x99]) = Done tt s'
    /\ rx s' = [x99]
    /\ tx s' = [x00]
    /\ mem s' FIRMWARE_STORAGE_PTR = x11
    /\ mem s' (FIRMWARE_STORAGE_PTR + 1023) = xff.
Proof.
  destruct (load_data_round_trip HOST_UART FIRMWARE_STORAGE_PTR
              [x11; x22; x33] [x99]
              (idle factory_fresh [x11; x22; x33; x99]))
    as (s' & Hrun & Hrx & Hdata & Hpad & _ & Htx & _).
  - reflexivity.
  - reflexivity.
  - split; [discriminate|reflexivity].
  - reflexivity.
  - exists s'. split; [exact Hrun|]. split; [exact Hrx|].
    split; [exact Htx|]. split.
    + exact (Hdata 0 (conj (Z.le_refl 0) eq_refl)).
    + apply (Hpad 1023). split; [discriminate|reflexivity].
Defined.

Lemma decrypt_firmware_ignores_totalsize_witness :
  decrypt_firmware demo_sha demo_cbcenc demo_cbcdec FIRMWARE_BOOT_PTR 0
                   (idle with_length_word [])
  = decrypt_firmware demo_sha demo_cbcenc demo_cbcdec FIRMWARE_BOOT_PTR 4096
                     (idle with_length_word []).
Proof.
  exact (proj1 (decrypt_firmware_ignores_totalsize demo_sha demo_cbcenc
                  demo_cbcdec FIRMWARE_BOOT_PTR 0 4096
                  (idle with_length_word []))).
Defined.

Lemma unsupported_block_size_is_silent_witness :
  unsupported_block_size demo_cbcenc demo_cbcdec8
  /\ do_AES_decrypt 0 16 demo_cbcenc demo_cbcdec8 factory_fresh = factory_fresh
  /\ exists r,
       decrypt_firmware demo_sha demo_cbcenc demo_cbcdec8
                        FIRMWARE_BOOT_PTR FIRMWARE_SIZE_PTR
                        (idle with_length_word [])
       = Done r (idle with_length_word []).
Proof.
  assert (Hbad : unsupported_block_size demo_cbcenc demo_cbcdec8)
    by (right; left; discriminate).
  split; [exact Hbad|].
  destruct (unsupported_block_size_is_silent demo_sha demo_cbcenc demo_cbcdec8
              0 16 FIRMWARE_BOOT_PTR FIRMWARE_SIZE_PTR
              (idle with_length_word []) Hbad)
    as (Hnoop & r & Hrun & _).
  split; [apply Hnoop|]. exists r. exact Hrun.
Defined.

Lemma digest_verdict_not_surfaced_witness :
  handle_update 1 x0a demo_sha demo_cbcenc demo_cbcdec demo_residue
    (idle factory_fresh [x00; x05; x00; x00; x00; x00; x41; x0a; x0a])
  = handle_update 1 x0a (fun _ => repeat xff 32) demo_cbcenc demo_cbcdec
      demo_residue
      (idle factory_fresh [x00; x05; x00; x00; x00; x00; x41; x0a; x0a]).
Proof.
  exact (proj1 digest_verdict_not_surfaced 1 x0a demo_sha
           (fun _ => repeat xff 32) demo_cbcenc demo_cbcdec demo_residue
           (idle factory_fresh [x00; x05; x00; x00; x00; x00; x41; x0a; x0a])).
Defined.

(** A request for version 3 with a four-byte payload announced, sent to a
    device that holds version 5 and was built with [OLDEST_VERSION] 1. *)
Lemma stale_update_is_rejected_witness :
  exists s',
    handle_update 1 x0a demo_sha demo_cbcenc demo_cbcdec demo_residue
      (idle (at_version 5)
            [x00; x03; x00; x00; x00; x04; x41; x0a; x68; x0a;
             x11; x22; x33; x44])
    = Done tt s'
    /\ tx s' = ["U"%byte; x01]
    /\ rx s' = [x11; x22; x33; x44]
    /\ mem s' = at_version 5
    /\ flash_log s' = [].
Proof.
  apply (stale_update_is_rejected 1 x0a demo_sha demo_cbcenc demo_cbcdec
           demo_residue x00 x03 x00 x00 x00 x04 [x41] [x68]
           [x11; x22; x33; x44]
           (idle (at_version 5)
                 [x00; x03; x00; x00; x00; x04; x41; x0a; x68; x0a;
                  x11; x22; x33; x44])).
  - reflexivity.
  - split; [simpl; intuition discriminate|simpl; lia].
  - split; [simpl; intuition discriminate|simpl; lia].
  - vm_compute. discriminate.
  - vm_compute. reflexivity.
Defined.


(** A one-byte release message goes out in one write; one of 1020 bytes is
    split after [FLASH_PAGE_SIZE - 8] bytes. *)
Lemma release_message_placement_witness :
  (exists s' first,
     handle_update 1 x0a demo_sha demo_cbcenc demo_cbcdec demo_residue
       (idle factory_fresh
             [x00; x05; x00; x00; x00; x02; x41; x0a; x68; x0a; x11; x22])
     = Done tt s'
     /\ flash_log s' =
        [FlashErasePage FIRMWARE_METADATA_PTR;
         FlashWriteWord 5 FIRMWARE_VERSION_PTR;
         FlashWriteWord 2 FIRMWARE_SIZE_PTR;
         FlashWrite first FIRMWARE_RELEASE_MSG_PTR 1]
        ++ load_ops FIRMWARE_STORAGE_PTR [x11; x22]
     /\ firstn 2 first = [x41; x00])
  /\ (exists s' second,
        handle_update 1 x0a demo_sha demo_cbcenc demo_cbcdec demo_residue
          (idle factory_fresh
                ([x00; x05; x00; x00; x00; x02]
                 ++ repeat x41 1020 ++ [x0a; x68; x0a; x11; x22]))
        = Done tt s'
        /\ flash_log s' =
           [FlashErasePage FIRMWARE_METADATA_PTR;
            FlashWriteWord 5 FIRMWARE_VERSION_PTR;
            FlashWriteWord 2 FIRMWARE_SIZE_PTR;
            FlashWrite (repeat x41 1016) FIRMWARE_RELEASE_MSG_PTR 254;
            FlashErasePage FIRMWARE_RELEASE_MSG_PTR2;
            FlashWrite second FIRMWARE_RELEASE_MSG_PTR2 2]
           ++ load_ops FIRMWARE_STORAGE_PTR [x11; x22]
        /\ firstn 5 second = [x41; x41; x41; x41; x00]).
Proof.
  assert (Hdig : fits x0a [x68] 65)
    by (split; [simpl; intuition discriminate|simpl; lia]).
  assert (Hfresh : forall v1 v0,
             be16 v1 v0 = 5 -> ~ stale 1 (be16 v1 v0) factory_fresh).
  { intros v1 v0 ->. intros [_ H]. vm_compute in H. discriminate. }
  split.
  - assert (Hline : fits x0a [x41] 1025)
      by (split; [simpl; intuition discriminate|simpl; lia]).
    destruct (release_message_placement 1 x0a demo_sha demo_cbcenc demo_cbcdec
                demo_residue x00 x05 x00 x00 x00 x02 [x41] [x68] [x11; x22] []
                (idle factory_fresh
                   [x00; x05; x00; x00; x00; x02; x41; x0a; x68; x0a;
                    x11; x22])
                eq_refl Hline Hdig (Hfresh x00 x05 eq_refl) eq_refl)
      as (s' & Hrun & _ & Hone & _).
    destruct Hone as (first & Hlog & _ & Hfirst); [vm_compute; discriminate|].
    exists s', first. split; [exact Hrun|]. split; [exact Hlog|exact Hfirst].
  - assert (Hline : fits x0a (repeat x41 1020) 1025).
    { split.
      - intros H. apply repeat_spec in H. discriminate.
      - rewrite repeat_length. lia. }
    destruct (release_message_placement 1 x0a demo_sha demo_cbcenc demo_cbcdec
                demo_residue x00 x05 x00 x00 x00 x02 (repeat x41 1020) [x68]
                [x11; x22] []
                (idle factory_fresh
                   ([x00; x05; x00; x00; x00; x02]
                    ++ repeat x41 1020 ++ [x0a; x68; x0a; x11; x22]))
                eq_refl Hline Hdig (Hfresh x00 x05 eq_refl) eq_refl)
      as (s' & Hrun & Hsplit & _).
    destruct Hsplit as (second & Hlog & _ & Hsecond);
      [vm_compute; reflexivity|].
    exists s', second. split; [exact Hrun|]. split; [exact Hlog|exact Hsecond].
Defined.


(** C1 against the code.  The cipher flips the bits 0x55 of each byte and
    the digest is a checksum.  A device holds one block of ciphertext in the
    firmware area and [decrypt_firmware] is given the address of that area.
    On the device [genuine] the digest slot holds the digest of the
    decrypted image, and the answer is -1; on the device [forged] it holds
    another digest, that of the decrypted bytes at address 0, and the answer
    is 0.  In both runs the image is left as it was, still encrypted, and
    the 16 bytes at address 0, which [FIRMWARE_DATA_PTR] designates, went
    through the cipher: the verdict is about them, not about the image. *)
Lemma decrypt_firmware_verdict_misses_payload :
  let plaintext :=
    cbcdec_run demo_cbcdec (cbcdec_init demo_cbcdec aes_key 16)
               (repeat x00 16) ciphertext in
  let genuine := resident (demo_checksum plaintext) in
  let forged := resident (repeat xa0 32) in
  let verify := decrypt_firmware demo_checksum demo_cbcenc demo_cbcdec
                                 FIRMWARE_STORAGE_PTR 16 in
  FIRMWARE_STORAGE_PTR <> 0
  /\ FIRMWARE_DATA_PTR = 0
  /\ load_bytes genuine FIRMWARE_STORAGE_PTR 16 = ciphertext
  /\ load_bytes genuine FIRMWARE_HASH_PTR 32 = demo_checksum plaintext
  /\ load_bytes forged FIRMWARE_STORAGE_PTR 16 = ciphertext
  /\ load_bytes forged FIRMWARE_HASH_PTR 32 <> demo_checksum plaintext
  /\ match verify (idle genuine []) with
     | Done r s' =>
         r = -1
         /\ load_bytes (mem s') FIRMWARE_STORAGE_PTR 16 = ciphertext
         /\ load_bytes (mem s') FIRMWARE_DATA_PTR 16 = repeat xaa 16
     | Fault _ => False
     end
  /\ match verify (idle forged []) with
     | Done r s' =>
         r = 0
         /\ load_bytes (mem s') FIRMWARE_STORAGE_PTR 16 = ciphertext
         /\ load_bytes (mem s') FIRMWARE_DATA_PTR 16 = repeat xaa 16
     | Fault _ => False
     end.
Proof.
  cbv zeta.
  split; [vm_compute; discriminate|]. split; [reflexivity|].
  split; [vm_compute; reflexivity|]. split; [vm_compute; reflexivity|].
  split; [vm_compute; reflexivity|]. split; [vm_compute; discriminate|].
  split; vm_compute; repeat split; reflexivity.
Qed.

(** C3 against the code.  The device is fresh, the word at
    [FIRMWARE_BOOT_PTR + FIRMWARE_SIZE_PTR] is 8, and the cipher flips the
    bits 0x55 of each byte.  The host updates to version 5 with a payload of
    4 bytes.  When the handler returns, the firmware area still holds the
    payload as received, and the 8 bytes at address 0, which
    [FIRMWARE_DATA_PTR] designates, went through the cipher: the integrity
    check ran on another region and with another size than the payload's. *)
Lemma handle_update_checks_wrong_region :
  let payload := [x11; x22; x33; x44] in
  let s := idle with_length_word
             ([x00; x05; x00; x00; x00; x04; x41; x0a; x68; x0a] ++ payload) in
  FIRMWARE_DATA_PTR = 0
  /\ FIRMWARE_STORAGE_PTR = 0x2BC00
  /\ be32 x00 x00 x00 x04 = 4
  /\ match handle_update 1 x0a demo_sha demo_cbcenc demo_cbcdec demo_residue s
     with
     | Done _ s' =>
         load_bytes (mem s') FIRMWARE_STORAGE_PTR 4 = payload
         /\ load_bytes (mem s) FIRMWARE_DATA_PTR 8 = repeat xff 8
         /\ load_bytes (mem s') FIRMWARE_DATA_PTR 8 = repeat xaa 8
         /\ load_bytes (mem s') (FIRMWARE_DATA_PTR + 8) 2 = repeat xff 2
     | Fault _ => False
     end.
Proof.
  cbv zeta. split; [reflexivity|]. split; [reflexivity|].
  split; [reflexivity|]. vm_compute. repeat split; reflexivity.
Qed.

(* ================================================================== *)
(** * The further properties at concrete devices and transactions *)
(* ================================================================== *)

Lemma load_data_stalls_on_short_input_witness :
  load_data HOST_UART FIRMWARE_STORAGE_PTR 4 (idle factory_fresh [x11; x22])
  = Fault HostStalled.
Proof.
  apply load_data_stalls_on_short_input.
  - reflexivity.
  - reflexivity.
Defined.

Lemma load_data_frame_witness :
  exists s',
    load_data HOST_UART FIRMWARE_STORAGE_PTR 3
              (idle factory_fresh [x11; x22; x33; x99]) = Done tt s'
    /\ mem s' (FIRMWARE_STORAGE_PTR + 1024) = xff
    /\ mem s' FIRMWARE_VERSION_PTR = xff.
Proof.
  destruct (load_data_frame HOST_UART FIRMWARE_STORAGE_PTR
              [x11; x22; x33] [x99]
              (idle factory_fresh [x11; x22; x33; x99]))
    as (s' & Hrun & _ & _ & Hflat).
  - reflexivity.
  - reflexivity.
  - split; [discriminate|reflexivity].
  - reflexivity.
  - assert (Hfit : FIRMWARE_STORAGE_PTR
                   + FLASH_PAGE_SIZE
                     * page_count (Z.of_nat (length [x11; x22; x33]))
                   <= 4294967296) by (vm_compute; discriminate).
    exists s'. split; [exact Hrun|]. split.
    + apply (Hflat Hfit (FIRMWARE_STORAGE_PTR + 1024)).
      right. vm_compute. discriminate.
    + apply (Hflat Hfit FIRMWARE_VERSION_PTR).
      left. vm_compute. reflexivity.
Defined.

Lemma handle_configure_stores_witness :
  exists s',
    handle_configure (idle factory_fresh [x00; x00; x00; x02; xde; xad; x99])
    = Done tt s'
    /\ rx s' = [x99]
    /\ tx s' = ["C"%byte; x00; x00]
    /\ load32 (mem s') CONFIGURATION_SIZE_PTR = 2.
Proof.
  destruct (handle_configure_stores x00 x00 x00 x02 [xde; xad] [x99]
              (idle factory_fresh [x00; x00; x00; x02; xde; xad; x99]))
    as (s' & Hrun & Hrx & Htx & _ & _ & Hsize & _).
  - reflexivity.
  - reflexivity.
  - exists s'. split; [exact Hrun|]. split; [exact Hrx|].
    split; [exact Htx|]. apply Hsize. vm_compute. discriminate.
Defined.

Lemma version_above_16_bits_locks_updates_witness :
  handle_update 1 x0a demo_sha demo_cbcenc demo_cbcdec demo_residue
    (idle (at_version 70000)
          [xff; xff; x00; x00; x00; x00; x41; x0a; x68; x0a])
  = Done tt (mkState (at_version 70000) [] ["U"%byte; x01] []).
Proof.
  apply (proj1 (version_above_16_bits_locks_updates 1 x0a demo_sha demo_cbcenc
                  demo_cbcdec demo_residue xff xff x00 x00 x00 x00
                  [x41] [x68] []
                  (idle (at_version 70000)
                        [xff; xff; x00; x00; x00; x00; x41; x0a; x68; x0a])
                  eq_refl
                  ltac:(split; [simpl; intuition discriminate|simpl; lia])
                  ltac:(split; [simpl; intuition discriminate|simpl; lia])
                  ltac:(vm_compute; reflexivity))).
  vm_compute. discriminate.
Defined.

Lemma update_stores_image_as_received_witness :
  exists s2,
    handle_update 1 x0a demo_sha demo_cbcenc demo_cbcdec demo_residue
      (idle factory_fresh
            [x00; x05; x00; x00; x00; x02; x41; x0a; x68; x0a; x11; x22; x99])
    = (result <- decrypt_firmware demo_sha demo_cbcenc demo_cbcdec
                                  FIRMWARE_BOOT_PTR FIRMWARE_SIZE_PTR ;;
       ret tt) s2
    /\ rx s2 = [x99]
    /\ load32 (mem s2) FIRMWARE_SIZE_PTR = 2
    /\ load_bytes (mem s2) FIRMWARE_STORAGE_PTR 2 = [x11; x22].
Proof.
  destruct (update_stores_image_as_received 1 x0a demo_sha demo_cbcenc
              demo_cbcdec demo_residue x00 x05 x00 x00 x00 x02
              [x41] [x68] [x11; x22] [x99]
              (idle factory_fresh
                    [x00; x05; x00; x00; x00; x02; x41; x0a; x68; x0a;
                     x11; x22; x99]))
    as (s2 & Hrun & Hrx & Hsize & Hdata & _).
  - reflexivity.
  - split; [simpl; intuition discriminate|simpl; lia].
  - split; [simpl; intuition discriminate|simpl; lia].
  - intros [_ H]. vm_compute in H. discriminate.
  - reflexivity.
  - vm_compute. discriminate.
  - exists s2. split; [exact Hrun|]. split; [exact Hrx|].
    split; [exact Hsize|exact Hdata].
Defined.

Lemma release_message_is_contiguous_witness :
  exists st,
    handle_update 1 x0a demo_sha demo_cbcenc demo_cbcdec demo_residue
      (idle factory_fresh
            ([x00; x05; x00; x00; x00; x02]
             ++ repeat x41 1020 ++ [x0a; x68; x0a; x11; x22]))
    = (load_data HOST_UART FIRMWARE_STORAGE_PTR 2 ;;;
       result <- decrypt_firmware demo_sha demo_cbcenc demo_cbcdec
                                  FIRMWARE_BOOT_PTR FIRMWARE_SIZE_PTR ;;
       ret tt) st
    /\ load_bytes (mem st) FIRMWARE_RELEASE_MSG_PTR 1021
       = repeat x41 1020 ++ [x00].
Proof.
  destruct (release_message_is_contiguous 1 x0a demo_sha demo_cbcenc
              demo_cbcdec demo_residue x00 x05 x00 x00 x00 x02
              (repeat x41 1020) [x68] [x11; x22]
              (idle factory_fresh
                    ([x00; x05; x00; x00; x00; x02]
                     ++ repeat x41 1020 ++ [x0a; x68; x0a; x11; x22])))
    as (st & Hrun & _ & Hmsg).
  - reflexivity.
  - split.
    + intros H. apply repeat_spec in H. discriminate.
    + rewrite repeat_length. lia.
  - split; [simpl; intuition discriminate|simpl; lia].
  - intros [_ H]. vm_compute in H. discriminate.
  - exists st. split; [exact Hrun|exact Hmsg].
Defined.

Lemma handle_boot_transfers_witness :
  exists s',
    handle_boot 5 (idle provisioned [x77])
    = EntersFirmware (FIRMWARE_BOOT_PTR + 1) s'
    /\ tx s' = ["B"%byte; "M"%byte; x41; x00]
    /\ rx s' = [x77]
    /\ mem s' FIRMWARE_BOOT_PTR = x11
    /\ mem s' (FIRMWARE_BOOT_PTR + 1) = x22.
Proof.
  destruct (handle_boot_transfers 5 [x41] (idle provisioned [x77]))
    as (s' & Hrun & Htx & Hrx & _ & Hcopy & _).
  - vm_compute. discriminate.
  - vm_compute. reflexivity.
  - repeat constructor. discriminate.
  - intros i Hi. assert (i = 0) by (simpl in Hi; lia). subst i. reflexivity.
  - reflexivity.
  - simpl. lia.
  - exists s'. split; [exact Hrun|]. split; [exact Htx|].
    split; [exact Hrx|]. split.
    + apply (Hcopy 0). vm_compute. split; [discriminate|reflexivity].
    + apply (Hcopy 1). vm_compute. split; [discriminate|reflexivity].
Defined.

Lemma handle_boot_prints_until_zero_witness :
  handle_boot 1 (idle provisioned []) = PrintsOn.
Proof.
  apply (handle_boot_prints_until_zero 1 1).
  - vm_compute. discriminate.
  - vm_compute. discriminate.
  - intros i Hi. assert (i = 0) by (simpl in Hi; lia). subst i.
    vm_compute. discriminate.
  - lia.
Defined.

Lemma main_loop_skips_unknown_bytes_witness :
  main_loop 1 x0a demo_sha demo_cbcenc demo_cbcdec demo_residue 3 5
            (idle factory_fresh [x58; x00; x99])
  = main_loop 1 x0a demo_sha demo_cbcenc demo_cbcdec demo_residue 1 5
              (idle factory_fresh [x99]).
Proof.
  apply (main_loop_skips_unknown_bytes 1 x0a demo_sha demo_cbcenc demo_cbcdec
           demo_residue [x58; x00] 1 5 [x99]
           (idle factory_fresh [x58; x00; x99])).
  - reflexivity.
  - repeat constructor; unfold is_command; intuition discriminate.
Defined.

Lemma configure_then_readback_witness :
  exists s',
    main_loop 1 x0a demo_sha demo_cbcenc demo_cbcdec demo_residue 2 5
      (idle factory_fresh
            ["C"%byte; x00; x00; x00; x02; xde; xad;
             "R"%byte; "C"%byte; x00; x00; x00; x02])
    = Polling s'
    /\ tx s' = ["C"%byte; x00; x00; "R"%byte; "C"%byte; xde; xad].
Proof.
  destruct (configure_then_readback 1 x0a demo_sha demo_cbcenc demo_cbcdec
              demo_residue x00 x00 x00 x02 x00 x00 x00 x02 [xde; xad] []
              0%nat 5%nat
              (idle factory_fresh
                    ["C"%byte; x00; x00; x00; x02; xde; xad;
                     "R"%byte; "C"%byte; x00; x00; x00; x02]))
    as (s' & Hrun & _ & Htx).
  - reflexivity.
  - reflexivity.
  - vm_compute. discriminate.
  - exists s'. split; [exact Hrun|exact Htx].
Defined.

Lemma update_then_readback_witness :
  exists s',
    main_loop 1 x0a demo_sha demo_cbcenc demo_cbcdec demo_residue 2 5
      (idle with_block_word
            ["U"%byte; x00; x05; x00; x00; x00; x02; x41; x0a; x68; x0a;
             x11; x22; "R"%byte; "F"%byte; x00; x00; x00; x02])
    = Polling s'
    /\ tx s' = ["U"%byte; x00; x00; "R"%byte; "F"%byte; x11; x22].
Proof.
  destruct (update_then_readback 1 x0a demo_sha demo_cbcenc demo_cbcdec
              demo_residue x00 x05 x00 x00 x00 x02 x00 x00 x00 x02
              [x41] [x68] [x11; x22] [] 0%nat 5%nat
              (idle with_block_word
                    ["U"%byte; x00; x05; x00; x00; x00; x02; x41; x0a;
                     x68; x0a; x11; x22;
                     "R"%byte; "F"%byte; x00; x00; x00; x02]))
    as (s' & Hrun & _ & Htx).
  - reflexivity.
  - split; [simpl; intuition discriminate|simpl; lia].
  - split; [simpl; intuition discriminate|simpl; lia].
  - intros [_ H]. vm_compute in H. discriminate.
  - reflexivity.
  - vm_compute. discriminate.
  - vm_compute. discriminate.
  - vm_compute. reflexivity.
  - vm_compute. discriminate.
  - exists s'. split; [exact Hrun|exact Htx].
Defined.

Lemma update_then_boot_witness :
  exists s',
    main_loop 1 x0a demo_sha demo_cbcenc demo_cbcdec demo_residue 2 5
      (idle with_block_word
            ["U"%byte; x00; x05; x00; x00; x00; x02; x41; x0a; x68; x0a;
             x11; x22; "B"%byte])
    = Booted (FIRMWARE_BOOT_PTR + 1) s'
    /\ tx s' = ["U"%byte; x00; x00; "B"%byte; "M"%byte; x41; x00]
    /\ load_bytes (mem s') FIRMWARE_BOOT_PTR 2 = [x11; x22].
Proof.
  destruct (update_then_boot 1 x0a demo_sha demo_cbcenc demo_cbcdec
              demo_residue x00 x05 x00 x00 x00 x02
              [x41] [x68] [x11; x22] [] 0%nat 5%nat
              (idle with_block_word
                    ["U"%byte; x00; x05; x00; x00; x00; x02; x41; x0a;
                     x68; x0a; x11; x22; "B"%byte]))
    as (s' & Hrun & _ & Htx & Hram).
  - reflexivity.
  - split; [simpl; intuition discriminate|simpl; lia].
  - split; [simpl; intuition discriminate|simpl; lia].
  - intros [_ H]. vm_compute in H. discriminate.
  - reflexivity.
  - vm_compute. discriminate.
  - vm_compute. discriminate.
  - vm_compute. reflexivity.
  - repeat constructor. discriminate.
  - simpl. lia.
  - exists s'. split; [exact Hrun|]. split; [exact Htx|exact Hram].
Defined.

Lemma main_loop_uses_up_input_witness :
  main_loop 1 x0a demo_sha demo_cbcenc demo_cbcdec demo_residue 3 5
            (idle factory_fresh [x58; "R"%byte])
  <> Polling (idle factory_fresh []).
Proof.
  apply (main_loop_uses_up_input 1 x0a demo_sha demo_cbcenc demo_cbcdec
           demo_residue 3 5 (idle factory_fresh [x58; "R"%byte])
           (idle factory_fresh [])).
  simpl. lia.
Defined.
